(** * GrowPodEmpire: the cultivation ledger and its analytics services

    A shallow embedding of

    - [src/growpodempire/blockchain/cultivation_chain.py] (module [Ledger]),
    - [src/growpodempire/services/growth_tracker.py] (module [Growth]),
    - [src/growpodempire/services/environmental_monitor.py] (module [Env]),
    - [src/growpodempire/app.py] (module [App]),

    together with the library functions these files call: SHA-256
    ([hashlib.sha256(..).hexdigest()]), [json.dumps(.., sort_keys=True)] and
    [datetime.isoformat()].

    Conventions.
    - A Python [float] is modelled by an exact rational ([Q]); rounding is
      not modelled, and [nan] (the mean of an empty list) is [None].
    - A naive [datetime] is the number of microseconds since
      0001-01-01T00:00:00.
    - A Python [str] is a [string] whose characters are the code points
      0..255.
    - [datetime.now()] reads a wall clock that the state carries: the
      n-th call returns the n-th reading.
    - Infinite floats and the range of [datetime] (years 1 to 9999) are
      not modelled: no operation overflows. *)

From Stdlib Require Import ZArith QArith Qminmax Qround String Ascii List DecimalString Lia Lqa.
From Stdlib Require Import Sorting.Sorted.
From stdpp Require Import gmap strings list.

Set Warnings "-register-all".
Set Warnings "-notation-overridden".
Set Warnings "-notation-incompatible-prefix".

(* ===================================================================== *)
(** ** SHA-256 (FIPS 180-4), as [hashlib.sha256(bytes).hexdigest()] *)
(* ===================================================================== *)

Module Sha256.
Local Open Scope Z_scope.

(** 32-bit words are integers in [0, 2^32). *)
Definition w32 (x : Z) : Z := x mod 2 ^ 32.

Definition add32 (x y : Z) : Z := w32 (x + y).

Definition rotr (n x : Z) : Z :=
  Z.lor (Z.shiftr x n) (w32 (Z.shiftl x (32 - n))).

Definition ch (x y z : Z) : Z :=
  Z.lxor (Z.land x y) (Z.land (w32 (Z.lnot x)) z).

Definition maj (x y z : Z) : Z :=
  Z.lxor (Z.lxor (Z.land x y) (Z.land x z)) (Z.land y z).

Definition big_sigma0 (x : Z) : Z :=
  Z.lxor (Z.lxor (rotr 2 x) (rotr 13 x)) (rotr 22 x).

Definition big_sigma1 (x : Z) : Z :=
  Z.lxor (Z.lxor (rotr 6 x) (rotr 11 x)) (rotr 25 x).

Definition small_sigma0 (x : Z) : Z :=
  Z.lxor (Z.lxor (rotr 7 x) (rotr 18 x)) (Z.shiftr x 3).

Definition small_sigma1 (x : Z) : Z :=
  Z.lxor (Z.lxor (rotr 17 x) (rotr 19 x)) (Z.shiftr x 10).

(** The first 64 primes. *)
Definition is_prime (n : Z) : bool :=
  (1 <? n) && forallb (fun d => negb (n mod Z.of_nat d =? 0)) (seq 2 (Z.to_nat n - 2)).

Definition first_primes : list Z :=
  filter (fun n => is_prime n = true) (map Z.of_nat (seq 2 310)).

(** The largest [r] in [lo, hi) with [r ^ 3 <= n], by bisection. *)
Fixpoint cube_root_between (fuel : nat) (lo hi n : Z) : Z :=
  match fuel with
  | O => lo
  | S fuel' =>
      if hi - lo <=? 1 then lo
      else
        let mid := (lo + hi) / 2 in
        if mid * mid * mid <=? n
        then cube_root_between fuel' mid hi n
        else cube_root_between fuel' lo mid n
  end.

(** The round constants: the first 32 bits of the fractional parts of
    the cube roots of the first 64 primes. *)
Definition round_constants : list Z :=
  Eval vm_compute in
    map (fun p => w32 (cube_root_between 40 0 (2 ^ 36) (p * 2 ^ 96))) first_primes.

(** The initial hash value: the first 32 bits of the fractional parts
    of the square roots of the first 8 primes. *)
Definition initial_state : list Z :=
  Eval vm_compute in map (fun p => w32 (Z.sqrt (p * 2 ^ 64))) (take 8 first_primes).

Definition bytes_of_string (s : string) : list Z :=
  map (fun c => Z.of_N (N_of_ascii c)) (list_ascii_of_string s).

(** Big-endian bytes of [x], [n] of them. *)
Fixpoint be_bytes (n : nat) (x : Z) : list Z :=
  match n with
  | O => []
  | S n' => (Z.shiftr x (8 * Z.of_nat n')) mod 256 :: be_bytes n' x
  end.

(** The message, the byte 0x80, zero bytes up to 56 modulo 64, and the
    length in bits on 8 bytes. *)
Definition pad (msg : list Z) : list Z :=
  let len := Z.of_nat (length msg) in
  msg ++ [0x80] ++ repeat 0 (Z.to_nat ((55 - len) mod 64))
      ++ be_bytes 8 (8 * len).

Fixpoint words_of_bytes (fuel : nat) (bs : list Z) : list Z :=
  match fuel, bs with
  | S fuel', b0 :: b1 :: b2 :: b3 :: rest =>
      (b0 * 2 ^ 24 + b1 * 2 ^ 16 + b2 * 2 ^ 8 + b3) :: words_of_bytes fuel' rest
  | _, _ => []
  end.

Fixpoint chunks16 (fuel : nat) (ws : list Z) : list (list Z) :=
  match fuel, ws with
  | S fuel', _ :: _ => take 16 ws :: chunks16 fuel' (drop 16 ws)
  | _, _ => []
  end.

(** The message schedule, most recent word first: [rev_w] holds
    W(t-1), W(t-2), .. *)
Fixpoint extend_schedule (n : nat) (rev_w : list Z) : list Z :=
  match n with
  | O => rev_w
  | S n' =>
      let wt := add32 (add32 (add32 (small_sigma1 (nth 1 rev_w 0)) (nth 6 rev_w 0))
                             (small_sigma0 (nth 14 rev_w 0)))
                      (nth 15 rev_w 0) in
      extend_schedule n' (wt :: rev_w)
  end.

Definition schedule (block : list Z) : list Z :=
  rev (extend_schedule 48 (rev block)).

Record regs := Regs { ra : Z; rb : Z; rc : Z; rd : Z;
                      re : Z; rf : Z; rg : Z; rh : Z }.

Definition round (s : regs) (kw : Z * Z) : regs :=
  let t1 := add32 (add32 (add32 (add32 (rh s) (big_sigma1 (re s)))
                                (ch (re s) (rf s) (rg s))) (fst kw)) (snd kw) in
  let t2 := add32 (big_sigma0 (ra s)) (maj (ra s) (rb s) (rc s)) in
  Regs (add32 t1 t2) (ra s) (rb s) (rc s) (add32 (rd s) t1) (re s) (rf s) (rg s).

Definition regs_of_list (h : list Z) : regs :=
  Regs (nth 0 h 0) (nth 1 h 0) (nth 2 h 0) (nth 3 h 0)
       (nth 4 h 0) (nth 5 h 0) (nth 6 h 0) (nth 7 h 0).

Definition list_of_regs (s : regs) : list Z :=
  [ra s; rb s; rc s; rd s; re s; rf s; rg s; rh s].

Definition compress (h : list Z) (block : list Z) : list Z :=
  let s := fold_left round (combine round_constants (schedule block)) (regs_of_list h) in
  map (fun p => add32 (fst p) (snd p)) (combine h (list_of_regs s)).

Definition digest_words (msg : list Z) : list Z :=
  let bs := pad msg in
  let ws := words_of_bytes (length bs) bs in
  fold_left compress (chunks16 (length ws) ws) initial_state.

Definition hex_digit (d : Z) : ascii :=
  nth (Z.to_nat d) (list_ascii_of_string "0123456789abcdef") "0"%char.

Fixpoint hex_fixed (n : nat) (x : Z) : string :=
  match n with
  | O => EmptyString
  | S n' => String (hex_digit ((Z.shiftr x (4 * Z.of_nat n')) mod 16)) (hex_fixed n' x)
  end.

(** [hashlib.sha256(s.encode()).hexdigest()] for an ASCII [s]. *)
Definition sha256 (s : string) : string :=
  String.concat "" (map (hex_fixed 8) (digest_words (bytes_of_string s))).

End Sha256.

(* ===================================================================== *)
(** ** [datetime]: the wall clock and [isoformat] *)
(* ===================================================================== *)

Module PyTime.
Local Open Scope Z_scope.

(** A naive [datetime]: microseconds since 0001-01-01T00:00:00. *)
Definition datetime : Type := Z.

(** A [timedelta]: a signed number of microseconds. *)
Definition timedelta : Type := Z.

Definition us_per_second : Z := 1000000.
Definition us_per_hour : Z := 3600 * us_per_second.
Definition us_per_day : Z := 86400 * us_per_second.

Definition timedelta_days (d : Z) : timedelta := d * us_per_day.

(** [td.total_seconds()], a float. *)
Definition total_seconds (td : timedelta) : Q := Qmake td 1 / Qmake us_per_second 1.

(** [td.days]: whole days, rounding down. *)
Definition days (td : timedelta) : Z := td / us_per_day.

(** The wall clock: [wall n] is what the n-th call of [datetime.now()]
    returns; [ticks] counts the calls made so far. *)
Record Clock := MkClock { wall : nat -> datetime; ticks : nat }.

(** [datetime.now()] *)
Definition now (c : Clock) : datetime * Clock :=
  (wall c (ticks c), MkClock (wall c) (S (ticks c))).

Definition days_before_month (m : Z) : Z :=
  nth (Z.to_nat m) [-1; 0; 31; 59; 90; 120; 151; 181; 212; 243; 273; 304; 334] 0.

Definition days_in_month (m : Z) : Z :=
  nth (Z.to_nat m) [-1; 31; 28; 31; 30; 31; 30; 31; 31; 30; 31; 30; 31] 0.

Definition Z_of_bool (b : bool) : Z := if b then 1 else 0.

(** CPython's [_ord2ymd]: proleptic Gregorian ordinal (day 1 is
    0001-01-01) to (year, month, day). *)
Definition ord2ymd (ordinal : Z) : Z * Z * Z :=
  let n := ordinal - 1 in
  let n400 := n / 146097 in
  let n := n mod 146097 in
  let year := n400 * 400 + 1 in
  let n100 := n / 36524 in
  let n := n mod 36524 in
  let n4 := n / 1461 in
  let n := n mod 1461 in
  let n1 := n / 365 in
  let n := n mod 365 in
  let year := year + n100 * 100 + n4 * 4 + n1 in
  if (n1 =? 4) || (n100 =? 4) then (year - 1, 12, 31)
  else
    let leapyear := (n1 =? 3) && (negb (n4 =? 24) || (n100 =? 3)) in
    let month := Z.shiftr (n + 50) 5 in
    let preceding := days_before_month month + Z_of_bool ((2 <? month) && leapyear) in
    if n <? preceding then
      let month := month - 1 in
      let preceding := preceding - (days_in_month month + Z_of_bool ((month =? 2) && leapyear)) in
      (year, month, n - preceding + 1)
    else (year, month, n - preceding + 1).

(** A non-negative integer in decimal, left-padded with zeros to [width]
    characters (the "%0*d" of the C formatting). *)
Definition decimal (x : Z) : string := NilZero.string_of_int (Z.to_int x).

Definition zero_pad (width : nat) (x : Z) : string :=
  let s := decimal x in
  string_of_list_ascii (repeat "0"%char (width - String.length s)) +:+ s.

(** [dt.isoformat()]: YYYY-MM-DDTHH:MM:SS, followed by .ffffff when the
    microsecond field is not zero. *)
Definition isoformat (t : datetime) : string :=
  let '(y, m, d) := ord2ymd (t / us_per_day + 1) in
  let r := t mod us_per_day in
  let hh := r / us_per_hour in
  let mi := (r mod us_per_hour) / (60 * us_per_second) in
  let ss := (r mod (60 * us_per_second)) / us_per_second in
  let us := r mod us_per_second in
  zero_pad 4 y +:+ "-" +:+ zero_pad 2 m +:+ "-" +:+ zero_pad 2 d +:+ "T" +:+
  zero_pad 2 hh +:+ ":" +:+ zero_pad 2 mi +:+ ":" +:+ zero_pad 2 ss +:+
  (if us =? 0 then "" else "." +:+ zero_pad 6 us).

(** [datetime(y, m, d, hh, mi, ss, us)] for dates whose ordinal is known;
    used to write readable clock readings. *)
Definition at_ordinal (ordinal hh mi ss us : Z) : datetime :=
  (ordinal - 1) * us_per_day + hh * us_per_hour + mi * 60 * us_per_second
  + ss * us_per_second + us.

(** A reading for worked examples: noon of 2024-01-01. *)
Definition noon_2024 : datetime := at_ordinal 738886 12 0 0 0.

End PyTime.

(* ===================================================================== *)
(** ** Python values, [str]/[repr], and [json.dumps(.., sort_keys=True)] *)
(* ===================================================================== *)

Module Json.
Import PyTime.
Local Open Scope Z_scope.

(** What a ledger payload is made of.  A [float] leaf carries the text
    that [float.__repr__] gives for it, which is what [json.dumps] and
    [str] write.  A [dict] keeps its insertion order and has [str] keys. *)
Inductive value : Type :=
| VNone
| VBool (b : bool)
| VInt (n : Z)
| VFloat (repr : string)
| VStr (s : string)
| VDatetime (t : datetime)
| VList (elems : list value)
| VDict (items : list (string * value)).

Definition dict : Type := list (string * value).

(** [d.get(key, default)] *)
Fixpoint dict_get (key : string) (d : dict) (default : value) : value :=
  match d with
  | [] => default
  | (k, v) :: rest => if String.eqb k key then v else dict_get key rest default
  end.

(** What is left after [_make_serializable]: no [datetime] object. *)
Inductive json : Type :=
| JNull
| JBool (b : bool)
| JInt (n : Z)
| JFloat (repr : string)
| JStr (s : string)
| JList (elems : list json)
| JDict (items : list (string * json)).

Definition dquote : string := String "034"%char EmptyString.
Definition squote : string := String "039"%char EmptyString.
Definition backslash : string := String "092"%char EmptyString.

Definition code (c : ascii) : Z := Z.of_N (N_of_ascii c).

Fixpoint concat_map_chars (f : ascii -> string) (s : string) : string :=
  match s with
  | EmptyString => EmptyString
  | String c rest => f c +:+ concat_map_chars f rest
  end.

(** [json.encoder.py_encode_basestring_ascii]: everything outside
    ' '..'~', the double quote and the backslash are escaped. *)
Definition escape_json_char (c : ascii) : string :=
  let n := code c in
  if n =? 34 then backslash +:+ dquote
  else if n =? 92 then backslash +:+ backslash
  else if n =? 10 then backslash +:+ "n"
  else if n =? 13 then backslash +:+ "r"
  else if n =? 9 then backslash +:+ "t"
  else if n =? 12 then backslash +:+ "f"
  else if n =? 8 then backslash +:+ "b"
  else if (32 <=? n) && (n <=? 126) then String c EmptyString
  else backslash +:+ "u" +:+ Sha256.hex_fixed 4 n.

Definition json_string (s : string) : string :=
  dquote +:+ concat_map_chars escape_json_char s +:+ dquote.

(** Python's [int.__str__]. *)
Definition int_str (n : Z) : string := NilZero.string_of_int (Z.to_int n).

Fixpoint insert_by_key (kv : string * string) (l : list (string * string))
  : list (string * string) :=
  match l with
  | [] => [kv]
  | x :: rest =>
      if String.leb (fst kv) (fst x) then kv :: l else x :: insert_by_key kv rest
  end.

(** [sorted(items)] on the keys (a stable insertion sort). *)
Definition sort_by_key (l : list (string * string)) : list (string * string) :=
  fold_right insert_by_key [] l.

(** The order that [sort_by_key] puts the members in. *)
Definition key_le (a b : string * string) : Prop := String.leb (fst a) (fst b) = true.

(** [json.dumps(j, sort_keys=True)], with the default separators.  The
    members of an object are rendered and then put in key order. *)
Fixpoint dumps (j : json) : string :=
  match j with
  | JNull => "null"
  | JBool true => "true"
  | JBool false => "false"
  | JInt n => int_str n
  | JFloat r => r
  | JStr s => json_string s
  | JList elems => "[" +:+ String.concat ", " (map dumps elems) +:+ "]"
  | JDict items =>
      "{" +:+ String.concat ", "
                (map snd (sort_by_key
                   (map (fun kv : string * json =>
                           let (k, v) := kv in
                           (k, json_string k +:+ ": " +:+ dumps v)) items)))
          +:+ "}"
  end.

(** [Block._make_serializable] (cultivation_chain.py, 35-43). *)
Fixpoint _make_serializable (obj : value) : json :=
  match obj with
  | VDatetime t => JStr (isoformat t)
  | VDict items =>
      JDict (map (fun kv : string * value =>
                    let (k, v) := kv in (k, _make_serializable v)) items)
  | VList elems => JList (map _make_serializable elems)
  | VNone => JNull
  | VBool b => JBool b
  | VInt n => JInt n
  | VFloat r => JFloat r
  | VStr s => JStr s
  end.

(** Code points below 256 that [str.isprintable] rejects. *)
Definition printable (n : Z) : bool :=
  ((32 <=? n) && (n <=? 126)) || ((161 <=? n) && negb (n =? 173)).

Fixpoint contains_char (n : Z) (s : string) : bool :=
  match s with
  | EmptyString => false
  | String c rest => (code c =? n) || contains_char n rest
  end.

(** [str.__repr__]: single quotes unless the text has a single quote and
    no double quote. *)
Definition str_repr (s : string) : string :=
  let q := if contains_char 39 s && negb (contains_char 34 s) then 34 else 39 in
  let esc (c : ascii) : string :=
    let n := code c in
    if (n =? q) || (n =? 92) then backslash +:+ String c EmptyString
    else if n =? 9 then backslash +:+ "t"
    else if n =? 10 then backslash +:+ "n"
    else if n =? 13 then backslash +:+ "r"
    else if printable n then String c EmptyString
    else backslash +:+ "x" +:+ Sha256.hex_fixed 2 n in
  let quote := if q =? 34 then dquote else squote in
  quote +:+ concat_map_chars esc s +:+ quote.

(** [datetime.__repr__]: trailing zero second and microsecond are left
    out. *)
Definition datetime_repr (t : datetime) : string :=
  let '(y, m, d) := ord2ymd (t / us_per_day + 1) in
  let r := t mod us_per_day in
  let hh := r / us_per_hour in
  let mi := (r mod us_per_hour) / (60 * us_per_second) in
  let ss := (r mod (60 * us_per_second)) / us_per_second in
  let us := r mod us_per_second in
  let fields :=
    [y; m; d; hh; mi] ++
    (if us =? 0 then (if ss =? 0 then [] else [ss]) else [ss; us]) in
  "datetime.datetime(" +:+ String.concat ", " (map int_str fields) +:+ ")".

(** [repr(obj)] *)
Fixpoint py_repr (obj : value) : string :=
  match obj with
  | VNone => "None"
  | VBool true => "True"
  | VBool false => "False"
  | VInt n => int_str n
  | VFloat r => r
  | VStr s => str_repr s
  | VDatetime t => datetime_repr t
  | VList elems => "[" +:+ String.concat ", " (map py_repr elems) +:+ "]"
  | VDict items =>
      "{" +:+ String.concat ", "
                (map (fun kv : string * value =>
                           let (k, v) := kv in
                           str_repr k +:+ ": " +:+ py_repr v) items)
          +:+ "}"
  end.

(** [datetime.__str__] is [isoformat(sep=' ')]. *)
Definition datetime_str (t : datetime) : string :=
  let iso := isoformat t in
  substring 0 10 iso +:+ " " +:+ substring 11 (String.length iso - 11) iso.

(** [str(obj)] *)
Definition py_str (obj : value) : string :=
  match obj with
  | VStr s => s
  | VDatetime t => datetime_str t
  | _ => py_repr obj
  end.

End Json.

(* ===================================================================== *)
(** ** Control: exceptions, and state threaded with the wall clock *)
(* ===================================================================== *)

Module Py.
Import PyTime.

Inductive exn : Type :=
| ValueError (msg : string)
| ValidationError (model : string) (field : string)
| IndexError (msg : string).

Inductive outcome (A : Type) : Type :=
| Return (a : A)
| Raise (e : exn).
Arguments Return {A} a.
Arguments Raise {A} e.

(** A method on an object of state [S]: it reads the clock, may change
    the object, and returns or raises.  What it changed before raising
    stays changed. *)
Definition M (S A : Type) : Type := Clock * S -> outcome A * (Clock * S).

Definition ret {S A} (a : A) : M S A := fun w => (Return a, w).

Definition raise {S A} (e : exn) : M S A := fun w => (Raise e, w).

Definition bind {S A B} (m : M S A) (k : A -> M S B) : M S B :=
  fun w =>
    match m w with
    | (Return a, w') => k a w'
    | (Raise e, w') => (Raise e, w')
    end.

Definition get {S} : M S S := fun w => (Return (snd w), w).

Definition put {S} (s : S) : M S unit := fun w => (Return tt, (fst w, s)).

Definition now_ {S} : M S datetime :=
  fun w => let (t, c) := now (fst w) in (Return t, (c, snd w)).

Definition lift {S A} (o : outcome A) : M S A := fun w => (o, w).

(** Run a method of a component object held in a field of [S]. *)
Definition zoom {S T A} (proj : S -> T) (upd : T -> S -> S) (m : M T A) : M S A :=
  fun w =>
    let '(o, (c, t)) := m (fst w, proj (snd w)) in
    (o, (c, upd t (snd w))).

Module Notations.
Notation "'let*' x := m 'in' k" := (bind m (fun x => k))
  (at level 10, x name, m at level 100, k at level 200).
Notation "'exec' m 'in' k" := (bind m (fun _ => k))
  (at level 10, m at level 100, k at level 200).
End Notations.

End Py.

(* ===================================================================== *)
(** ** models/__init__.py *)
(* ===================================================================== *)

Module Models.
Import PyTime Json.

Inductive GrowthStage : Type :=
| SEED | GERMINATION | SEEDLING | VEGETATIVE | FLOWERING | HARVEST.

#[export] Instance GrowthStage_eq_dec : EqDecision GrowthStage.
Proof. solve_decision. Defined.

(** [list(GrowthStage)]: the members in declaration order. *)
Definition GrowthStage_members : list GrowthStage :=
  [SEED; GERMINATION; SEEDLING; VEGETATIVE; FLOWERING; HARVEST].

(** [stage.value] *)
Definition GrowthStage_value (s : GrowthStage) : string :=
  match s with
  | SEED => "seed"
  | GERMINATION => "germination"
  | SEEDLING => "seedling"
  | VEGETATIVE => "vegetative"
  | FLOWERING => "flowering"
  | HARVEST => "harvest"
  end.

Module EnvironmentalCondition.
Record t : Type := Make {
  timestamp : datetime;
  temperature : Q;
  humidity : Q;
  co2_level : Q;
  light_intensity : Q;
  ph_level : Q }.
End EnvironmentalCondition.

Module Plant.
Record t : Type := Make {
  id : string;
  strain : string;
  growth_stage : GrowthStage;
  planted_date : datetime;
  pod_id : string;
  height : option Q;
  health_score : Q;
  notes : option string;
  metadata : dict }.
End Plant.

Module GrowPod.
Record t : Type := Make {
  id : string;
  name : string;
  capacity : Z;
  current_plants : list string;
  current_conditions : option EnvironmentalCondition.t;
  active : bool }.
End GrowPod.

Module GrowthMetrics.
Record t : Type := Make {
  plant_id : string;
  timestamp : datetime;
  height : Q;
  leaf_count : option Z;
  health_score : Q;
  growth_rate : option Q;
  predicted_harvest_date : option datetime }.
End GrowthMetrics.

Module BlockchainRecord.
Record t : Type := Make {
  record_id : string;
  record_type : string;
  data_hash : string;
  previous_hash : string;
  timestamp : datetime;
  block_number : Z }.
End BlockchainRecord.

End Models.

(* ===================================================================== *)
(** ** blockchain/cultivation_chain.py *)
(* ===================================================================== *)

Module Ledger.
Import PyTime Json Py Py.Notations Models.

(** class Block *)
Record Block : Type := MkBlock {
  block_number : Z;
  timestamp : datetime;
  data : dict;
  previous_hash : string;
  hash : string }.

(** [Block.calculate_hash] (23-33).  The text that [json.dumps] returns
    is ASCII, so [encode()] leaves it as it is. *)
Definition calculate_hash (self : Block) : string :=
  let serializable_data := _make_serializable (VDict (data self)) in
  let block_string :=
    dumps (JDict [ ("block_number", JInt (block_number self));
                   ("timestamp", JStr (isoformat (timestamp self)));
                   ("data", serializable_data);
                   ("previous_hash", JStr (previous_hash self)) ]) in
  Sha256.sha256 block_string.

(** [Block.__init__] (16-21): the timestamp is the clock's reading, the
    hash is computed last, from the other four fields. *)
Definition Block_init {S} (block_number : Z) (data : dict) (previous_hash : string)
  : M S Block :=
  let* t := now_ in
  let self := MkBlock block_number t data previous_hash EmptyString in
  ret (MkBlock block_number t data previous_hash (calculate_hash self)).

(** [Block.to_record] (45-54).  [BlockchainRecord] declares
    [record_type: str], and pydantic (>= 2.5, setup.py) does not turn
    another value into a string: it raises a validation error. *)
Definition to_record (self : Block) : outcome BlockchainRecord.t :=
  let record_id := py_str (dict_get "id" (data self) (VStr "unknown")) in
  match dict_get "type" (data self) (VStr "unknown") with
  | VStr record_type =>
      Return (BlockchainRecord.Make record_id record_type (hash self)
                (previous_hash self) (timestamp self) (block_number self))
  | _ => Raise (ValidationError "BlockchainRecord" "record_type")
  end.

(** class CultivationBlockchain *)
Record CultivationBlockchain : Type := MkChain { chain : list Block }.

(** [create_genesis_block] (64-67) *)
Definition create_genesis_block : M CultivationBlockchain unit :=
  let* genesis_block :=
    Block_init 0 [ ("type", VStr "genesis");
                   ("data", VStr "GrowPodEmpire Genesis Block") ] "0" in
  let* self := get in
  put (MkChain (chain self ++ [genesis_block])).

(** [CultivationBlockchain.__init__] (60-62): a new object, built from
    the empty list. *)
Definition CultivationBlockchain_init (c : Clock) : CultivationBlockchain * Clock :=
  let '(_, (c', self)) := create_genesis_block (c, MkChain []) in (self, c').

(** [get_latest_block] (69-71): [self.chain[-1]] *)
Definition get_latest_block : M CultivationBlockchain Block :=
  let* self := get in
  match last (chain self) with
  | Some b => ret b
  | None => raise (IndexError "list index out of range")
  end.

(** [add_block] (73-82) *)
Definition add_block (data : dict) : M CultivationBlockchain BlockchainRecord.t :=
  let* previous_block := get_latest_block in
  let* self := get in
  let* new_block :=
    Block_init (Z.of_nat (length (chain self))) data (hash previous_block) in
  let* self := get in
  exec put (MkChain (chain self ++ [new_block])) in
  lift (to_record new_block).

(** [record_plant_data] (84-92) *)
Definition record_plant_data (plant_id : string) (data : dict)
  : M CultivationBlockchain BlockchainRecord.t :=
  let* t := now_ in
  let block_data :=
    [ ("type", VStr "plant_data");
      ("id", VStr plant_id);
      ("timestamp", VStr (isoformat t));
      ("data", VDict data) ] in
  add_block block_data.

(** [record_environmental_data] (94-102) *)
Definition record_environmental_data (pod_id : string) (data : dict)
  : M CultivationBlockchain BlockchainRecord.t :=
  let* t := now_ in
  let block_data :=
    [ ("type", VStr "environmental_data");
      ("id", VStr pod_id);
      ("timestamp", VStr (isoformat t));
      ("data", VDict data) ] in
  add_block block_data.

(** [record_harvest] (104-112) *)
Definition record_harvest (plant_id : string) (harvest_data : dict)
  : M CultivationBlockchain BlockchainRecord.t :=
  let* t := now_ in
  let block_data :=
    [ ("type", VStr "harvest");
      ("id", VStr plant_id);
      ("timestamp", VStr (isoformat t));
      ("data", VDict harvest_data) ] in
  add_block block_data.

(** The body of the loop of [verify_chain], run over the indices that
    [range(1, len(self.chain))] yields.  An index outside the list would
    raise. *)
Fixpoint verify_loop (chain : list Block) (indices : list nat) : outcome bool :=
  match indices with
  | [] => Return true
  | i :: rest =>
      match chain !! i, chain !! (i - 1)%nat with
      | Some current_block, Some previous_block =>
          if negb (String.eqb (hash current_block) (calculate_hash current_block))
          then Return false
          else if negb (String.eqb (previous_hash current_block) (hash previous_block))
          then Return false
          else verify_loop chain rest
      | _, _ => Raise (IndexError "list index out of range")
      end
  end.

(** [verify_chain] (114-128); it reads the chain and changes nothing. *)
Definition verify_chain (self : CultivationBlockchain) : outcome bool :=
  verify_loop (chain self) (seq 1 (length (chain self) - 1)).

(** One entry of the lists that [get_records_by_type] and
    [get_records_by_id] return. *)
Module ChainRecord.
Record t : Type := Make {
  block_number : Z;
  timestamp : string;
  hash : string;
  data : dict }.
End ChainRecord.

(** The dictionary that lines 135-140 and 148-153 build from a block. *)
Definition record_entry (block : Block) : ChainRecord.t :=
  ChainRecord.Make (block_number block) (isoformat (timestamp block)) (hash block)
                   (data block).

(** [v == s] for a string [s]: only the same string is equal to it. *)
Definition equals_str (v : value) (s : string) : bool :=
  match v with
  | VStr x => String.eqb x s
  | _ => false
  end.

(** The loops of lines 133-140 and 146-153 over [self.chain[1:]], for
    the key given. *)
Fixpoint records_where (key wanted : string) (blocks : list Block) : list ChainRecord.t :=
  match blocks with
  | [] => []
  | block :: rest =>
      if equals_str (dict_get key (data block) VNone) wanted
      then record_entry block :: records_where key wanted rest
      else records_where key wanted rest
  end.

(** [get_records_by_type] (130-141) *)
Definition get_records_by_type (self : CultivationBlockchain) (record_type : string)
  : list ChainRecord.t :=
  records_where "type" record_type (drop 1 (chain self)).

(** [get_records_by_id] (143-154) *)
Definition get_records_by_id (self : CultivationBlockchain) (record_id : string)
  : list ChainRecord.t :=
  records_where "id" record_id (drop 1 (chain self)).

(** What [get_chain_info] returns. *)
Record chain_info : Type := MkChainInfo {
  total_blocks : nat;
  is_valid : bool;
  latest_number : Z;
  latest_hash : string;
  latest_timestamp : string }.

(** [get_chain_info] (156-166): the entries are evaluated in the order
    written, [verify_chain()] before [self.chain[-1]]. *)
Definition get_chain_info (self : CultivationBlockchain) : outcome chain_info :=
  match verify_chain self with
  | Raise e => Raise e
  | Return valid =>
      match last (chain self) with
      | Some latest =>
          Return (MkChainInfo (length (chain self)) valid (block_number latest)
                              (hash latest) (isoformat (timestamp latest)))
      | None => Raise (IndexError "list index out of range")
      end
  end.

(** *** Words for the statements about the ledger *)

(** The check of [verify_chain], following the list instead of the
    indices: [prev] is the block before the first of [rest]. *)
Fixpoint links_ok (prev : Block) (rest : list Block) : bool :=
  match rest with
  | [] => true
  | cur :: rest' =>
      String.eqb (hash cur) (calculate_hash cur)
      && String.eqb (previous_hash cur) (hash prev)
      && links_ok cur rest'
  end.

(** A later write to a stored payload: [self.chain[i].data] becomes
    [data'], every other field of the block, its stored hash included,
    stays. *)
Definition tamper_payload (i : nat) (data' : dict) (self : CultivationBlockchain)
  : CultivationBlockchain :=
  MkChain (alter (fun b => MkBlock (block_number b) (timestamp b) data'
                                   (previous_hash b) (hash b)) i (chain self)).

(** The calls [add_block(d)] for the payloads [d] of a list, one after
    the other; a call that raises has still changed the chain, and the
    caller goes on. *)
Fixpoint run_appends (payloads : list dict) (w : Clock * CultivationBlockchain)
  : Clock * CultivationBlockchain :=
  match payloads with
  | [] => w
  | d :: rest => run_appends rest (snd (add_block d w))
  end.

(** The block that [add_block] builds on a chain whose last block is
    [prev], when the clock reads [t]. *)
Definition built_block (self : CultivationBlockchain) (prev : Block) (t : datetime) (d : dict)
  : Block :=
  MkBlock (Z.of_nat (length (chain self))) t d (hash prev)
          (calculate_hash (MkBlock (Z.of_nat (length (chain self))) t d (hash prev) EmptyString)).

(** A later write to the stored hash of block [i]. *)
Definition overwrite_hash (i : nat) (hash' : string) (self : CultivationBlockchain)
  : CultivationBlockchain :=
  MkChain (alter (fun b => MkBlock (block_number b) (timestamp b) (data b)
                                   (previous_hash b) hash') i (chain self)).

(** A later write to the stored previous hash of block [i]. *)
Definition overwrite_previous_hash (i : nat) (previous' : string)
           (self : CultivationBlockchain) : CultivationBlockchain :=
  MkChain (alter (fun b => MkBlock (block_number b) (timestamp b) (data b)
                                   previous' (hash b)) i (chain self)).

(** The two checks of [verify_chain] on the block at index [i]. *)
Definition block_checks (blocks : list Block) (i : nat) : Prop :=
  exists current previous : Block,
    blocks !! i = Some current
    /\ blocks !! (i - 1)%nat = Some previous
    /\ hash current = calculate_hash current
    /\ previous_hash current = hash previous.

(** A chain that [verify_chain] accepts: a first block, and after it
    only blocks that carry their own hash and the hash of the block
    before. *)
Definition well_linked (self : CultivationBlockchain) : Prop :=
  exists g rest, chain self = g :: rest /\ links_ok g rest = true.

End Ledger.

(* ===================================================================== *)
(** ** Floats as rationals, and the numpy reductions the services call *)
(* ===================================================================== *)

Module Num.
Local Open Scope Q_scope.

(** [a < b] on floats *)
Definition Qltb (a b : Q) : bool := negb (Qle_bool b a).

(** The builtin [max(a, b)]: [b] when [b > a], otherwise [a]. *)
Definition py_max (a b : Q) : Q := if Qltb a b then b else a.

(** The builtin [min(a, b)]: [b] when [b < a], otherwise [a]. *)
Definition py_min (a b : Q) : Q := if Qltb b a then b else a.

(** [int(x)]: rounding towards zero. *)
Definition py_int (x : Q) : Z := Z.quot (Qnum x) (Zpos (Qden x)).

Definition Qsum (l : list Q) : Q := fold_right Qplus 0 l.

(** [np.mean(l)]; the mean of no numbers is [nan], here [None]. *)
Definition np_mean (l : list Q) : option Q :=
  match l with
  | [] => None
  | _ => Some (Qsum l / inject_Z (Z.of_nat (length l)))
  end.




End Num.

(* ===================================================================== *)
(** ** services/growth_tracker.py *)
(* ===================================================================== *)

Module Growth.
Import PyTime Py Py.Notations Models Num.
Local Open Scope Q_scope.

(** [self.growth_history] *)
Record GrowthTracker : Type := MkTracker {
  growth_history : gmap string (list GrowthMetrics.t) }.

(** [self.stage_growth_rates] and [self.stage_durations]: set by
    [__init__] (19-31) and never written again. *)
Definition stage_growth_rates : list (GrowthStage * Q) :=
  [ (SEEDLING, 0.5); (VEGETATIVE, 2.0); (FLOWERING, 0.3) ].

Definition stage_durations : list (GrowthStage * Z) :=
  [ (SEED, 3%Z); (GERMINATION, 7%Z); (SEEDLING, 14%Z);
    (VEGETATIVE, 30%Z); (FLOWERING, 60%Z) ].

(** [d.get(key, default)] for a table keyed by stage. *)
Fixpoint stage_get {A} (d : list (GrowthStage * A)) (key : GrowthStage) (default : A) : A :=
  match d with
  | [] => default
  | (k, v) :: rest => if decide (k = key) then v else stage_get rest key default
  end.

Definition GrowthTracker_init : GrowthTracker := MkTracker ∅.

(** [list(GrowthStage).index(stage)] *)
Fixpoint stage_index (members : list GrowthStage) (stage : GrowthStage) : nat :=
  match members with
  | [] => O
  | s :: rest => if decide (s = stage) then O else S (stage_index rest stage)
  end.

(** The loop of lines 79-83: add the durations up to the first HARVEST. *)
Fixpoint sum_until_harvest (stages : list GrowthStage) (remaining_days : Z) : Z :=
  match stages with
  | [] => remaining_days
  | stage :: rest =>
      if decide (stage = HARVEST) then remaining_days
      else sum_until_harvest rest (remaining_days + stage_get stage_durations stage 0%Z)%Z
  end.

(** The truth value of an [Optional[float]]: [None] and [0.0] are false. *)
Definition truthy (r : option Q) : bool :=
  match r with
  | None => false
  | Some x => negb (Qeq_bool x 0)
  end.

(** [[m.growth_rate for m in recent_metrics if m.growth_rate]] *)
Definition truthy_rates (recent_metrics : list GrowthMetrics.t) : list Q :=
  omap (fun m => if truthy (GrowthMetrics.growth_rate m)
                 then GrowthMetrics.growth_rate m else None) recent_metrics.

(** The days that [_predict_harvest_date] adds to the clock (lines
    76-93). *)
Definition remaining_days_estimate (plant : Plant.t) (history : list GrowthMetrics.t) : Z :=
  let current_stage_index := stage_index GrowthStage_members (Plant.growth_stage plant) in
  let remaining_days :=
    sum_until_harvest (drop current_stage_index GrowthStage_members) 0%Z in
  if (3 <? length history)%nat then
    let recent_metrics := drop (length history - 5) history in
    let avg_growth_rate := np_mean (truthy_rates recent_metrics) in
    let expected_rate := stage_get stage_growth_rates (Plant.growth_stage plant) 1.0 in
    match avg_growth_rate with
    | Some avg =>
        if Qltb 0 avg then
          let rate_ratio := expected_rate / avg in
          py_int (inject_Z remaining_days * rate_ratio)
        else remaining_days
    | None => remaining_days
    end
  else remaining_days.

(** [_predict_harvest_date] (73-95).  The clock is read twice: for
    [days_since_planted], which is not used afterwards, and for the date
    returned. *)
Definition _predict_harvest_date {S} (plant : Plant.t) (history : list GrowthMetrics.t)
  : M S datetime :=
  let* t0 := now_ in
  let days_since_planted := days (t0 - Plant.planted_date plant)%Z in
  let remaining_days := remaining_days_estimate plant history in
  let* t1 := now_ in
  ret (t1 + timedelta_days remaining_days)%Z.

(** The growth rate of lines 36-43: [None] without a previous
    measurement (the clock is then not read), and when no time has
    passed. *)
Definition growth_rate_of {S} (plant_history : list GrowthMetrics.t) (height : Q)
  : M S (option Q) :=
  match last plant_history with
  | Some last_metric =>
      let* t := now_ in
      let time_diff :=
        total_seconds (t - GrowthMetrics.timestamp last_metric)%Z / 86400 in
      if Qltb 0 time_diff then
        let height_diff := height - GrowthMetrics.height last_metric in
        ret (Some (height_diff / time_diff))
      else ret None
  | None => ret None
  end.

(** The health score of lines 45-52. *)
Definition adjust_health (stage : GrowthStage) (health_score : Q) (growth_rate : option Q) : Q :=
  match growth_rate with
  | Some rate =>
      let expected_rate := stage_get stage_growth_rates stage 1.0 in
      if Qltb rate (expected_rate * 0.5) then py_max 50 (health_score - 10)
      else if Qltb (expected_rate * 1.5) rate then py_min 100 (health_score + 5)
      else health_score
  | None => health_score
  end.

(** [track_growth] (32-71).  The last reading of the clock is the
    [timestamp] that [GrowthMetrics] gives itself. *)
Definition track_growth (plant : Plant.t) (height : Q) (leaf_count : option Z)
  : M GrowthTracker GrowthMetrics.t :=
  let* self := get in
  let plant_history := default [] (growth_history self !! Plant.id plant) in
  let* growth_rate := growth_rate_of plant_history height in
  let health_score :=
    adjust_health (Plant.growth_stage plant) (Plant.health_score plant) growth_rate in
  let* predicted_harvest := _predict_harvest_date plant plant_history in
  let* stamp := now_ in
  let metrics :=
    GrowthMetrics.Make (Plant.id plant) stamp height leaf_count health_score
                       growth_rate (Some predicted_harvest) in
  let* self := get in
  let stored := default [] (growth_history self !! Plant.id plant) in
  exec put (MkTracker (<[Plant.id plant := stored ++ [metrics]]> (growth_history self))) in
  ret metrics.


(** [[m.growth_rate for m in history if m.growth_rate is not None]] *)
Definition defined_rates (history : list GrowthMetrics.t) : list Q :=
  omap GrowthMetrics.growth_rate history.


(** *** Words for the statements about the harvest prediction *)

(** The estimate as the specification words it: the mean is taken over
    the last five prior samples, leaving out exactly those whose growth
    rate is undefined. *)
Definition remaining_days_as_specified (plant : Plant.t) (history : list GrowthMetrics.t) : Z :=
  let remaining_days :=
    sum_until_harvest
      (drop (stage_index GrowthStage_members (Plant.growth_stage plant)) GrowthStage_members)
      0%Z in
  if (4 <=? length history)%nat then
    let recent := drop (length history - 5) history in
    match np_mean (defined_rates recent) with
    | Some mean_recent_rate =>
        if Qltb 0 mean_recent_rate then
          py_int (inject_Z remaining_days
                  * (stage_get stage_growth_rates (Plant.growth_stage plant) 1.0
                     / mean_recent_rate))
        else remaining_days
    | None => remaining_days
    end
  else remaining_days.

(** The stage durations added up from a stage to harvest. *)
Definition days_to_harvest_from (stage : GrowthStage) : Z :=
  match stage with
  | SEED => 114
  | GERMINATION => 111
  | SEEDLING => 104
  | VEGETATIVE => 90
  | FLOWERING => 60
  | HARVEST => 0
  end%Z.

(** The calls [track_growth(plant, h)] for the heights [h] of a list,
    one after the other, on the same plant object; the last result is
    kept. *)
Fixpoint track_growths (plant : Plant.t) (heights : list Q) (w : Clock * GrowthTracker)
  : option GrowthMetrics.t * (Clock * GrowthTracker) :=
  match heights with
  | [] => (None, w)
  | h :: rest =>
      match track_growth plant h None w with
      | (Return m, w') =>
          match rest with
          | [] => (Some m, w')
          | _ :: _ => track_growths plant rest w'
          end
      | (Raise _, w') => (None, w')
      end
  end.

End Growth.

(* ===================================================================== *)
(** ** services/environmental_monitor.py *)
(* ===================================================================== *)

Module Env.
Import PyTime Py Py.Notations Models Num.
Local Open Scope Q_scope.

(** [self.condition_history] *)
Record EnvironmentalMonitor : Type := MkMonitor {
  condition_history : gmap string (list EnvironmentalCondition.t) }.

Definition EnvironmentalMonitor_init : EnvironmentalMonitor := MkMonitor ∅.

(** [self.optimal_ranges] (18-24): set by [__init__] and never written
    again. *)
Definition optimal_ranges : list (string * (Q * Q)) :=
  [ ("temperature", (20, 28));
    ("humidity", (40, 60));
    ("co2_level", (800, 1500));
    ("light_intensity", (400, 700));
    ("ph_level", (6.0, 7.0)) ].

Fixpoint range_lookup (table : list (string * (Q * Q))) (param : string) : option (Q * Q) :=
  match table with
  | [] => None
  | (k, r) :: rest => if String.eqb k param then Some r else range_lookup rest param
  end.

(** [self.optimal_ranges[param]] for a parameter of the table. *)
Definition optimal_range_of (param : string) : Q * Q :=
  default (0, 0) (range_lookup optimal_ranges param).

(** The numeric entries of [conditions.model_dump()], in the order of
    the fields; the loop of [_analyze_conditions] skips the one other
    entry, the timestamp. *)
Definition measured_items (conditions : EnvironmentalCondition.t) : list (string * Q) :=
  [ ("temperature", EnvironmentalCondition.temperature conditions);
    ("humidity", EnvironmentalCondition.humidity conditions);
    ("co2_level", EnvironmentalCondition.co2_level conditions);
    ("light_intensity", EnvironmentalCondition.light_intensity conditions);
    ("ph_level", EnvironmentalCondition.ph_level conditions) ].

(** One entry of the analysis; [optimal_range] stands for the text
    "min-max". *)
Record assessment : Type := MkAssessment {
  value : Q;
  status : string;
  optimal_range : Q * Q }.

(** [_analyze_conditions] (43-67) *)
Fixpoint analyze_items (items : list (string * Q)) : list (string * assessment) :=
  match items with
  | [] => []
  | (param, value) :: rest =>
      match range_lookup optimal_ranges param with
      | Some (min_val, max_val) =>
          let status :=
            if Qle_bool min_val value && Qle_bool value max_val then "optimal"
            else if Qle_bool (min_val * 0.9) value && Qle_bool value (max_val * 1.1)
                 then "acceptable"
                 else "critical" in
          (param, MkAssessment value status (min_val, max_val)) :: analyze_items rest
      | None => analyze_items rest
      end
  end.

Definition _analyze_conditions (conditions : EnvironmentalCondition.t)
  : list (string * assessment) :=
  analyze_items (measured_items conditions).






Section WithLibrary.

(** [str] of a float, as an f-string writes it. *)
Variable float_repr : Q -> string.

(** The square root of [np.std]. *)
Variable np_sqrt : Q -> Q.

Definition degree_celsius : string := String "176"%char "C".

(** [_generate_alerts] (69-89) *)
Definition _generate_alerts (conditions : EnvironmentalCondition.t) : list string :=
  let alerts := [] in
  let '(temp_min, temp_max) := optimal_range_of "temperature" in
  let alerts :=
    if Qltb (EnvironmentalCondition.temperature conditions) (temp_min * 0.9) then
      alerts ++ ["Temperature too low: "
                 +:+ float_repr (EnvironmentalCondition.temperature conditions)
                 +:+ degree_celsius]
    else if Qltb (temp_max * 1.1) (EnvironmentalCondition.temperature conditions) then
      alerts ++ ["Temperature too high: "
                 +:+ float_repr (EnvironmentalCondition.temperature conditions)
                 +:+ degree_celsius]
    else alerts in
  let '(hum_min, hum_max) := optimal_range_of "humidity" in
  let alerts :=
    if Qltb (EnvironmentalCondition.humidity conditions) (hum_min * 0.9) then
      alerts ++ ["Humidity too low: "
                 +:+ float_repr (EnvironmentalCondition.humidity conditions) +:+ "%"]
    else if Qltb (hum_max * 1.1) (EnvironmentalCondition.humidity conditions) then
      alerts ++ ["Humidity too high: "
                 +:+ float_repr (EnvironmentalCondition.humidity conditions) +:+ "%"]
    else alerts in
  let '(ph_min, ph_max) := optimal_range_of "ph_level" in
  let alerts :=
    if Qltb (EnvironmentalCondition.ph_level conditions) ph_min
       || Qltb ph_max (EnvironmentalCondition.ph_level conditions) then
      alerts ++ ["pH level out of range: "
                 +:+ float_repr (EnvironmentalCondition.ph_level conditions)]
    else alerts in
  alerts.

(** What [record_conditions] returns. *)
Record recorded : Type := MkRecorded {
  recorded_flag : bool;
  recorded_timestamp : string;
  analysis : list (string * assessment);
  alerts : list string }.

(** [record_conditions] (26-41) *)
Definition record_conditions (pod_id : string) (conditions : EnvironmentalCondition.t)
  : M EnvironmentalMonitor recorded :=
  let* self := get in
  let stored := default [] (condition_history self !! pod_id) in
  exec put (MkMonitor (<[pod_id := stored ++ [conditions]]> (condition_history self))) in
  let analysis := _analyze_conditions conditions in
  ret (MkRecorded true (isoformat (EnvironmentalCondition.timestamp conditions))
                  analysis (_generate_alerts conditions)).


End WithLibrary.

(** *** Words for the statements about alerts and statistics *)




















End Env.

(* ===================================================================== *)
(** ** app.py *)
(* ===================================================================== *)

Module App.
Import PyTime Json Py Py.Notations Models.

(** class GrowPodEmpire *)
Record GrowPodEmpire : Type := MkEmpire {
  plants : gmap string Plant.t;
  pods : gmap string GrowPod.t;
  growth_tracker : Growth.GrowthTracker;
  environmental_monitor : Env.EnvironmentalMonitor;
  blockchain : Ledger.CultivationBlockchain }.

Definition set_plants (v : gmap string Plant.t) (self : GrowPodEmpire) : GrowPodEmpire :=
  MkEmpire v (pods self) (growth_tracker self) (environmental_monitor self) (blockchain self).

Definition set_pods (v : gmap string GrowPod.t) (self : GrowPodEmpire) : GrowPodEmpire :=
  MkEmpire (plants self) v (growth_tracker self) (environmental_monitor self) (blockchain self).

Definition set_growth_tracker (v : Growth.GrowthTracker) (self : GrowPodEmpire) : GrowPodEmpire :=
  MkEmpire (plants self) (pods self) v (environmental_monitor self) (blockchain self).

Definition set_blockchain (v : Ledger.CultivationBlockchain) (self : GrowPodEmpire)
  : GrowPodEmpire :=
  MkEmpire (plants self) (pods self) (growth_tracker self) (environmental_monitor self) v.

(** [__init__] (19-24) *)
Definition GrowPodEmpire_init (c : Clock) : GrowPodEmpire * Clock :=
  let growth_tracker := Growth.GrowthTracker_init in
  let environmental_monitor := Env.EnvironmentalMonitor_init in
  let (blockchain, c') := Ledger.CultivationBlockchain_init c in
  (MkEmpire ∅ ∅ growth_tracker environmental_monitor blockchain, c').

(** [create_pod] (27-31) *)
Definition create_pod (pod_id name : string) (capacity : Z) : M GrowPodEmpire GrowPod.t :=
  let pod := GrowPod.Make pod_id name capacity [] None true in
  let* self := get in
  exec put (set_pods (<[pod_id := pod]> (pods self)) self) in
  ret pod.

(** [add_plant] (42-68) *)
Definition add_plant (plant_id strain pod_id : string) : M GrowPodEmpire Plant.t :=
  let* self := get in
  match pods self !! pod_id with
  | None => raise (ValueError ("Pod " +:+ pod_id +:+ " not found"))
  | Some pod =>
      if (GrowPod.capacity pod <=? Z.of_nat (length (GrowPod.current_plants pod)))%Z then
        raise (ValueError ("Pod " +:+ pod_id +:+ " is at full capacity"))
      else
        let* t := now_ in
        let plant := Plant.Make plant_id strain SEED t pod_id None 100 None [] in
        let* self := get in
        exec put (set_plants (<[plant_id := plant]> (plants self)) self) in
        let pod' :=
          GrowPod.Make (GrowPod.id pod) (GrowPod.name pod) (GrowPod.capacity pod)
                       (GrowPod.current_plants pod ++ [plant_id])
                       (GrowPod.current_conditions pod) (GrowPod.active pod) in
        let* self := get in
        exec put (set_pods (<[pod_id := pod']> (pods self)) self) in
        exec zoom blockchain set_blockchain
               (Ledger.record_plant_data plant_id
                  [ ("action", VStr "planted");
                    ("strain", VStr strain);
                    ("pod_id", VStr pod_id) ]) in
        ret plant
  end.

(** [verify_data_integrity] (187-189) *)
Definition verify_data_integrity (self : GrowPodEmpire) : outcome bool :=
  Ledger.verify_chain (blockchain self).

Definition set_environmental_monitor (v : Env.EnvironmentalMonitor) (self : GrowPodEmpire)
  : GrowPodEmpire :=
  MkEmpire (plants self) (pods self) (growth_tracker self) v (blockchain self).

(** [get_pod] (33-35) *)
Definition get_pod (self : GrowPodEmpire) (pod_id : string) : option GrowPod.t :=
  pods self !! pod_id.

(** [get_plant] (70-72) *)
Definition get_plant (self : GrowPodEmpire) (plant_id : string) : option Plant.t :=
  plants self !! plant_id.

(** [update_plant_stage] (81-97): the plant object in [self.plants] is
    changed in place, then the change is recorded. *)
Definition update_plant_stage (plant_id : string) (stage : GrowthStage)
  : M GrowPodEmpire Plant.t :=
  let* self := get in
  match plants self !! plant_id with
  | None => raise (ValueError ("Plant " +:+ plant_id +:+ " not found"))
  | Some plant =>
      let old_stage := Plant.growth_stage plant in
      let plant' :=
        Plant.Make (Plant.id plant) (Plant.strain plant) stage
                   (Plant.planted_date plant) (Plant.pod_id plant) (Plant.height plant)
                   (Plant.health_score plant) (Plant.notes plant) (Plant.metadata plant) in
      exec put (set_plants (<[plant_id := plant']> (plants self)) self) in
      exec zoom blockchain set_blockchain
             (Ledger.record_plant_data plant_id
                [ ("action", VStr "stage_change");
                  ("old_stage", VStr (GrowthStage_value old_stage));
                  ("new_stage", VStr (GrowthStage_value stage)) ]) in
      ret plant'
  end.

(** [get_blockchain_info] (179-181) *)
Definition get_blockchain_info (self : GrowPodEmpire) : outcome Ledger.chain_info :=
  Ledger.get_chain_info (blockchain self).

(** [get_plant_history] (183-185) *)
Definition get_plant_history (self : GrowPodEmpire) (plant_id : string)
  : list Ledger.ChainRecord.t :=
  Ledger.get_records_by_id (blockchain self) plant_id.

(** What [get_system_stats] returns. *)
Record system_stats : Type := MkStats {
  total_pods : nat;
  active_pods : nat;
  total_plants : nat;
  active_plants : nat;
  plants_by_stage : list (string * nat);
  blockchain_info : Ledger.chain_info;
  data_integrity : bool }.

(** [get_system_stats] (192-207).  Of the values of the two
    dictionaries only counts are taken, so the order in which they are
    listed plays no part. *)
Definition get_system_stats (self : GrowPodEmpire) : outcome system_stats :=
  let plant_values := map snd (map_to_list (plants self)) in
  let pod_values := map snd (map_to_list (pods self)) in
  let active_plants := filter (fun p => Plant.growth_stage p <> HARVEST) plant_values in
  let plants_by_stage :=
    map (fun stage =>
           (GrowthStage_value stage,
            length (filter (fun p => Plant.growth_stage p = stage) active_plants)))
        GrowthStage_members in
  match Ledger.get_chain_info (blockchain self) with
  | Raise e => Raise e
  | Return info =>
      match verify_data_integrity self with
      | Raise e => Raise e
      | Return ok =>
          Return (MkStats (size (pods self))
                          (length (filter (fun p => GrowPod.active p = true) pod_values))
                          (size (plants self))
                          (length active_plants)
                          plants_by_stage info ok)
      end
  end.

(** [l.remove(x)] for an [x] that is in [l]: its first occurrence goes. *)
Fixpoint remove_first (x : string) (l : list string) : list string :=
  match l with
  | [] => []
  | y :: rest => if String.eqb y x then rest else y :: remove_first x rest
  end.

Section WithLibrary.

(** [float.__repr__], which [json.dumps] writes for a float. *)
Variable float_repr : Q -> string.

Definition float_value (x : Q) : value := VFloat (float_repr x).

(** [record_growth] (100-120) *)
Definition record_growth (plant_id : string) (height : Q) (leaf_count : option Z)
  : M GrowPodEmpire GrowthMetrics.t :=
  let* self := get in
  match plants self !! plant_id with
  | None => raise (ValueError ("Plant " +:+ plant_id +:+ " not found"))
  | Some plant =>
      let* metrics :=
        zoom growth_tracker set_growth_tracker
             (Growth.track_growth plant height leaf_count) in
      let plant' :=
        Plant.Make (Plant.id plant) (Plant.strain plant) (Plant.growth_stage plant)
                   (Plant.planted_date plant) (Plant.pod_id plant) (Some height)
                   (GrowthMetrics.health_score metrics) (Plant.notes plant)
                   (Plant.metadata plant) in
      let* self := get in
      exec put (set_plants (<[plant_id := plant']> (plants self)) self) in
      exec zoom blockchain set_blockchain
             (Ledger.record_plant_data plant_id
                [ ("action", VStr "growth_measurement");
                  ("height", float_value height);
                  ("health_score", float_value (GrowthMetrics.health_score metrics));
                  ("growth_rate",
                   match GrowthMetrics.growth_rate metrics with
                   | Some r => float_value r
                   | None => VNone
                   end) ]) in
      ret metrics
  end.


(** [conditions.model_dump()]: the fields in the order of the class. *)
Definition model_dump (conditions : EnvironmentalCondition.t) : dict :=
  [ ("timestamp", VDatetime (EnvironmentalCondition.timestamp conditions));
    ("temperature", float_value (EnvironmentalCondition.temperature conditions));
    ("humidity", float_value (EnvironmentalCondition.humidity conditions));
    ("co2_level", float_value (EnvironmentalCondition.co2_level conditions));
    ("light_intensity", float_value (EnvironmentalCondition.light_intensity conditions));
    ("ph_level", float_value (EnvironmentalCondition.ph_level conditions)) ].

(** [record_environment] (127-140) *)
Definition record_environment (pod_id : string) (conditions : EnvironmentalCondition.t)
  : M GrowPodEmpire Env.recorded :=
  let* self := get in
  match pods self !! pod_id with
  | None => raise (ValueError ("Pod " +:+ pod_id +:+ " not found"))
  | Some pod =>
      let* result :=
        zoom environmental_monitor set_environmental_monitor
             (Env.record_conditions float_repr pod_id conditions) in
      let pod' :=
        GrowPod.Make (GrowPod.id pod) (GrowPod.name pod) (GrowPod.capacity pod)
                     (GrowPod.current_plants pod) (Some conditions) (GrowPod.active pod) in
      let* self := get in
      exec put (set_pods (<[pod_id := pod']> (pods self)) self) in
      exec zoom blockchain set_blockchain
             (Ledger.record_environmental_data pod_id (model_dump conditions)) in
      ret result
  end.

(** What [record_harvest] returns: the harvest data and the ledger
    record. *)
Record harvest_report : Type := MkHarvest {
  harvest_plant_id : string;
  harvest_strain : string;
  harvest_date : string;
  yield_amount : Q;
  quality_score : Q;
  days_to_harvest : Z;
  blockchain_record : BlockchainRecord.t }.

(** [record_harvest] (147-176): the clock is read once for the harvest
    date and once more for the number of days. *)
Definition record_harvest (plant_id : string) (yield_amount quality_score : Q)
  : M GrowPodEmpire harvest_report :=
  let* self := get in
  match plants self !! plant_id with
  | None => raise (ValueError ("Plant " +:+ plant_id +:+ " not found"))
  | Some plant =>
      let plant' :=
        Plant.Make (Plant.id plant) (Plant.strain plant) HARVEST
                   (Plant.planted_date plant) (Plant.pod_id plant) (Plant.height plant)
                   (Plant.health_score plant) (Plant.notes plant) (Plant.metadata plant) in
      exec put (set_plants (<[plant_id := plant']> (plants self)) self) in
      let* harvest_time := now_ in
      let* counted_at := now_ in
      let days_to_harvest := days (counted_at - Plant.planted_date plant)%Z in
      let harvest_data :=
        [ ("plant_id", VStr plant_id);
          ("strain", VStr (Plant.strain plant));
          ("harvest_date", VStr (isoformat harvest_time));
          ("yield_amount", float_value yield_amount);
          ("quality_score", float_value quality_score);
          ("days_to_harvest", VInt days_to_harvest) ] in
      let* blockchain_record :=
        zoom blockchain set_blockchain (Ledger.record_harvest plant_id harvest_data) in
      let* self := get in
      exec match pods self !! Plant.pod_id plant with
           | Some pod =>
               if bool_decide (plant_id ∈ GrowPod.current_plants pod) then
                 let pod' :=
                   GrowPod.Make (GrowPod.id pod) (GrowPod.name pod) (GrowPod.capacity pod)
                                (remove_first plant_id (GrowPod.current_plants pod))
                                (GrowPod.current_conditions pod) (GrowPod.active pod) in
                 put (set_pods (<[Plant.pod_id plant := pod']> (pods self)) self)
               else ret tt
           | None => ret tt
           end in
      ret (MkHarvest plant_id (Plant.strain plant) (isoformat harvest_time)
                     yield_amount quality_score days_to_harvest blockchain_record)
  end.

(** One call of a method that changes the application. *)
Inductive call : Type :=
| CreatePod (pod_id name : string) (capacity : Z)
| AddPlant (plant_id strain pod_id : string)
| UpdatePlantStage (plant_id : string) (stage : GrowthStage)
| RecordGrowth (plant_id : string) (height : Q) (leaf_count : option Z)
| RecordEnvironment (pod_id : string) (conditions : EnvironmentalCondition.t)
| RecordHarvest (plant_id : string) (yield_amount quality_score : Q).

(** The call made, with what it returned dropped. *)
Definition perform (op : call) : M GrowPodEmpire unit :=
  match op with
  | CreatePod pod_id name capacity => exec create_pod pod_id name capacity in ret tt
  | AddPlant plant_id strain pod_id => exec add_plant plant_id strain pod_id in ret tt
  | UpdatePlantStage plant_id stage => exec update_plant_stage plant_id stage in ret tt
  | RecordGrowth plant_id height leaf_count =>
      exec record_growth plant_id height leaf_count in ret tt
  | RecordEnvironment pod_id conditions =>
      exec record_environment pod_id conditions in ret tt
  | RecordHarvest plant_id yield_amount quality_score =>
      exec record_harvest plant_id yield_amount quality_score in ret tt
  end.

(** The calls of a list, one after the other; after a call that raises
    the caller goes on with the next. *)
Fixpoint perform_all (ops : list call) (w : Clock * GrowPodEmpire) : Clock * GrowPodEmpire :=
  match ops with
  | [] => w
  | op :: rest => perform_all rest (snd (perform op w))
  end.

End WithLibrary.

(** *** Words for the statements about the application *)

(** The type under which a call files its ledger block, and the id. *)
Definition ledger_type (op : call) : string :=
  match op with
  | RecordEnvironment _ _ => "environmental_data"
  | RecordHarvest _ _ _ => "harvest"
  | _ => "plant_data"
  end.

Definition ledger_id (op : call) : string :=
  match op with
  | CreatePod pod_id _ _ => pod_id
  | AddPlant plant_id _ _ => plant_id
  | UpdatePlantStage plant_id _ => plant_id
  | RecordGrowth plant_id _ _ => plant_id
  | RecordEnvironment pod_id _ => pod_id
  | RecordHarvest plant_id _ _ => plant_id
  end.

(** The guards of the calls (lines 44-49, 83-84, 102-103, 129-130 and
    149-150): the message of the [ValueError] that the call raises on
    this state, if it raises one. *)
Definition rejection (op : call) (self : GrowPodEmpire) : option string :=
  match op with
  | CreatePod _ _ _ => None
  | AddPlant _ _ pod_id =>
      match pods self !! pod_id with
      | None => Some ("Pod " +:+ pod_id +:+ " not found")
      | Some pod =>
          if (GrowPod.capacity pod <=? Z.of_nat (length (GrowPod.current_plants pod)))%Z
          then Some ("Pod " +:+ pod_id +:+ " is at full capacity")
          else None
      end
  | UpdatePlantStage plant_id _ | RecordGrowth plant_id _ _ | RecordHarvest plant_id _ _ =>
      match plants self !! plant_id with
      | None => Some ("Plant " +:+ plant_id +:+ " not found")
      | Some _ => None
      end
  | RecordEnvironment pod_id _ =>
      match pods self !! pod_id with
      | None => Some ("Pod " +:+ pod_id +:+ " not found")
      | Some _ => None
      end
  end.

(** Every pod is stored under its own id, lists no more plants than
    its capacity allows, and lists only plants that are registered. *)
Definition pods_in_order (self : GrowPodEmpire) : Prop :=
  forall (pod_id : string) (pod : GrowPod.t),
    pods self !! pod_id = Some pod ->
    GrowPod.id pod = pod_id
    /\ (Z.of_nat (length (GrowPod.current_plants pod)) <= Z.max 0 (GrowPod.capacity pod))%Z
    /\ forall plant_id : string,
         plant_id ∈ GrowPod.current_plants pod -> is_Some (plants self !! plant_id).

(** Every plant is stored under its own id, in a pod that exists. *)
Definition plants_in_order (self : GrowPodEmpire) : Prop :=
  forall (plant_id : string) (plant : Plant.t),
    plants self !! plant_id = Some plant ->
    Plant.id plant = plant_id /\ is_Some (pods self !! Plant.pod_id plant).

(** A plant or a pod with one attribute assigned. *)
Definition with_stage (stage : GrowthStage) (plant : Plant.t) : Plant.t :=
  Plant.Make (Plant.id plant) (Plant.strain plant) stage
             (Plant.planted_date plant) (Plant.pod_id plant) (Plant.height plant)
             (Plant.health_score plant) (Plant.notes plant) (Plant.metadata plant).

Definition with_current_plants (l : list string) (pod : GrowPod.t) : GrowPod.t :=
  GrowPod.Make (GrowPod.id pod) (GrowPod.name pod) (GrowPod.capacity pod) l
               (GrowPod.current_conditions pod) (GrowPod.active pod).

Definition with_current_conditions (conditions : EnvironmentalCondition.t) (pod : GrowPod.t)
  : GrowPod.t :=
  GrowPod.Make (GrowPod.id pod) (GrowPod.name pod) (GrowPod.capacity pod)
               (GrowPod.current_plants pod) (Some conditions) (GrowPod.active pod).

(** 1 when the condition holds, 0 when it does not. *)
Definition one_if (P : Prop) `{Decision P} : nat := if decide P then 1%nat else 0%nat.

(** The count that [plants_by_stage] holds for a stage. *)
Fixpoint bucket (key : string) (buckets : list (string * nat)) : option nat :=
  match buckets with
  | [] => None
  | (k, n) :: rest => if String.eqb k key then Some n else bucket key rest
  end.

End App.

(* ===================================================================== *)
(** ** Worked examples: concrete clocks, payloads and histories *)
(* ===================================================================== *)

Module Examples.
Import PyTime Json Py Models Ledger.

(** A clock that shows one second more at every reading. *)
Definition ticking_clock : Clock :=
  MkClock (fun n => noon_2024 + Z.of_nat n * us_per_second)%Z 0.

(** A new ledger made at the first reading of [ticking_clock]. *)
Definition example_ledger : Clock * CultivationBlockchain :=
  (snd (CultivationBlockchain_init ticking_clock),
   fst (CultivationBlockchain_init ticking_clock)).

Definition genesis_payload : dict :=
  [ ("type", VStr "genesis"); ("data", VStr "GrowPodEmpire Genesis Block") ].

(** The genesis block of [example_ledger]. *)
Definition example_genesis : Block :=
  MkBlock 0 noon_2024 genesis_payload "0"
          (calculate_hash (MkBlock 0 noon_2024 genesis_payload "0" EmptyString)).

Definition planted_payload : dict :=
  [ ("type", VStr "plant_data"); ("id", VStr "plant-1");
    ("data", VDict [ ("action", VStr "planted"); ("strain", VStr "OG Kush") ]) ].

(** The block that [add_block planted_payload] puts on [example_ledger]. *)
Definition example_planted : Block :=
  let t := (noon_2024 + us_per_second)%Z in
  MkBlock 1 t planted_payload (hash example_genesis)
          (calculate_hash (MkBlock 1 t planted_payload (hash example_genesis) EmptyString)).

(** The members of [planted_payload], inserted in another order. *)
Definition reordered_planted_payload : dict :=
  [ ("id", VStr "plant-1");
    ("data", VDict [ ("action", VStr "planted"); ("strain", VStr "OG Kush") ]);
    ("type", VStr "plant_data") ].

Definition forged_genesis_payload : dict :=
  [ ("type", VStr "genesis"); ("data", VStr "Forged Genesis Block") ].

Definition forged_planted_payload : dict :=
  [ ("type", VStr "plant_data"); ("id", VStr "plant-1");
    ("data", VDict [ ("action", VStr "planted"); ("strain", VStr "Haze") ]) ].

Definition untyped_payload : dict := [ ("type", VInt 5) ].

(** A clock that shows the same instant for all the readings of one
    call of [track_growth] (three in the first call on a plant, four in
    the later ones), and one day more in each call. *)
Definition daily_clock : Clock :=
  MkClock (fun n => noon_2024 + Z.of_nat ((n + 1) / 4) * us_per_day)%Z 0.



Definition vegetative_plant : Plant.t :=
  Plant.Make "plant-1" "OG Kush" VEGETATIVE noon_2024 "pod-1" None 100 None [].


(** A sample taken at [noon_2024], with no rate of its own. *)
Definition sample_at_noon (height : Q) : GrowthMetrics.t :=
  GrowthMetrics.Make "plant-1" noon_2024 height None 100 None None.

(** A sample with the growth rate given. *)
Definition sample_with_rate (rate : option Q) : GrowthMetrics.t :=
  GrowthMetrics.Make "plant-1" noon_2024 10 None 100 rate None.

(** Four prior samples: the height stood still twice, then rose by 4 cm
    in a day. *)
Definition stalled_history : list GrowthMetrics.t :=
  [ sample_with_rate None; sample_with_rate (Some 0%Q);
    sample_with_rate (Some 0%Q); sample_with_rate (Some 4%Q) ].

(** Four prior samples of a plant that lost height. *)
Definition shrinking_history : list GrowthMetrics.t :=
  [ sample_with_rate None; sample_with_rate (Some (-1)%Q);
    sample_with_rate (Some (-2)%Q); sample_with_rate (Some 1%Q) ].

(** Four prior samples of a plant that grew 4 cm a day. *)
Definition fast_history : list GrowthMetrics.t :=
  [ sample_with_rate None; sample_with_rate (Some 4%Q);
    sample_with_rate (Some 4%Q); sample_with_rate (Some 4%Q) ].



(** A new empire made at the first reading of [ticking_clock], with the
    pod "pod-1" of capacity 1 created in it. *)
Definition empire_with_pod : Clock * App.GrowPodEmpire :=
  snd (App.create_pod "pod-1" "Test Pod" 1
         (snd (App.GrowPodEmpire_init ticking_clock),
          fst (App.GrowPodEmpire_init ticking_clock))).

(** The same after [add_plant("plant-1", "OG Kush", "pod-1")]. *)
Definition empire_with_plant : Clock * App.GrowPodEmpire :=
  snd (App.add_plant "plant-1" "OG Kush" "pod-1" empire_with_pod).

(** The pod and the plant that these calls made. *)
Definition empty_pod : GrowPod.t := GrowPod.Make "pod-1" "Test Pod" 1 [] None true.

Definition full_pod : GrowPod.t := GrowPod.Make "pod-1" "Test Pod" 1 ["plant-1"] None true.

Definition seed_plant : Plant.t :=
  Plant.Make "plant-1" "OG Kush" SEED (noon_2024 + us_per_second)%Z "pod-1" None 100 None [].

(** A text for a float that stands in for [float.__repr__] in the
    worked examples: numerator, a slash, denominator. *)
Definition fraction_repr (x : Q) : string :=
  int_str (Qnum x) +:+ "/" +:+ int_str (Zpos (Qden x)).


(** A sample taken at [noon_2024]. *)
Definition sample_condition (temperature humidity co2 : Q) : EnvironmentalCondition.t :=
  EnvironmentalCondition.Make noon_2024 temperature humidity co2 600 6.5.




End Examples.

(* ===================================================================== *)
(** ** The library models against known values *)
(* ===================================================================== *)

Module LibraryChecks.

Example round_constants_ends :
  length Sha256.round_constants = 64%nat
  /\ head Sha256.round_constants = Some 0x428a2f98%Z
  /\ last Sha256.round_constants = Some 0xc67178f2%Z
  /\ head Sha256.initial_state = Some 0x6a09e667%Z
  /\ last Sha256.initial_state = Some 0x5be0cd19%Z.
Proof. vm_compute. repeat split. Qed.

Example sha256_empty :
  Sha256.sha256 "" = "e3b0c44298fc1c149afbf4c8996fb92427ae41e4649b934ca495991b7852b855".
Proof. vm_compute. reflexivity. Qed.

Example sha256_abc :
  Sha256.sha256 "abc" = "ba7816bf8f01cfea414140de5dae2223b00361a396177a9cb410ff61f20015ad".
Proof. vm_compute. reflexivity. Qed.

Example sha256_two_blocks :
  Sha256.sha256 "abcdbcdecdefdefgefghfghighijhijkijkljklmklmnlmnomnopnopq"
  = "248d6a61d20638b8e5c026930c3e6039a33ce45964ff2167f6ecedd419db06c1".
Proof. vm_compute. reflexivity. Qed.

Example isoformat_2024 :
  PyTime.isoformat (PyTime.at_ordinal 738886 12 30 5 0) = "2024-01-01T12:30:05".
Proof. vm_compute. reflexivity. Qed.

Example isoformat_leap :
  PyTime.isoformat (PyTime.at_ordinal (738886 + 59) 23 59 59 1500) = "2024-02-29T23:59:59.001500".
Proof. vm_compute. reflexivity. Qed.

Example isoformat_dec31 :
  PyTime.isoformat (PyTime.at_ordinal (738886 + 365) 0 0 0 0) = "2024-12-31T00:00:00".
Proof. vm_compute. reflexivity. Qed.

(** The hash of a genesis block and of a "planted" block made at known
    instants, as CPython's [hashlib] and [json] give them. *)
Example genesis_block_hash :
  Ledger.calculate_hash
    (Ledger.MkBlock 0 (PyTime.at_ordinal 738886 12 0 0 123456) Examples.genesis_payload "0"
                    EmptyString)
  = "30b8ad561dd5ac113813af7f6e341e3308bfe8d2ebc5d4f7585578d677e2d885".
Proof. vm_compute. reflexivity. Qed.

Example planted_block_hash :
  Ledger.calculate_hash
    (Ledger.MkBlock 1 (PyTime.at_ordinal 738886 12 0 2 123456)
       [ ("type", Json.VStr "plant_data");
         ("id", Json.VStr "plant-1");
         ("timestamp", Json.VStr "2024-01-01T12:00:01.123456");
         ("data", Json.VDict [ ("action", Json.VStr "planted");
                               ("strain", Json.VStr "OG Kush");
                               ("pod_id", Json.VStr "pod-1") ]) ]
       "30b8ad561dd5ac113813af7f6e341e3308bfe8d2ebc5d4f7585578d677e2d885"
       EmptyString)
  = "b01589248fe6a870ab33603fd8a9f25293885e8b5517d2946684e8b877852d98".
Proof. vm_compute. reflexivity. Qed.

Example dumps_sorts_keys :
  Json.dumps (Json.JDict [ ("b", Json.JInt 1); ("a", Json.JList [Json.JNull; Json.JBool true]) ])
  = "{" +:+ Json.json_string "a" +:+ ": [null, true], " +:+ Json.json_string "b" +:+ ": 1}".
Proof. vm_compute. reflexivity. Qed.

End LibraryChecks.

(* ===================================================================== *)
(** ** The ledger: hash linkage, appends, tampering *)
(* ===================================================================== *)

Module LedgerFacts.
Import PyTime Json Py Models Ledger Examples.
#[local] Arguments calculate_hash : simpl never.

Lemma verify_loop_links (pre : list Block) (prev : Block) (rest : list Block) :
  verify_loop (pre ++ prev :: rest) (seq (S (length pre)) (length rest))
  = Return (links_ok prev rest).
Proof.
  revert pre prev. induction rest as [|cur rest IH]; intros pre prev.
  - reflexivity.
  - cbn [length seq verify_loop links_ok].
    replace (S (length pre) - 1)%nat with (length pre) by lia.
    assert (H1 : (pre ++ prev :: cur :: rest) !! S (length pre) = Some cur).
    { rewrite lookup_app_r by lia. replace (S (length pre) - length pre)%nat with 1%nat by lia. reflexivity. }
    assert (H0 : (pre ++ prev :: cur :: rest) !! length pre = Some prev).
    { rewrite lookup_app_r by lia. replace (length pre - length pre)%nat with 0%nat by lia. reflexivity. }
    rewrite H1, H0.
    specialize (IH (pre ++ [prev]) cur).
    rewrite <- app_assoc in IH. cbn [app] in IH.
    rewrite length_app in IH. cbn [length] in IH.
    replace (length pre + 1)%nat with (S (length pre)) in IH by lia.
    rewrite IH.
    destruct (String.eqb (hash cur) (calculate_hash cur)); cbn [negb andb]; [|reflexivity].
    destruct (String.eqb (previous_hash cur) (hash prev)); reflexivity.
Qed.

Lemma verify_chain_links (g : Block) (rest : list Block) :
  verify_chain (MkChain (g :: rest)) = Return (links_ok g rest).
Proof.
  unfold verify_chain. cbn [chain length].
  replace (S (length rest) - 1)%nat with (length rest) by lia.
  apply (verify_loop_links [] g rest).
Qed.


Lemma calculate_hash_ignores_hash (n : Z) (t : datetime) (d : dict) (p h h' : string) :
  calculate_hash (MkBlock n t d p h) = calculate_hash (MkBlock n t d p h').
Proof. reflexivity. Qed.

Lemma built_block_hash self prev t d :
  hash (built_block self prev t d) = calculate_hash (built_block self prev t d).
Proof. reflexivity. Qed.

Lemma add_block_run (d : dict) (c : Clock) (self : CultivationBlockchain) (prev : Block) :
  last (chain self) = Some prev ->
  add_block d (c, self)
  = (to_record (built_block self prev (wall c (ticks c)) d),
     (MkClock (wall c) (S (ticks c)),
      MkChain (chain self ++ [built_block self prev (wall c (ticks c)) d]))).
Proof.
  intros Hlast. unfold add_block, get_latest_block, bind, get, Block_init, now_, now, put, lift, ret.
  cbn [fst snd]. rewrite Hlast. reflexivity.
Qed.

Lemma add_block_empty (d : dict) (c : Clock) (self : CultivationBlockchain) :
  chain self = [] ->
  add_block d (c, self) = (Raise (IndexError "list index out of range"), (c, self)).
Proof.
  intros Hnil. unfold add_block, get_latest_block, bind, get, raise.
  cbn [fst snd]. rewrite Hnil. reflexivity.
Qed.

Lemma links_ok_snoc (g : Block) (rest : list Block) (nb prev : Block) :
  last (g :: rest) = Some prev ->
  links_ok g (rest ++ [nb])
  = links_ok g rest
    && (String.eqb (hash nb) (calculate_hash nb) && String.eqb (previous_hash nb) (hash prev)).
Proof.
  revert g. induction rest as [|b rest IH]; intros g Hlast.
  - cbn in Hlast. injection Hlast as <-. cbn [app links_ok]. rewrite andb_true_r. reflexivity.
  - cbn [app links_ok]. rewrite (IH b).
    + rewrite <- !andb_assoc. reflexivity.
    + rewrite last_cons_cons in Hlast. exact Hlast.
Qed.

Lemma well_linked_verify (self : CultivationBlockchain) :
  well_linked self -> verify_chain self = Return true.
Proof.
  intros (g & rest & Hc & Hok). destruct self as [l]. cbn in Hc. subst l.
  rewrite verify_chain_links, Hok. reflexivity.
Qed.

Lemma well_linked_last (self : CultivationBlockchain) :
  well_linked self -> exists prev, last (chain self) = Some prev.
Proof.
  intros (g & rest & Hc & _). rewrite Hc.
  destruct (last (g :: rest)) eqn:E; [eauto|].
  apply last_None in E. discriminate.
Qed.

Lemma add_block_well_linked (d : dict) (c : Clock) (self : CultivationBlockchain) :
  well_linked self -> well_linked (snd (snd (add_block d (c, self)))).
Proof.
  intros Hwl. destruct (well_linked_last _ Hwl) as [prev Hlast].
  rewrite (add_block_run d c self prev Hlast). cbn [snd].
  destruct Hwl as (g & rest & Hc & Hok).
  exists g, (rest ++ [built_block self prev (wall c (ticks c)) d]). split.
  - cbn [chain]. rewrite Hc. reflexivity.
  - rewrite (links_ok_snoc g rest _ prev) by (rewrite <- Hc; exact Hlast).
    rewrite Hok, built_block_hash, !String.eqb_refl. reflexivity.
Qed.

Lemma genesis_run (c : Clock) :
  CultivationBlockchain_init c
  = (MkChain [MkBlock 0 (wall c (ticks c))
                [("type", VStr "genesis"); ("data", VStr "GrowPodEmpire Genesis Block")] "0"
                (calculate_hash (MkBlock 0 (wall c (ticks c))
                   [("type", VStr "genesis"); ("data", VStr "GrowPodEmpire Genesis Block")]
                   "0" EmptyString))],
     MkClock (wall c) (S (ticks c))).
Proof. reflexivity. Qed.

Lemma fresh_well_linked (c : Clock) : well_linked (fst (CultivationBlockchain_init c)).
Proof. rewrite genesis_run. cbn [fst]. eexists _, []. split; reflexivity. Qed.

Lemma run_appends_well_linked (payloads : list dict) (w : Clock * CultivationBlockchain) :
  well_linked (snd w) -> well_linked (snd (run_appends payloads w)).
Proof.
  revert w. induction payloads as [|d rest IH]; intros [c self] Hwl; [exact Hwl|].
  cbn [run_appends]. apply IH.
  destruct (add_block d (c, self)) as [o [c' self']] eqn:E.
  change self' with (snd (snd (o, (c', self')))). rewrite <- E.
  apply add_block_well_linked. exact Hwl.
Qed.


Lemma links_ok_tampered (g : Block) (rest : list Block) (j : nat) (b : Block)
      (f : Block -> Block) :
  rest !! j = Some b ->
  hash (f b) <> calculate_hash (f b) ->
  links_ok g (alter f j rest) = false.
Proof.
  revert g j. induction rest as [|x rest IH]; intros g j Hj Hne; [discriminate|].
  destruct j as [|j].
  - cbn in Hj. injection Hj as ->. cbn [alter list_alter links_ok].
    apply String.eqb_neq in Hne. rewrite Hne. reflexivity.
  - cbn in Hj. cbn [alter list_alter links_ok].
    change (list_alter f j rest) with (alter f j rest).
    rewrite (IH x j Hj Hne). rewrite andb_false_r. reflexivity.
Qed.

(** C3.  A freshly constructed chain holds exactly one block; that block
    has previous_hash "0" and block number 0; and verify_chain returns
    True on it. *)
Theorem fresh_chain_is_genesis_only (c : Clock) :
  exists g : Block,
    chain (fst (CultivationBlockchain_init c)) = [g]
    /\ length (chain (fst (CultivationBlockchain_init c))) = 1%nat
    /\ previous_hash g = "0"
    /\ block_number g = 0%Z
    /\ verify_chain (fst (CultivationBlockchain_init c)) = Return true.
Proof.
  rewrite genesis_run. cbn [fst chain]. eexists. split; [reflexivity|].
  repeat split.
Qed.

(** C2, as amended.  On a chain that has a last block, add_block builds
    the new block with previous_hash the hash of the last block, block
    number the length of the chain and the payload given, and appends
    exactly that block: the chain afterwards is the old chain followed
    by the new block.  What it returns is not the block but its
    BlockchainRecord (the id and type of the payload, the hash, previous
    hash, timestamp and number of the block), when the payload's "type"
    is a string or is missing. *)
Theorem add_block_appends_and_reports (d : dict) (c : Clock)
        (self : CultivationBlockchain) (prev : Block) :
  last (chain self) = Some prev ->
  exists new_block : Block,
    previous_hash new_block = hash prev
    /\ block_number new_block = Z.of_nat (length (chain self))
    /\ data new_block = d
    /\ timestamp new_block = wall c (ticks c)
    /\ hash new_block = calculate_hash new_block
    /\ chain (snd (snd (add_block d (c, self)))) = chain self ++ [new_block]
    /\ (forall ty : string,
          dict_get "type" d (VStr "unknown") = VStr ty ->
          fst (add_block d (c, self))
          = Return (BlockchainRecord.Make
                      (py_str (dict_get "id" d (VStr "unknown"))) ty
                      (hash new_block) (previous_hash new_block)
                      (timestamp new_block) (block_number new_block))).
Proof.
  intros Hlast. exists (built_block self prev (wall c (ticks c)) d).
  rewrite (add_block_run d c self prev Hlast). cbn [fst snd chain].
  repeat split.
  intros ty Hty. unfold to_record. cbn [data built_block]. rewrite Hty. reflexivity.
Qed.

Lemma add_block_appends_and_reports_witness :
  last (chain (snd example_ledger)) = Some example_genesis
  /\ exists new_block : Block,
       previous_hash new_block = hash example_genesis
       /\ block_number new_block = Z.of_nat (length (chain (snd example_ledger)))
       /\ data new_block = planted_payload
       /\ timestamp new_block = wall (fst example_ledger) (ticks (fst example_ledger))
       /\ hash new_block = calculate_hash new_block
       /\ chain (snd (snd (add_block planted_payload example_ledger)))
          = chain (snd example_ledger) ++ [new_block]
       /\ (forall ty : string,
             dict_get "type" planted_payload (VStr "unknown") = VStr ty ->
             fst (add_block planted_payload example_ledger)
             = Return (BlockchainRecord.Make
                         (py_str (dict_get "id" planted_payload (VStr "unknown"))) ty
                         (hash new_block) (previous_hash new_block)
                         (timestamp new_block) (block_number new_block))).
Proof.
  split.
  - vm_compute. reflexivity.
  - apply (add_block_appends_and_reports planted_payload (fst example_ledger)
             (snd example_ledger) example_genesis).
    vm_compute. reflexivity.
Defined.

(** C2 as stated fails: on a payload whose "type" is the integer 5,
    add_block appends the block and then raises; it returns nothing. *)
Lemma add_block_untyped_payload_raises :
  fst (add_block untyped_payload example_ledger)
  = Raise (ValidationError "BlockchainRecord" "record_type")
  /\ (forall r : BlockchainRecord.t,
        fst (add_block untyped_payload example_ledger) <> Return r)
  /\ length (chain (snd (snd (add_block untyped_payload example_ledger)))) = 2%nat.
Proof.
  assert (H : fst (add_block untyped_payload example_ledger)
              = Raise (ValidationError "BlockchainRecord" "record_type"))
    by (vm_compute; reflexivity).
  split; [exact H|]. split.
  - intros r Hr. rewrite H in Hr. discriminate Hr.
  - vm_compute. reflexivity.
Qed.

(** C1, as amended.  After any sequence of add_block calls on a new
    chain, verify_chain returns True; and if the payload of a stored
    block other than the genesis block is then replaced so that the
    block's recomputed hash differs from its stored hash, verify_chain
    returns False. *)
Theorem appended_chain_verifies_and_detects_tampering (c : Clock) (payloads : list dict) :
  let built :=
    snd (run_appends payloads (snd (CultivationBlockchain_init c),
                               fst (CultivationBlockchain_init c))) in
  verify_chain built = Return true
  /\ forall (i : nat) (b : Block) (data' : dict),
       (1 <= i)%nat ->
       chain built !! i = Some b ->
       calculate_hash (MkBlock (block_number b) (timestamp b) data'
                               (previous_hash b) (hash b)) <> hash b ->
       verify_chain (tamper_payload i data' built) = Return false.
Proof.
  intros built.
  assert (Hwl : well_linked built).
  { apply run_appends_well_linked. cbn [snd]. apply fresh_well_linked. }
  split; [apply well_linked_verify; exact Hwl|].
  intros i b data' Hi Hb Hne.
  destruct Hwl as (g & rest & Hc & _).
  unfold tamper_payload. rewrite Hc in Hb |- *.
  destruct i as [|j]; [lia|]. cbn in Hb.
  cbn [alter list_alter].
  change (list_alter ?f j rest) with (alter f j rest).
  rewrite verify_chain_links.
  erewrite links_ok_tampered; [reflexivity|exact Hb|].
  cbn [hash]. intros Heq. apply Hne. symmetry. exact Heq.
Qed.

Lemma appended_chain_verifies_and_detects_tampering_witness :
  (1 <= 1)%nat
  /\ chain (snd (run_appends [planted_payload] example_ledger)) !! 1%nat = Some example_planted
  /\ calculate_hash (MkBlock (block_number example_planted) (timestamp example_planted)
                             forged_planted_payload (previous_hash example_planted)
                             (hash example_planted)) <> hash example_planted
  /\ verify_chain (snd (run_appends [planted_payload] example_ledger)) = Return true
  /\ verify_chain (tamper_payload 1 forged_planted_payload
                     (snd (run_appends [planted_payload] example_ledger))) = Return false.
Proof.
  assert (H1 : chain (snd (run_appends [planted_payload] example_ledger)) !! 1%nat
               = Some example_planted) by (vm_compute; reflexivity).
  assert (H2 : calculate_hash
                 (MkBlock (block_number example_planted) (timestamp example_planted)
                          forged_planted_payload (previous_hash example_planted)
                          (hash example_planted)) <> hash example_planted)
    by (apply String.eqb_neq; vm_compute; reflexivity).
  split; [lia|]. split; [exact H1|]. split; [exact H2|].
  pose proof (appended_chain_verifies_and_detects_tampering ticking_clock [planted_payload])
    as [Hv Ht].
  split; [exact Hv|].
  exact (Ht 1%nat example_planted forged_planted_payload (le_n 1) H1 H2).
Defined.

(** C1 as stated fails for the genesis block: its payload can be
    replaced, its recomputed hash then differs from the stored one, and
    verify_chain still returns True. *)
Lemma genesis_tampering_goes_unnoticed :
  chain (snd (run_appends [planted_payload] example_ledger)) !! 0%nat = Some example_genesis
  /\ calculate_hash (MkBlock (block_number example_genesis) (timestamp example_genesis)
                             forged_genesis_payload (previous_hash example_genesis)
                             (hash example_genesis)) <> hash example_genesis
  /\ verify_chain (tamper_payload 0 forged_genesis_payload
                     (snd (run_appends [planted_payload] example_ledger))) = Return true.
Proof.
  split; [vm_compute; reflexivity|]. split.
  - apply String.eqb_neq. vm_compute. reflexivity.
  - vm_compute. reflexivity.
Qed.

End LedgerFacts.

(* ===================================================================== *)
(** ** Growth tracking: rates, health scores, harvest prediction *)
(* ===================================================================== *)

Module NumFacts.
Import Num.
Local Open Scope Q_scope.

Lemma Qltb_lt (a b : Q) : Qltb a b = true <-> a < b.
Proof.
  unfold Qltb. rewrite negb_true_iff. split.
  - intros H. apply Qnot_le_lt. intros Hle. apply Qle_bool_iff in Hle. congruence.
  - intros H. destruct (Qle_bool b a) eqn:E; [|reflexivity].
    apply Qle_bool_iff in E. exfalso. exact (Qlt_not_le _ _ H E).
Qed.

Lemma Qltb_ge (a b : Q) : Qltb a b = false <-> b <= a.
Proof.
  unfold Qltb. rewrite negb_false_iff. apply Qle_bool_iff.
Qed.



End NumFacts.

Module GrowthFacts.
Import PyTime Py Models Num Growth Examples NumFacts.
Local Open Scope Q_scope.

(** What [track_growth] does when the plant has a previous sample. *)
Lemma track_growth_run_some (plant : Plant.t) (height : Q) (leaf_count : option Z)
      (c : Clock) (self : GrowthTracker) (last_metric : GrowthMetrics.t) :
  last (default [] (growth_history self !! Plant.id plant)) = Some last_metric ->
  let history := default [] (growth_history self !! Plant.id plant) in
  let time_diff :=
    total_seconds (wall c (ticks c) - GrowthMetrics.timestamp last_metric)%Z / 86400 in
  let growth_rate :=
    if Qltb 0 time_diff
    then Some ((height - GrowthMetrics.height last_metric) / time_diff) else None in
  let m :=
    GrowthMetrics.Make (Plant.id plant) (wall c (3 + ticks c)%nat) height leaf_count
      (adjust_health (Plant.growth_stage plant) (Plant.health_score plant) growth_rate)
      growth_rate
      (Some (wall c (2 + ticks c)%nat
             + timedelta_days (remaining_days_estimate plant history))%Z) in
  track_growth plant height leaf_count (c, self)
  = (Return m,
     (MkClock (wall c) (4 + ticks c),
      MkTracker (<[Plant.id plant := history ++ [m]]> (growth_history self)))).
Proof.
  intros Hlast. cbv zeta.
  unfold track_growth, growth_rate_of, _predict_harvest_date, bind, get, put, ret, now_, now.
  cbn [fst snd]. rewrite Hlast. cbn [wall ticks].
  destruct (Qltb 0 _); reflexivity.
Qed.

(** What [track_growth] does on the first sample of a plant. *)
Lemma track_growth_run_none (plant : Plant.t) (height : Q) (leaf_count : option Z)
      (c : Clock) (self : GrowthTracker) :
  default [] (growth_history self !! Plant.id plant) = [] ->
  let m :=
    GrowthMetrics.Make (Plant.id plant) (wall c (2 + ticks c)%nat) height leaf_count
      (Plant.health_score plant) None
      (Some (wall c (1 + ticks c)%nat + timedelta_days (remaining_days_estimate plant []))%Z) in
  track_growth plant height leaf_count (c, self)
  = (Return m,
     (MkClock (wall c) (3 + ticks c),
      MkTracker (<[Plant.id plant := [m]]> (growth_history self)))).
Proof.
  intros Hnil. cbv zeta.
  unfold track_growth, growth_rate_of, _predict_harvest_date, bind, get, put, ret, now_, now.
  cbn [fst snd]. rewrite Hnil. cbn [last fst snd growth_history]. rewrite Hnil. reflexivity.
Qed.

Lemma last_nil_inv {A} (l : list A) : last l = None -> l = [].
Proof. apply last_None. Qed.

(** [track_growth] always returns, and the sample it returns has the
    growth rate and the health score of lines 36-52. *)
Lemma track_growth_returns (plant : Plant.t) (height : Q) (leaf_count : option Z)
      (c : Clock) (self : GrowthTracker) :
  exists (m : GrowthMetrics.t) (w' : Clock * GrowthTracker),
    track_growth plant height leaf_count (c, self) = (Return m, w')
    /\ GrowthMetrics.height m = height
    /\ GrowthMetrics.health_score m
       = adjust_health (Plant.growth_stage plant) (Plant.health_score plant)
                       (GrowthMetrics.growth_rate m)
    /\ GrowthMetrics.growth_rate m
       = match last (default [] (growth_history self !! Plant.id plant)) with
         | Some last_metric =>
             let time_diff :=
               total_seconds (wall c (ticks c) - GrowthMetrics.timestamp last_metric)%Z
               / 86400 in
             if Qltb 0 time_diff
             then Some ((height - GrowthMetrics.height last_metric) / time_diff) else None
         | None => None
         end
    /\ last (default [] (growth_history (snd w') !! Plant.id plant)) = Some m.
Proof.
  destruct (last (default [] (growth_history self !! Plant.id plant))) as [lm|] eqn:Hlast.
  - pose proof (track_growth_run_some plant height leaf_count c self lm Hlast) as Hrun.
    cbv zeta in Hrun. eexists _, _. split; [exact Hrun|].
    cbn [GrowthMetrics.height GrowthMetrics.health_score GrowthMetrics.growth_rate snd
         growth_history].
    repeat split. rewrite lookup_insert_eq. cbn [default]. apply last_snoc.
  - apply last_nil_inv in Hlast.
    pose proof (track_growth_run_none plant height leaf_count c self Hlast) as Hrun.
    cbv zeta in Hrun. eexists _, _. split; [exact Hrun|].
    cbn [GrowthMetrics.height GrowthMetrics.health_score GrowthMetrics.growth_rate snd
         growth_history adjust_health].
    repeat split. rewrite lookup_insert_eq. reflexivity.
Qed.




Lemma expected_rate_positive (stage : GrowthStage) :
  0 < stage_get stage_growth_rates stage 1.0.
Proof. destruct stage; reflexivity. Qed.






Lemma truthy_rates_defined_rates (l : list GrowthMetrics.t) :
  (forall (m : GrowthMetrics.t) (r : Q),
     m ∈ l -> GrowthMetrics.growth_rate m = Some r -> ~ r == 0) ->
  truthy_rates l = defined_rates l.
Proof.
  unfold truthy_rates, defined_rates.
  induction l as [|m l IH]; intros Hnz; [reflexivity|].
  specialize (IH (fun m' r Hin => Hnz m' r (list_elem_of_further _ _ _ Hin))).
  cbn [omap list_omap] in IH |- *. rewrite IH.
  destruct (GrowthMetrics.growth_rate m) as [r|] eqn:E; [|reflexivity].
  cbn [truthy]. destruct (Qeq_bool r 0) eqn:Eb; [|reflexivity].
  exfalso. apply Qeq_bool_iff in Eb. exact (Hnz m r (list_elem_of_here _ _) E Eb).
Qed.

(** Away from growth rates that are zero, the estimate of the code is
    the one that the specification describes. *)
Lemma remaining_days_as_specified_without_zero_rates
      (plant : Plant.t) (history : list GrowthMetrics.t) :
  (forall (m : GrowthMetrics.t) (r : Q),
     m ∈ drop (length history - 5) history ->
     GrowthMetrics.growth_rate m = Some r -> ~ r == 0) ->
  remaining_days_estimate plant history = remaining_days_as_specified plant history.
Proof.
  intros Hnz. unfold remaining_days_estimate, remaining_days_as_specified.
  rewrite (truthy_rates_defined_rates _ Hnz). reflexivity.
Qed.

(** C6, where the code departs from it.  With four prior samples whose
    growth rates are undefined, 0, 0 and 4 cm a day, and a plant in the
    vegetative stage (expected rate 2, 90 days to go), the code takes
    the mean over the rate 4 alone and predicts 45 days; the mean over
    the three defined rates, as the claim has it, is 4/3 and gives 135
    days.  The same shows when the four samples come from track_growth
    itself, measuring 10, 10, 10 and 14 cm on four successive days. *)
Theorem zero_growth_rates_left_out_of_recent_mean :
  truthy_rates stalled_history = [4]
  /\ defined_rates stalled_history = [0; 0; 4]
  /\ remaining_days_estimate vegetative_plant stalled_history = 45%Z
  /\ remaining_days_as_specified vegetative_plant stalled_history = 135%Z
  /\ exists m : GrowthMetrics.t,
       fst (track_growths vegetative_plant [10; 10; 10; 14; 15]
                          (daily_clock, GrowthTracker_init)) = Some m
       /\ GrowthMetrics.predicted_harvest_date m
          = Some (GrowthMetrics.timestamp m + timedelta_days 45)%Z.
Proof.
  split; [vm_compute; reflexivity|].
  split; [vm_compute; reflexivity|].
  split; [vm_compute; reflexivity|].
  split; [vm_compute; reflexivity|].
  eexists. split; vm_compute; reflexivity.
Qed.

End GrowthFacts.

(* ===================================================================== *)
(** ** The coordinator: capacity, ledger records, repeated measurements *)
(* ===================================================================== *)

Module AppFacts.
Import PyTime Json Py Models Num Examples NumFacts LedgerFacts GrowthFacts.
Import Ledger Growth App.
Local Open Scope Q_scope.
#[local] Arguments calculate_hash : simpl never.
#[local] Arguments isoformat : simpl never.

Lemma last_is_Some {A} (l : list A) : l <> [] -> exists x, last l = Some x.
Proof.
  intros Hne. destruct (last l) eqn:E; [eauto|]. apply last_None in E. contradiction.
Qed.

(** On a ledger with a last block, [record_plant_data] returns, and the
    chain is one block longer. *)
Lemma record_plant_data_run (plant_id : string) (d : dict) (c : Clock)
      (self : CultivationBlockchain) (prev : Block) :
  last (chain self) = Some prev ->
  exists (r : BlockchainRecord.t) (nb : Block),
    record_plant_data plant_id d (c, self)
    = (Return r, (MkClock (wall c) (2 + ticks c), MkChain (chain self ++ [nb])))
    /\ hash nb = calculate_hash nb
    /\ previous_hash nb = hash prev.
Proof.
  intros Hlast. unfold record_plant_data, bind, now_, now. cbn [fst snd].
  rewrite (add_block_run _ _ self prev Hlast). cbn [wall ticks].
  eexists _, _. split; [reflexivity|]. split; reflexivity.
Qed.






(** [add_plant] on a pod that is full: the error is raised first. *)
Lemma add_plant_full (plant_id strain pod_id : string) (c : Clock) (e : GrowPodEmpire)
      (pod : GrowPod.t) :
  pods e !! pod_id = Some pod ->
  (GrowPod.capacity pod <= Z.of_nat (length (GrowPod.current_plants pod)))%Z ->
  add_plant plant_id strain pod_id (c, e)
  = (Raise (ValueError ("Pod " +:+ pod_id +:+ " is at full capacity")), (c, e)).
Proof.
  intros Hpod Hfull. unfold add_plant, bind, get, raise. cbn [fst snd]. rewrite Hpod.
  apply Z.leb_le in Hfull. rewrite Hfull. reflexivity.
Qed.

(** [add_plant] on a pod with room left, and a ledger with a last
    block. *)
Lemma add_plant_room (plant_id strain pod_id : string) (c : Clock) (e : GrowPodEmpire)
      (pod : GrowPod.t) (prev : Block) :
  pods e !! pod_id = Some pod ->
  (Z.of_nat (length (GrowPod.current_plants pod)) < GrowPod.capacity pod)%Z ->
  last (chain (blockchain e)) = Some prev ->
  exists (nb : Block),
    add_plant plant_id strain pod_id (c, e)
    = (Return (Plant.Make plant_id strain SEED (wall c (ticks c)) pod_id None 100 None []),
       (MkClock (wall c) (3 + ticks c),
        MkEmpire
          (<[plant_id := Plant.Make plant_id strain SEED (wall c (ticks c)) pod_id
                           None 100 None []]> (plants e))
          (<[pod_id := GrowPod.Make (GrowPod.id pod) (GrowPod.name pod) (GrowPod.capacity pod)
                         (GrowPod.current_plants pod ++ [plant_id])
                         (GrowPod.current_conditions pod) (GrowPod.active pod)]> (pods e))
          (growth_tracker e) (environmental_monitor e)
          (MkChain (chain (blockchain e) ++ [nb]))))
    /\ hash nb = calculate_hash nb
    /\ previous_hash nb = hash prev.
Proof.
  intros Hpod Hroom Hlast.
  destruct (record_plant_data_run plant_id
              [ ("action", VStr "planted"); ("strain", VStr strain); ("pod_id", VStr pod_id) ]
              (MkClock (wall c) (S (ticks c))) (blockchain e) prev Hlast)
    as (r & nb & Hrec & Hh & Hp).
  exists nb. split; [|split; assumption].
  unfold add_plant, bind, get, put, raise, ret, now_, now, zoom. cbn [fst snd]. rewrite Hpod.
  apply Z.leb_gt in Hroom. rewrite Hroom.
  cbn [fst snd set_plants set_pods blockchain plants pods]. rewrite Hrec. reflexivity.
Qed.


Lemma well_linked_snoc (self : CultivationBlockchain) (prev nb : Block) :
  well_linked self ->
  last (chain self) = Some prev ->
  hash nb = calculate_hash nb ->
  previous_hash nb = hash prev ->
  well_linked (MkChain (chain self ++ [nb])).
Proof.
  intros (g & rest & Hc & Hok) Hlast Hh Hp.
  exists g, (rest ++ [nb]). split.
  - cbn [chain]. rewrite Hc. reflexivity.
  - rewrite (links_ok_snoc g rest nb prev) by (rewrite <- Hc; exact Hlast).
    rewrite Hok, <- Hh, Hp, !String.eqb_refl. reflexivity.
Qed.

(** C9.  Adding a plant to a pod that is at full capacity raises the
    capacity error and leaves the whole state, the ledger chain
    included, as it was.  Adding a plant to an empty pod of capacity 1
    returns the plant and appends exactly one block to the chain, which
    still verifies.  So from a new empire with such a pod: after the
    first plant the chain has length 2 and verify_chain is True, and a
    second plant is rejected with the chain unchanged. *)
Theorem add_plant_capacity_and_ledger :
  (forall (plant_id strain pod_id : string) (c : Clock) (e : GrowPodEmpire) (pod : GrowPod.t),
     pods e !! pod_id = Some pod ->
     (GrowPod.capacity pod <= Z.of_nat (length (GrowPod.current_plants pod)))%Z ->
     add_plant plant_id strain pod_id (c, e)
     = (Raise (ValueError ("Pod " +:+ pod_id +:+ " is at full capacity")), (c, e)))
  /\ (forall (plant_id strain pod_id : string) (c : Clock) (e : GrowPodEmpire)
             (pod : GrowPod.t),
        pods e !! pod_id = Some pod ->
        GrowPod.current_plants pod = [] ->
        GrowPod.capacity pod = 1%Z ->
        well_linked (blockchain e) ->
        exists (plant : Plant.t) (nb : Block) (w' : Clock * GrowPodEmpire) (pod' : GrowPod.t),
          add_plant plant_id strain pod_id (c, e) = (Return plant, w')
          /\ chain (blockchain (snd w')) = chain (blockchain e) ++ [nb]
          /\ verify_chain (blockchain (snd w')) = Return true
          /\ pods (snd w') !! pod_id = Some pod'
          /\ GrowPod.current_plants pod' = [plant_id]
          /\ GrowPod.capacity pod' = 1%Z)
  /\ (forall (c : Clock) (pod_id name plant_id strain plant_id2 strain2 : string),
        let w0 := (snd (GrowPodEmpire_init c), fst (GrowPodEmpire_init c)) in
        let w1 := snd (create_pod pod_id name 1 w0) in
        let r2 := add_plant plant_id strain pod_id w1 in
        let r3 := add_plant plant_id2 strain2 pod_id (snd r2) in
        (exists plant : Plant.t, fst r2 = Return plant)
        /\ length (chain (blockchain (snd (snd r2)))) = 2%nat
        /\ verify_data_integrity (snd (snd r2)) = Return true
        /\ fst r3 = Raise (ValueError ("Pod " +:+ pod_id +:+ " is at full capacity"))
        /\ snd r3 = snd r2).
Proof.
  assert (Hroom : forall (plant_id strain pod_id : string) (c : Clock) (e : GrowPodEmpire)
                         (pod : GrowPod.t),
             pods e !! pod_id = Some pod ->
             GrowPod.current_plants pod = [] ->
             GrowPod.capacity pod = 1%Z ->
             well_linked (blockchain e) ->
             exists (plant : Plant.t) (nb : Block) (w' : Clock * GrowPodEmpire)
                    (pod' : GrowPod.t),
               add_plant plant_id strain pod_id (c, e) = (Return plant, w')
               /\ chain (blockchain (snd w')) = chain (blockchain e) ++ [nb]
               /\ verify_chain (blockchain (snd w')) = Return true
               /\ pods (snd w') !! pod_id = Some pod'
               /\ GrowPod.current_plants pod' = [plant_id]
               /\ GrowPod.capacity pod' = 1%Z).
  { intros plant_id strain pod_id c e pod Hpod Hempty Hcap Hwl.
    destruct (well_linked_last _ Hwl) as [prev Hlast].
    destruct (add_plant_room plant_id strain pod_id c e pod prev Hpod) as (nb & Hrun & Hh & Hp).
    { rewrite Hempty, Hcap. cbn. lia. }
    { exact Hlast. }
    eexists _, nb, _, _. split; [exact Hrun|]. cbn [snd blockchain pods chain].
    split; [reflexivity|]. split.
    - apply well_linked_verify. exact (well_linked_snoc _ prev nb Hwl Hlast Hh Hp).
    - split; [apply lookup_insert_eq|]. cbn [GrowPod.current_plants GrowPod.capacity].
      rewrite Hempty. split; [reflexivity|exact Hcap]. }
  split; [exact add_plant_full|]. split; [exact Hroom|].
  intros c pod_id name plant_id strain plant_id2 strain2 w0 w1 r2 r3.
  assert (Hw1 : w1 = (MkClock (wall c) (S (ticks c)),
                      MkEmpire ∅ (<[pod_id := GrowPod.Make pod_id name 1 [] None true]> ∅)
                               GrowthTracker_init Env.EnvironmentalMonitor_init
                               (fst (CultivationBlockchain_init c)))).
  { subst w1 w0. unfold GrowPodEmpire_init. rewrite genesis_run. reflexivity. }
  destruct (Hroom plant_id strain pod_id (fst w1) (snd w1)
              (GrowPod.Make pod_id name 1 [] None true))
    as (plant & nb & [c2 e2] & pod' & Hrun & Hchain & Hverify & Hpod' & Hplants & Hcap).
  { rewrite Hw1. cbn [snd pods]. apply lookup_insert_eq. }
  { reflexivity. }
  { reflexivity. }
  { rewrite Hw1. cbn [snd blockchain]. apply fresh_well_linked. }
  assert (Hr2 : r2 = (Return plant, (c2, e2))).
  { subst r2. rewrite <- Hrun. destruct w1; reflexivity. }
  cbn [snd] in Hchain, Hverify, Hpod'.
  split; [exists plant; rewrite Hr2; reflexivity|].
  rewrite Hr2. cbn [snd fst]. split.
  - rewrite Hchain, Hw1. cbn [snd blockchain]. rewrite genesis_run. reflexivity.
  - split; [exact Hverify|].
    subst r3. rewrite Hr2. cbn [snd].
    rewrite (add_plant_full plant_id2 strain2 pod_id c2 e2 pod' Hpod').
    + split; reflexivity.
    + rewrite Hplants, Hcap. cbn. lia.
Qed.

Lemma add_plant_capacity_and_ledger_witness :
  (pods (snd empire_with_plant) !! "pod-1" = Some full_pod
   /\ (GrowPod.capacity full_pod <= Z.of_nat (length (GrowPod.current_plants full_pod)))%Z
   /\ add_plant "plant-2" "Haze" "pod-1" empire_with_plant
      = (Raise (ValueError ("Pod " +:+ "pod-1" +:+ " is at full capacity")),
         empire_with_plant))
  /\ (pods (snd empire_with_pod) !! "pod-1" = Some empty_pod
      /\ GrowPod.current_plants empty_pod = []
      /\ GrowPod.capacity empty_pod = 1%Z
      /\ well_linked (blockchain (snd empire_with_pod))
      /\ exists (plant : Plant.t) (nb : Block) (w' : Clock * GrowPodEmpire) (pod' : GrowPod.t),
           add_plant "plant-1" "OG Kush" "pod-1" empire_with_pod = (Return plant, w')
           /\ chain (blockchain (snd w')) = chain (blockchain (snd empire_with_pod)) ++ [nb]
           /\ verify_chain (blockchain (snd w')) = Return true
           /\ pods (snd w') !! "pod-1" = Some pod'
           /\ GrowPod.current_plants pod' = ["plant-1"]
           /\ GrowPod.capacity pod' = 1%Z).
Proof.
  split.
  - assert (Hpod : pods (snd empire_with_plant) !! "pod-1" = Some full_pod)
      by (vm_compute; reflexivity).
    assert (Hfull : (GrowPod.capacity full_pod
                     <= Z.of_nat (length (GrowPod.current_plants full_pod)))%Z)
      by (cbn; lia).
    split; [exact Hpod|]. split; [exact Hfull|].
    destruct empire_with_plant as [c e]. cbn [snd] in Hpod.
    exact (proj1 add_plant_capacity_and_ledger "plant-2" "Haze" "pod-1" c e full_pod Hpod Hfull).
  - assert (Hpod : pods (snd empire_with_pod) !! "pod-1" = Some empty_pod)
      by (vm_compute; reflexivity).
    assert (Hwl : well_linked (blockchain (snd empire_with_pod))).
    { exists example_genesis, []. split; vm_compute; reflexivity. }
    split; [exact Hpod|]. split; [reflexivity|]. split; [reflexivity|]. split; [exact Hwl|].
    destruct empire_with_pod as [c e]. cbn [snd] in Hpod, Hwl |- *.
    exact (proj1 (proj2 add_plant_capacity_and_ledger) "plant-1" "OG Kush" "pod-1" c e
             empty_pod Hpod eq_refl eq_refl Hwl).
Defined.

End AppFacts.

(* ===================================================================== *)
(** ** Environmental monitoring: alerts and windowed statistics *)
(* ===================================================================== *)

Module EnvFacts.
Import PyTime Py Models Num Examples NumFacts.
Import Env.
Local Open Scope Q_scope.

Section Alerts.
Variable float_repr : Q -> string.









End Alerts.

















End EnvFacts.

(* ===================================================================== *)
(** ** The ledger, further: verification, numbering, queries *)
(* ===================================================================== *)

Module LedgerMore.
Import PyTime Json Py Models Ledger Examples LedgerFacts.
#[local] Arguments calculate_hash : simpl never.
#[local] Arguments isoformat : simpl never.

Lemma links_ok_iff (prev : Block) (rest : list Block) :
  links_ok prev rest = true
  <-> forall j : nat, (j < length rest)%nat -> block_checks (prev :: rest) (S j).
Proof.
  revert prev. induction rest as [|cur rest IH]; intros prev.
  - split; [intros _ j Hj; cbn in Hj; lia|reflexivity].
  - cbn [links_ok]. rewrite !andb_true_iff, IH, !String.eqb_eq. split.
    + intros [[Hh Hp] Hrest] j Hj. destruct j as [|j].
      * exists cur, prev. repeat split; assumption.
      * cbn [length] in Hj. destruct (Hrest j) as (x & y & Hx & Hy & Hhx & Hpx); [lia|].
        exists x, y. cbn in Hy. rewrite ?Nat.sub_0_r in Hy.
        repeat split; first [assumption | cbn; rewrite ?Nat.sub_0_r; assumption].
    + intros Hall. split; [split|].
      * destruct (Hall 0%nat) as (x & y & Hx & Hy & Hhx & Hpx); [cbn; lia|].
        cbn in Hx, Hy. injection Hx as <-. exact Hhx.
      * destruct (Hall 0%nat) as (x & y & Hx & Hy & Hhx & Hpx); [cbn; lia|].
        cbn in Hx, Hy. injection Hx as <-. injection Hy as <-. exact Hpx.
      * intros j Hj. destruct (Hall (S j)) as (x & y & Hx & Hy & Hhx & Hpx); [cbn; lia|].
        exists x, y. cbn in Hx, Hy. rewrite ?Nat.sub_0_r in Hy.
        repeat split; first [assumption | cbn; rewrite ?Nat.sub_0_r; assumption].
Qed.

(** X1.  verify_chain never raises, on any chain, and it returns True
    exactly when every block from index 1 on carries the hash that is
    recomputed from its fields and the stored hash of the block before
    it.  The block at index 0 is not looked at. *)
Theorem verify_chain_checks_every_link (self : CultivationBlockchain) :
  exists b : bool,
    verify_chain self = Return b
    /\ (b = true
        <-> forall i : nat,
              (1 <= i)%nat -> (i < length (chain self))%nat ->
              block_checks (chain self) i).
Proof.
  destruct self as [[|g rest]].
  - exists true. split; [reflexivity|]. split; [|reflexivity].
    intros _ i _ Hi. cbn in Hi. lia.
  - exists (links_ok g rest). split; [apply verify_chain_links|].
    rewrite links_ok_iff. cbn [chain length]. split.
    + intros H i H1 Hi. destruct i as [|j]; [lia|]. apply H. lia.
    + intros H j Hj. apply H; lia.
Qed.


Lemma add_block_numbered (d : dict) (c : Clock) (self : CultivationBlockchain) :
  (forall (i : nat) (b : Block), chain self !! i = Some b -> block_number b = Z.of_nat i) ->
  forall (i : nat) (b : Block),
    chain (snd (snd (add_block d (c, self)))) !! i = Some b -> block_number b = Z.of_nat i.
Proof.
  intros Hnum i b. destruct (last (chain self)) as [prev|] eqn:Hlast.
  - rewrite (add_block_run d c self prev Hlast). cbn [snd chain]. intros Hb.
    apply lookup_app_Some in Hb. destruct Hb as [Hb|[Hlen Hb]]; [exact (Hnum i b Hb)|].
    apply list_lookup_singleton_Some in Hb. destruct Hb as [Hi <-].
    cbn [block_number built_block]. f_equal. lia.
  - apply last_None in Hlast. rewrite (add_block_empty d c self Hlast). cbn [snd].
    apply Hnum.
Qed.

Lemma add_block_length (d : dict) (c : Clock) (self : CultivationBlockchain) :
  chain self <> [] ->
  length (chain (snd (snd (add_block d (c, self))))) = S (length (chain self)).
Proof.
  intros Hne. destruct (last (chain self)) as [prev|] eqn:Hlast.
  - rewrite (add_block_run d c self prev Hlast). cbn [snd chain].
    rewrite length_app. cbn. lia.
  - apply last_None in Hlast. contradiction.
Qed.

Lemma run_appends_shape (payloads : list dict) (w : Clock * CultivationBlockchain) :
  well_linked (snd w) ->
  (forall (i : nat) (b : Block), chain (snd w) !! i = Some b -> block_number b = Z.of_nat i) ->
  well_linked (snd (run_appends payloads w))
  /\ (forall (i : nat) (b : Block),
        chain (snd (run_appends payloads w)) !! i = Some b -> block_number b = Z.of_nat i)
  /\ length (chain (snd (run_appends payloads w)))
     = (length (chain (snd w)) + length payloads)%nat.
Proof.
  revert w. induction payloads as [|d rest IH]; intros [c self] Hwl Hnum.
  - cbn [run_appends length]. rewrite Nat.add_0_r. auto.
  - cbn [run_appends].
    destruct (add_block d (c, self)) as [o [c' self']] eqn:E.
    assert (Hself' : self' = snd (snd (add_block d (c, self)))) by (rewrite E; reflexivity).
    cbn [snd] in *.
    destruct (IH (c', self')) as (Hwl' & Hnum' & Hlen').
    + cbn [snd]. rewrite Hself'. apply add_block_well_linked. exact Hwl.
    + cbn [snd]. rewrite Hself'. apply add_block_numbered. exact Hnum.
    + cbn [snd] in *. split; [exact Hwl'|]. split; [exact Hnum'|].
      rewrite Hlen', Hself', add_block_length; [cbn [length]; lia|].
      destruct Hwl as (g & r & Hc & _). rewrite Hc. discriminate.
Qed.

(** X2.  In a chain built from a new chain by any sequence of add_block
    calls, every block's number is its position in the chain, and the
    chain has one block more than there were calls.  get_chain_info on
    it returns: it reports that length, is_valid True, and the number,
    hash and timestamp of the last block, whose number is the number of
    calls. *)
Theorem block_numbers_are_positions (c : Clock) (payloads : list dict) :
  let built :=
    snd (run_appends payloads (snd (CultivationBlockchain_init c),
                               fst (CultivationBlockchain_init c))) in
  (forall (i : nat) (b : Block), chain built !! i = Some b -> block_number b = Z.of_nat i)
  /\ length (chain built) = S (length payloads)
  /\ exists latest : Block,
       last (chain built) = Some latest
       /\ block_number latest = Z.of_nat (length payloads)
       /\ get_chain_info built
          = Return (MkChainInfo (S (length payloads)) true (Z.of_nat (length payloads))
                                (hash latest) (isoformat (timestamp latest))).
Proof.
  intros built.
  destruct (run_appends_shape payloads (snd (CultivationBlockchain_init c),
                                        fst (CultivationBlockchain_init c)))
    as (Hwl & Hnum & Hlen).
  { cbn [snd]. apply fresh_well_linked. }
  { cbn [snd]. rewrite genesis_run. cbn [fst chain]. intros i b Hb.
    apply list_lookup_singleton_Some in Hb. destruct Hb as [-> <-]. reflexivity. }
  fold built in Hwl, Hnum, Hlen.
  assert (Hlen' : length (chain built) = S (length payloads)).
  { rewrite Hlen. cbn [snd]. rewrite genesis_run. reflexivity. }
  split; [exact Hnum|]. split; [exact Hlen'|].
  destruct (well_linked_last _ Hwl) as [latest Hlast].
  assert (Hn : block_number latest = Z.of_nat (length payloads)).
  { apply Hnum. rewrite last_lookup in Hlast. rewrite Hlen' in Hlast. exact Hlast. }
  exists latest. split; [exact Hlast|]. split; [exact Hn|].
  unfold get_chain_info. rewrite (well_linked_verify _ Hwl), Hlast, Hlen', Hn. reflexivity.
Qed.


(** The payload that the three [record_] functions wrap the data in. *)
Lemma typed_record_run (ty record_id : string) (d : dict) (c : Clock)
      (self : CultivationBlockchain) (prev : Block) :
  last (chain self) = Some prev ->
  let payload :=
    [ ("type", VStr ty); ("id", VStr record_id);
      ("timestamp", VStr (isoformat (wall c (ticks c)))); ("data", VDict d) ] in
  let nb := built_block self prev (wall c (S (ticks c))) payload in
  (let (t, c') := now c in add_block
     [ ("type", VStr ty); ("id", VStr record_id);
       ("timestamp", VStr (isoformat t)); ("data", VDict d) ] (c', self))
  = (Return (BlockchainRecord.Make record_id ty (hash nb) (hash prev)
               (wall c (S (ticks c))) (Z.of_nat (length (chain self)))),
     (MkClock (wall c) (2 + ticks c), MkChain (chain self ++ [nb]))).
Proof.
  intros Hlast payload nb. unfold now.
  rewrite (add_block_run _ _ self prev Hlast). reflexivity.
Qed.

Lemma record_plant_data_explicit (record_id : string) (d : dict) (c : Clock)
      (self : CultivationBlockchain) (prev : Block) :
  last (chain self) = Some prev ->
  record_plant_data record_id d (c, self)
  = (Return (BlockchainRecord.Make record_id "plant_data"
               (hash (built_block self prev (wall c (S (ticks c)))
                        [ ("type", VStr "plant_data"); ("id", VStr record_id);
                          ("timestamp", VStr (isoformat (wall c (ticks c))));
                          ("data", VDict d) ]))
               (hash prev) (wall c (S (ticks c))) (Z.of_nat (length (chain self)))),
     (MkClock (wall c) (2 + ticks c),
      MkChain (chain self
               ++ [built_block self prev (wall c (S (ticks c)))
                     [ ("type", VStr "plant_data"); ("id", VStr record_id);
                       ("timestamp", VStr (isoformat (wall c (ticks c))));
                       ("data", VDict d) ]]))).
Proof. exact (typed_record_run "plant_data" record_id d c self prev). Qed.

Lemma record_environmental_data_explicit (record_id : string) (d : dict) (c : Clock)
      (self : CultivationBlockchain) (prev : Block) :
  last (chain self) = Some prev ->
  record_environmental_data record_id d (c, self)
  = (Return (BlockchainRecord.Make record_id "environmental_data"
               (hash (built_block self prev (wall c (S (ticks c)))
                        [ ("type", VStr "environmental_data"); ("id", VStr record_id);
                          ("timestamp", VStr (isoformat (wall c (ticks c))));
                          ("data", VDict d) ]))
               (hash prev) (wall c (S (ticks c))) (Z.of_nat (length (chain self)))),
     (MkClock (wall c) (2 + ticks c),
      MkChain (chain self
               ++ [built_block self prev (wall c (S (ticks c)))
                     [ ("type", VStr "environmental_data"); ("id", VStr record_id);
                       ("timestamp", VStr (isoformat (wall c (ticks c))));
                       ("data", VDict d) ]]))).
Proof. exact (typed_record_run "environmental_data" record_id d c self prev). Qed.

Lemma record_harvest_explicit (record_id : string) (d : dict) (c : Clock)
      (self : CultivationBlockchain) (prev : Block) :
  last (chain self) = Some prev ->
  record_harvest record_id d (c, self)
  = (Return (BlockchainRecord.Make record_id "harvest"
               (hash (built_block self prev (wall c (S (ticks c)))
                        [ ("type", VStr "harvest"); ("id", VStr record_id);
                          ("timestamp", VStr (isoformat (wall c (ticks c))));
                          ("data", VDict d) ]))
               (hash prev) (wall c (S (ticks c))) (Z.of_nat (length (chain self)))),
     (MkClock (wall c) (2 + ticks c),
      MkChain (chain self
               ++ [built_block self prev (wall c (S (ticks c)))
                     [ ("type", VStr "harvest"); ("id", VStr record_id);
                       ("timestamp", VStr (isoformat (wall c (ticks c))));
                       ("data", VDict d) ]]))).
Proof. exact (typed_record_run "harvest" record_id d c self prev). Qed.

(** X3.  On a chain that has a last block, record_plant_data,
    record_environmental_data and record_harvest return; each appends
    exactly one block, whose payload wraps the data given under "data"
    with the id, the time of the call and the type "plant_data",
    "environmental_data" or "harvest"; and each returns the record of
    that block: the id and that type, the block's hash, the hash of the
    block that was last, and the old length of the chain as number. *)
Theorem record_functions_append_typed_blocks (record_id : string) (d : dict) (c : Clock)
        (self : CultivationBlockchain) (prev : Block) :
  last (chain self) = Some prev ->
  let payload (ty : string) : dict :=
    [ ("type", VStr ty); ("id", VStr record_id);
      ("timestamp", VStr (isoformat (wall c (ticks c)))); ("data", VDict d) ] in
  let nb (ty : string) : Block := built_block self prev (wall c (S (ticks c))) (payload ty) in
  let result (ty : string) :=
    (Return (BlockchainRecord.Make record_id ty (hash (nb ty)) (hash prev)
               (wall c (S (ticks c))) (Z.of_nat (length (chain self)))),
     (MkClock (wall c) (2 + ticks c), MkChain (chain self ++ [nb ty]))) in
  record_plant_data record_id d (c, self) = result "plant_data"
  /\ record_environmental_data record_id d (c, self) = result "environmental_data"
  /\ record_harvest record_id d (c, self) = result "harvest".
Proof.
  intros Hlast payload nb result.
  split; [|split].
  - exact (typed_record_run "plant_data" record_id d c self prev Hlast).
  - exact (typed_record_run "environmental_data" record_id d c self prev Hlast).
  - exact (typed_record_run "harvest" record_id d c self prev Hlast).
Qed.

Lemma record_functions_append_typed_blocks_witness :
  last (chain (snd example_ledger)) = Some example_genesis
  /\ fst (record_harvest "plant-1" [("yield_amount", VInt 3)] example_ledger)
     = Return (BlockchainRecord.Make "plant-1" "harvest"
                 (hash (built_block (snd example_ledger) example_genesis
                          (wall (fst example_ledger) (S (ticks (fst example_ledger))))
                          [ ("type", VStr "harvest"); ("id", VStr "plant-1");
                            ("timestamp",
                             VStr (isoformat (wall (fst example_ledger)
                                                   (ticks (fst example_ledger)))));
                            ("data", VDict [("yield_amount", VInt 3)]) ]))
                 (hash example_genesis)
                 (wall (fst example_ledger) (S (ticks (fst example_ledger))))
                 (Z.of_nat (length (chain (snd example_ledger))))).
Proof.
  assert (Hlast : last (chain (snd example_ledger)) = Some example_genesis)
    by (vm_compute; reflexivity).
  split; [exact Hlast|].
  pose proof (record_functions_append_typed_blocks "plant-1" [("yield_amount", VInt 3)]
                (fst example_ledger) (snd example_ledger) example_genesis Hlast)
    as (_ & _ & Hh).
  cbv zeta in Hh.
  replace example_ledger with (fst example_ledger, snd example_ledger) at 1
    by (destruct example_ledger; reflexivity).
  rewrite Hh. reflexivity.
Defined.

Lemma records_where_app (key wanted : string) (l1 l2 : list Block) :
  records_where key wanted (l1 ++ l2)
  = records_where key wanted l1 ++ records_where key wanted l2.
Proof.
  induction l1 as [|b l1 IH]; [reflexivity|]. cbn [app records_where].
  destruct (equals_str _ wanted); rewrite IH; reflexivity.
Qed.

Lemma equals_str_true (v : value) (s : string) : equals_str v s = true <-> v = VStr s.
Proof.
  destruct v; cbn; try (split; [discriminate|intros H; discriminate H]).
  rewrite String.eqb_eq. split; [intros ->; reflexivity|intros H; injection H; auto].
Qed.

Lemma drop_1_snoc {A} (l : list A) (x : A) : l <> [] -> drop 1 (l ++ [x]) = drop 1 l ++ [x].
Proof. destruct l; [contradiction|reflexivity]. Qed.

(** X4.  After record_plant_data(id, data) on a chain that has a last
    block, get_records_by_id(id) is what it was before followed by the
    entry of the new block (its number, timestamp text, hash and
    payload), the same holds for get_records_by_type("plant_data"), and
    get_records_by_id of any other id is what it was. *)
Theorem recorded_data_is_listed_under_its_id (record_id : string) (d : dict) (c : Clock)
        (self : CultivationBlockchain) (prev : Block) :
  last (chain self) = Some prev ->
  let self' := snd (snd (record_plant_data record_id d (c, self))) in
  exists nb : Block,
    last (chain self') = Some nb
    /\ data nb = [ ("type", VStr "plant_data"); ("id", VStr record_id);
                   ("timestamp", VStr (isoformat (wall c (ticks c)))); ("data", VDict d) ]
    /\ get_records_by_id self' record_id
       = get_records_by_id self record_id ++ [record_entry nb]
    /\ get_records_by_type self' "plant_data"
       = get_records_by_type self "plant_data" ++ [record_entry nb]
    /\ forall other : string,
         other <> record_id -> get_records_by_id self' other = get_records_by_id self other.
Proof.
  intros Hlast self'. subst self'.
  rewrite (record_plant_data_explicit record_id d c self prev Hlast). cbn [snd].
  assert (Hne : chain self <> []).
  { intros Hnil. rewrite Hnil in Hlast. discriminate Hlast. }
  eexists. split; [apply last_snoc|]. split; [reflexivity|].
  unfold get_records_by_id, get_records_by_type. cbn [chain].
  rewrite (drop_1_snoc _ _ Hne), !records_where_app.
  split; [|split].
  - cbn [records_where data built_block dict_get]. cbn. rewrite String.eqb_refl. reflexivity.
  - reflexivity.
  - intros other Hother. rewrite records_where_app.
    cbn [records_where data built_block dict_get]. cbn.
    apply String.eqb_neq in Hother. rewrite String.eqb_sym, Hother.
    rewrite app_nil_r. reflexivity.
Qed.

Lemma recorded_data_is_listed_under_its_id_witness :
  last (chain (snd example_ledger)) = Some example_genesis
  /\ exists nb : Block,
       last (chain (snd (snd (record_plant_data "plant-1" [("action", VStr "planted")]
                                 example_ledger)))) = Some nb
       /\ get_records_by_id
            (snd (snd (record_plant_data "plant-1" [("action", VStr "planted")]
                         example_ledger))) "plant-1"
          = get_records_by_id (snd example_ledger) "plant-1" ++ [record_entry nb]
       /\ get_records_by_id
            (snd (snd (record_plant_data "plant-1" [("action", VStr "planted")]
                         example_ledger))) "plant-2"
          = get_records_by_id (snd example_ledger) "plant-2".
Proof.
  assert (Hlast : last (chain (snd example_ledger)) = Some example_genesis)
    by (vm_compute; reflexivity).
  split; [exact Hlast|].
  destruct (recorded_data_is_listed_under_its_id "plant-1" [("action", VStr "planted")]
              (fst example_ledger) (snd example_ledger) example_genesis Hlast)
    as (nb & H1 & _ & H2 & _ & H3).
  replace example_ledger with (fst example_ledger, snd example_ledger) at 1 3 5
    by (destruct example_ledger; reflexivity).
  exists nb. split; [exact H1|]. split; [exact H2|].
  apply H3. discriminate.
Defined.


Lemma records_where_source (key wanted : string) (blocks : list Block) (r : ChainRecord.t) :
  r ∈ records_where key wanted blocks ->
  exists b : Block,
    b ∈ blocks /\ r = record_entry b /\ dict_get key (data b) VNone = VStr wanted.
Proof.
  induction blocks as [|b blocks IH]; cbn [records_where]; intros Hin.
  - apply elem_of_nil in Hin. contradiction.
  - destruct (equals_str (dict_get key (data b) VNone) wanted) eqn:E.
    + apply elem_of_cons in Hin. destruct Hin as [-> | Hin].
      * exists b. split; [apply list_elem_of_here|]. split; [reflexivity|].
        apply equals_str_true. exact E.
      * destruct (IH Hin) as (b' & Hb' & Hr & Hk). exists b'.
        split; [apply list_elem_of_further; exact Hb'|]. split; assumption.
    + destruct (IH Hin) as (b' & Hb' & Hr & Hk). exists b'.
      split; [apply list_elem_of_further; exact Hb'|]. split; assumption.
Qed.

(** X5.  The genesis block is never listed.  On a new chain
    get_records_by_type and get_records_by_id return the empty list for
    every argument, "genesis" included; and in a chain built by any
    sequence of add_block calls, every entry that either of them
    returns has a block number from 1 to the number of calls, and is the
    entry of the block stored under that number. *)
Theorem genesis_block_is_never_listed (c : Clock) (payloads : list dict) (wanted : string) :
  let fresh := fst (CultivationBlockchain_init c) in
  let built := snd (run_appends payloads (snd (CultivationBlockchain_init c), fresh)) in
  get_records_by_type fresh wanted = []
  /\ get_records_by_id fresh wanted = []
  /\ forall r : ChainRecord.t,
       r ∈ get_records_by_type built wanted \/ r ∈ get_records_by_id built wanted ->
       (1 <= ChainRecord.block_number r <= Z.of_nat (length payloads))%Z
       /\ exists b : Block,
            chain built !! Z.to_nat (ChainRecord.block_number r) = Some b
            /\ r = record_entry b.
Proof.
  intros fresh built.
  split; [subst fresh; rewrite genesis_run; reflexivity|].
  split; [subst fresh; rewrite genesis_run; reflexivity|].
  destruct (run_appends_shape payloads (snd (CultivationBlockchain_init c), fresh))
    as (_ & Hnum & Hlen).
  { cbn [snd]. apply fresh_well_linked. }
  { cbn [snd]. subst fresh. rewrite genesis_run. cbn [fst chain]. intros i b Hb.
    apply list_lookup_singleton_Some in Hb. destruct Hb as [-> <-]. reflexivity. }
  fold built in Hnum, Hlen.
  assert (Hlen' : length (chain built) = S (length payloads)).
  { rewrite Hlen. cbn [snd]. subst fresh. rewrite genesis_run. reflexivity. }
  assert (Hany : forall (key : string) (r : ChainRecord.t),
             r ∈ records_where key wanted (drop 1 (chain built)) ->
             (1 <= ChainRecord.block_number r <= Z.of_nat (length payloads))%Z
             /\ exists b : Block,
                  chain built !! Z.to_nat (ChainRecord.block_number r) = Some b
                  /\ r = record_entry b).
  { intros key r Hin. destruct (records_where_source _ _ _ _ Hin) as (b & Hb & -> & _).
    apply list_elem_of_lookup in Hb. destruct Hb as [j Hj]. rewrite lookup_drop in Hj.
    pose proof (Hnum _ _ Hj) as Hn. pose proof (lookup_lt_Some _ _ _ Hj) as Hlt.
    cbn [record_entry ChainRecord.block_number]. rewrite Hn. split; [lia|].
    exists b. rewrite Nat2Z.id. split; [exact Hj|reflexivity]. }
  intros r [Hr|Hr]; [exact (Hany "type" r Hr)|exact (Hany "id" r Hr)].
Qed.

Lemma links_ok_broken_link (g : Block) (rest : list Block) (j : nat) (b : Block)
      (f : Block -> Block) :
  rest !! j = Some b ->
  (forall x : Block, hash (f x) = hash x) ->
  previous_hash (f b) <> previous_hash b ->
  links_ok g rest = true ->
  links_ok g (alter f j rest) = false.
Proof.
  revert g j. induction rest as [|x rest IH]; intros g j Hj Hh Hne Hok; [discriminate|].
  cbn [links_ok] in Hok. apply andb_true_iff in Hok. destruct Hok as [Hx Hrest].
  apply andb_true_iff in Hx. destruct Hx as [_ Hlink]. apply String.eqb_eq in Hlink.
  destruct j as [|j].
  - cbn in Hj. injection Hj as ->. cbn [alter list_alter links_ok].
    assert (Hb : String.eqb (previous_hash (f b)) (hash g) = false).
    { apply String.eqb_neq. rewrite <- Hlink. exact Hne. }
    rewrite Hb, andb_false_r. reflexivity.
  - cbn in Hj. cbn [alter list_alter links_ok].
    change (list_alter f j rest) with (alter f j rest).
    rewrite (IH x j Hj Hh Hne Hrest), andb_false_r. reflexivity.
Qed.

(** X7.  On a chain that verify_chain accepts, a later write to a
    stored hash field is detected: overwriting the hash of a block other
    than the genesis block with another value, or its previous_hash with
    another value, or the hash of the genesis block when a block follows
    it, makes verify_chain return False. *)
Theorem overwritten_hash_fields_are_detected (self : CultivationBlockchain) :
  verify_chain self = Return true ->
  (forall (i : nat) (b : Block) (hash' : string),
     (1 <= i)%nat -> chain self !! i = Some b -> hash' <> hash b ->
     verify_chain (overwrite_hash i hash' self) = Return false)
  /\ (forall (i : nat) (b : Block) (previous' : string),
        (1 <= i)%nat -> chain self !! i = Some b -> previous' <> previous_hash b ->
        verify_chain (overwrite_previous_hash i previous' self) = Return false)
  /\ (forall (g : Block) (hash' : string),
        chain self !! 0%nat = Some g -> (2 <= length (chain self))%nat -> hash' <> hash g ->
        verify_chain (overwrite_hash 0 hash' self) = Return false).
Proof.
  intros Hv. destruct self as [[|g rest]].
  { repeat split; intros; cbn in *; try discriminate; lia. }
  rewrite verify_chain_links in Hv. injection Hv as Hok.
  unfold overwrite_hash, overwrite_previous_hash. cbn [chain].
  split; [|split].
  - intros i b hash' Hi Hb Hne. destruct i as [|j]; [lia|]. cbn in Hb.
    cbn [alter list_alter]. change (list_alter ?f j rest) with (alter f j rest).
    rewrite verify_chain_links. erewrite links_ok_tampered; [reflexivity|exact Hb|].
    cbn [hash]. intros Heq. apply Hne.
    rewrite Heq. rewrite (calculate_hash_ignores_hash _ _ _ _ hash' (hash b)).
    destruct b as [n t d p h]. cbn [block_number timestamp data previous_hash hash].
    apply (proj1 (links_ok_iff g rest)) with (j := j) in Hok;
      [|apply lookup_lt_Some in Hb; exact Hb].
    destruct Hok as (x & y & Hx & _ & Hhx & _). cbn in Hx. rewrite Hb in Hx.
    injection Hx as <-. cbn in Hhx. symmetry. exact Hhx.
  - intros i b previous' Hi Hb Hne. destruct i as [|j]; [lia|]. cbn in Hb.
    cbn [alter list_alter]. change (list_alter ?f j rest) with (alter f j rest).
    rewrite verify_chain_links. erewrite links_ok_broken_link;
      [reflexivity|exact Hb|reflexivity|exact Hne|exact Hok].
  - intros g0 hash' Hg Hlen Hne. cbn in Hg. injection Hg as <-.
    cbn [alter list_alter]. rewrite verify_chain_links.
    destruct rest as [|x rest]; [cbn in Hlen; lia|].
    cbn [links_ok] in Hok |- *. apply andb_true_iff in Hok. destruct Hok as [Hx _].
    apply andb_true_iff in Hx. destruct Hx as [_ Hlink]. apply String.eqb_eq in Hlink.
    cbn [hash]. assert (Hb : String.eqb (previous_hash x) hash' = false).
    { apply String.eqb_neq. rewrite Hlink. intros Heq. apply Hne. symmetry. exact Heq. }
    rewrite Hb, andb_false_r. reflexivity.
Qed.

Lemma overwritten_hash_fields_are_detected_witness :
  verify_chain (snd (run_appends [planted_payload] example_ledger)) = Return true
  /\ chain (snd (run_appends [planted_payload] example_ledger)) !! 1%nat = Some example_planted
  /\ "00" <> hash example_planted
  /\ "00" <> previous_hash example_planted
  /\ chain (snd (run_appends [planted_payload] example_ledger)) !! 0%nat = Some example_genesis
  /\ (2 <= length (chain (snd (run_appends [planted_payload] example_ledger))))%nat
  /\ "00" <> hash example_genesis
  /\ verify_chain (overwrite_hash 1 "00" (snd (run_appends [planted_payload] example_ledger)))
     = Return false
  /\ verify_chain (overwrite_previous_hash 1 "00"
                     (snd (run_appends [planted_payload] example_ledger)))
     = Return false
  /\ verify_chain (overwrite_hash 0 "00" (snd (run_appends [planted_payload] example_ledger)))
     = Return false.
Proof.
  assert (Hv : verify_chain (snd (run_appends [planted_payload] example_ledger)) = Return true)
    by (vm_compute; reflexivity).
  assert (H1 : chain (snd (run_appends [planted_payload] example_ledger)) !! 1%nat
               = Some example_planted) by (vm_compute; reflexivity).
  assert (H0 : chain (snd (run_appends [planted_payload] example_ledger)) !! 0%nat
               = Some example_genesis) by (vm_compute; reflexivity).
  assert (Hh : "00" <> hash example_planted)
    by (apply String.eqb_neq; vm_compute; reflexivity).
  assert (Hp : "00" <> previous_hash example_planted)
    by (apply String.eqb_neq; vm_compute; reflexivity).
  assert (Hg : "00" <> hash example_genesis)
    by (apply String.eqb_neq; vm_compute; reflexivity).
  assert (Hlen : (2 <= length (chain (snd (run_appends [planted_payload] example_ledger))))%nat)
    by (vm_compute; lia).
  destruct (overwritten_hash_fields_are_detected _ Hv) as (Ha & Hb & Hc).
  repeat match goal with |- _ /\ _ => split end; try assumption.
  - exact (Ha 1%nat example_planted "00" (le_n 1) H1 Hh).
  - exact (Hb 1%nat example_planted "00" (le_n 1) H1 Hp).
  - exact (Hc example_genesis "00" H0 Hlen Hg).
Defined.

End LedgerMore.

(* ===================================================================== *)
(** ** The ledger, further: the canonical form of a payload *)
(* ===================================================================== *)

Module CanonicalForm.
Import PyTime Json Py Models Ledger Examples LedgerFacts.
#[local] Arguments calculate_hash : simpl never.
#[local] Arguments isoformat : simpl never.

Lemma string_compare_trans (s1 s2 s3 : string) :
  String.compare s1 s2 <> Gt -> String.compare s2 s3 <> Gt -> String.compare s1 s3 <> Gt.
Proof.
  revert s2 s3. induction s1 as [|c1 s1 IH]; intros [|c2 s2] [|c3 s3]; cbn;
    try congruence.
  unfold Ascii.compare.
  destruct (N.compare_spec (N_of_ascii c1) (N_of_ascii c2)) as [E12|L12|G12];
    destruct (N.compare_spec (N_of_ascii c2) (N_of_ascii c3)) as [E23|L23|G23];
    destruct (N.compare_spec (N_of_ascii c1) (N_of_ascii c3)) as [E13|L13|G13];
    try congruence; try lia.
  apply IH.
Qed.

Lemma string_leb_trans (s1 s2 s3 : string) :
  String.leb s1 s2 = true -> String.leb s2 s3 = true -> String.leb s1 s3 = true.
Proof.
  unfold String.leb. intros H12 H23.
  pose proof (string_compare_trans s1 s2 s3) as H.
  destruct (String.compare s1 s2); destruct (String.compare s2 s3);
    destruct (String.compare s1 s3); try reflexivity; try discriminate;
    exfalso; apply H; congruence.
Qed.

Lemma insert_by_key_perm (x : string * string) (l : list (string * string)) :
  Permutation (insert_by_key x l) (x :: l).
Proof.
  induction l as [|y l IH]; cbn [insert_by_key]; [reflexivity|].
  destruct (String.leb (fst x) (fst y)); [reflexivity|].
  rewrite IH. apply perm_swap.
Qed.

Lemma sort_by_key_perm (l : list (string * string)) : Permutation (sort_by_key l) l.
Proof.
  induction l as [|x l IH]; [reflexivity|]. unfold sort_by_key in *. cbn [fold_right].
  rewrite insert_by_key_perm, IH. reflexivity.
Qed.

Lemma insert_by_key_sorted (x : string * string) (l : list (string * string)) :
  StronglySorted key_le l -> StronglySorted key_le (insert_by_key x l).
Proof.
  induction l as [|y l IH]; intros Hs; cbn [insert_by_key].
  - constructor; constructor.
  - inversion Hs as [|? ? Hl Hy]; subst.
    destruct (String.leb (fst x) (fst y)) eqn:E.
    + constructor; [exact Hs|]. constructor; [exact E|].
      eapply Forall_impl; [exact Hy|]. intros z Hz. unfold key_le in *.
      eapply string_leb_trans; eassumption.
    + constructor; [apply IH; exact Hl|].
      rewrite insert_by_key_perm. constructor; [|exact Hy].
      unfold key_le. destruct (String.leb_total (fst x) (fst y)) as [H|H]; congruence.
Qed.

Lemma sort_by_key_sorted (l : list (string * string)) : StronglySorted key_le (sort_by_key l).
Proof.
  induction l as [|x l IH]; [constructor|]. unfold sort_by_key in *. cbn [fold_right].
  apply insert_by_key_sorted. exact IH.
Qed.

Lemma same_key_same_member (l : list (string * string)) (a b : string * string) :
  NoDup (map fst l) -> a ∈ l -> b ∈ l -> fst a = fst b -> a = b.
Proof.
  induction l as [|x l IH]; intros Hnd Ha Hb Hk.
  - apply elem_of_nil in Ha. contradiction.
  - cbn [map] in Hnd. apply NoDup_cons in Hnd. destruct Hnd as [Hx Hnd].
    apply elem_of_cons in Ha. apply elem_of_cons in Hb.
    destruct Ha as [-> | Ha], Hb as [-> | Hb]; [reflexivity| | |exact (IH Hnd Ha Hb Hk)].
    + exfalso. apply Hx. rewrite Hk. apply list_elem_of_fmap_2. exact Hb.
    + exfalso. apply Hx. rewrite <- Hk. apply list_elem_of_fmap_2. exact Ha.
Qed.

Lemma sorted_by_key_unique (l1 l2 : list (string * string)) :
  StronglySorted key_le l1 -> StronglySorted key_le l2 ->
  Permutation l1 l2 -> NoDup (map fst l1) -> l1 = l2.
Proof.
  revert l2. induction l1 as [|a l1 IH]; intros l2 Hs1 Hs2 Hp Hnd.
  - apply Permutation_nil in Hp. subst. reflexivity.
  - destruct l2 as [|b l2]; [symmetry in Hp; apply Permutation_nil in Hp; discriminate|].
    inversion Hs1 as [|? ? Hs1' Ha]; subst. inversion Hs2 as [|? ? Hs2' Hb]; subst.
    assert (Hab : a = b).
    { assert (Hain : a ∈ b :: l2) by (rewrite <- Hp; apply list_elem_of_here).
      assert (Hbin : b ∈ a :: l1) by (rewrite Hp; apply list_elem_of_here).
      apply elem_of_cons in Hain. destruct Hain as [Heq|Hain]; [exact Heq|].
      apply elem_of_cons in Hbin. destruct Hbin as [Heq|Hbin]; [symmetry; exact Heq|].
      rewrite Forall_forall in Ha, Hb.
      apply (same_key_same_member (a :: l1)); [exact Hnd|apply list_elem_of_here| |].
      - apply list_elem_of_further. exact Hbin.
      - apply String.leb_antisym; [apply (Ha b Hbin)|apply (Hb a Hain)]. }
    subst b. f_equal. apply IH; [exact Hs1'|exact Hs2'| |].
    + eapply Permutation_cons_inv. exact Hp.
    + cbn [map] in Hnd. apply NoDup_cons in Hnd. exact (proj2 Hnd).
Qed.

Lemma sort_by_key_canonical (l1 l2 : list (string * string)) :
  Permutation l1 l2 -> NoDup (map fst l1) -> sort_by_key l1 = sort_by_key l2.
Proof.
  intros Hp Hnd. apply sorted_by_key_unique.
  - apply sort_by_key_sorted.
  - apply sort_by_key_sorted.
  - rewrite !sort_by_key_perm. exact Hp.
  - rewrite sort_by_key_perm. exact Hnd.
Qed.

Lemma serialized_dict_canonical (items items' : dict) :
  Permutation items items' -> NoDup (map fst items) ->
  dumps (_make_serializable (VDict items)) = dumps (_make_serializable (VDict items')).
Proof.
  intros Hp Hnd. cbn [_make_serializable dumps]. do 4 f_equal.
  apply sort_by_key_canonical.
  - apply Permutation_map. apply Permutation_map. exact Hp.
  - rewrite !map_map.
    rewrite (map_ext _ fst); [exact Hnd|]. intros [k v]. reflexivity.
Qed.

(** X6.  The hash of a block does not depend on the order in which the
    keys of its payload were inserted: two payloads with the same
    members, the keys being distinct as in any dict, give the same
    calculate_hash with the same number, timestamp and previous hash. *)
Theorem block_hash_ignores_key_order (n : Z) (t : datetime) (p h h' : string)
        (items items' : dict) :
  Permutation items items' ->
  NoDup (map fst items) ->
  calculate_hash (MkBlock n t items p h) = calculate_hash (MkBlock n t items' p h').
Proof.
  intros Hp Hnd. pose proof (serialized_dict_canonical items items' Hp Hnd) as Hd.
  unfold calculate_hash. cbn [data block_number timestamp previous_hash].
  remember (_make_serializable (VDict items)) as X eqn:EX.
  remember (_make_serializable (VDict items')) as X' eqn:EX'.
  cbn [dumps map]. rewrite Hd. reflexivity.
Qed.

Lemma block_hash_ignores_key_order_witness :
  Permutation planted_payload reordered_planted_payload
  /\ NoDup (map fst planted_payload)
  /\ calculate_hash (MkBlock 1 noon_2024 planted_payload "0" EmptyString)
     = calculate_hash (MkBlock 1 noon_2024 reordered_planted_payload "0" EmptyString).
Proof.
  assert (Hp : Permutation planted_payload reordered_planted_payload).
  { unfold planted_payload, reordered_planted_payload.
    eapply perm_trans; [apply perm_swap|]. apply perm_skip. apply perm_swap. }
  assert (Hnd : NoDup (map fst planted_payload)).
  { unfold planted_payload. cbn [map fst].
    repeat (apply NoDup_cons; split; [intros Hin; repeat (apply elem_of_cons in Hin; destruct Hin as [Hin|Hin]; [discriminate Hin|]); apply elem_of_nil in Hin; exact Hin|]).
    apply NoDup_nil. exact I. }
  split; [exact Hp|]. split; [exact Hnd|].
  exact (block_hash_ignores_key_order 1 noon_2024 "0" EmptyString EmptyString _ _ Hp Hnd).
Defined.

End CanonicalForm.

(* ===================================================================== *)
(** ** Growth tracking, further: histories, analytics, predictions *)
(* ===================================================================== *)

Module GrowthMore.
Import PyTime Py Models Num Growth Examples NumFacts GrowthFacts.
Local Open Scope Q_scope.
#[local] Arguments isoformat : simpl never.

(** The unscaled sum of the stage durations, stage by stage. *)
Lemma unscaled_days (stage : GrowthStage) :
  sum_until_harvest (drop (stage_index GrowthStage_members stage) GrowthStage_members) 0%Z
  = days_to_harvest_from stage.
Proof. destruct stage; reflexivity. Qed.

Lemma days_to_harvest_from_nonneg (stage : GrowthStage) : (0 <= days_to_harvest_from stage)%Z.
Proof. destruct stage; cbn; lia. Qed.

Lemma py_int_floor (x : Q) : 0 <= x -> py_int x = Qfloor x.
Proof.
  intros Hx. unfold py_int, Qfloor. destruct x as [n d]. cbn [Qnum Qden].
  apply Z.quot_div_nonneg; [|lia].
  unfold Qle in Hx. cbn in Hx. lia.
Qed.

(** The estimate when it is scaled: four samples or more, and a
    positive mean of the recent rates that count. *)
Lemma remaining_days_scaled (plant : Plant.t) (history : list GrowthMetrics.t) (avg : Q) :
  (4 <= length history)%nat ->
  np_mean (truthy_rates (drop (length history - 5) history)) = Some avg ->
  0 < avg ->
  remaining_days_estimate plant history
  = Qfloor (inject_Z (days_to_harvest_from (Plant.growth_stage plant))
            * (stage_get stage_growth_rates (Plant.growth_stage plant) 1.0 / avg)).
Proof.
  intros Hlen Havg Hpos. unfold remaining_days_estimate.
  rewrite unscaled_days.
  assert (H3 : (3 <? length history)%nat = true) by (apply Nat.ltb_lt; lia).
  rewrite H3, Havg. apply Qltb_lt in Hpos. rewrite Hpos.
  apply py_int_floor. apply Qltb_lt in Hpos.
  apply Qmult_le_0_compat.
  - pose proof (days_to_harvest_from_nonneg (Plant.growth_stage plant)) as Hd.
    unfold Qle. cbn. lia.
  - apply Qle_shift_div_l; [exact Hpos|].
    pose proof (expected_rate_positive (Plant.growth_stage plant)). lra.
Qed.

(** X11.  The estimate is the plain sum of the stage durations from the
    plant's stage up to harvest (114, 111, 104, 90, 60 or 0 days) when
    there are at most three prior samples, and also when none of the
    last five samples has a rate that counts or their mean is not
    positive: a plant that is shrinking gets the unscaled estimate. *)
Theorem unscaled_estimate_by_stage (plant : Plant.t) (history : list GrowthMetrics.t) :
  (length history <= 3)%nat
  \/ np_mean (truthy_rates (drop (length history - 5) history)) = None
  \/ (exists avg : Q,
        np_mean (truthy_rates (drop (length history - 5) history)) = Some avg /\ avg <= 0) ->
  remaining_days_estimate plant history
  = match Plant.growth_stage plant with
    | SEED => 114
    | GERMINATION => 111
    | SEEDLING => 104
    | VEGETATIVE => 90
    | FLOWERING => 60
    | HARVEST => 0
    end%Z.
Proof.
  intros Hcase. unfold remaining_days_estimate. rewrite unscaled_days.
  change (match Plant.growth_stage plant with
          | SEED => 114 | GERMINATION => 111 | SEEDLING => 104
          | VEGETATIVE => 90 | FLOWERING => 60 | HARVEST => 0
          end%Z) with (days_to_harvest_from (Plant.growth_stage plant)).
  destruct (3 <? length history)%nat eqn:E3; [|reflexivity].
  apply Nat.ltb_lt in E3. destruct Hcase as [Hlen|[Hnone|(avg & Hsome & Hle)]].
  - lia.
  - rewrite Hnone. reflexivity.
  - rewrite Hsome. apply Qltb_ge in Hle. rewrite Hle. reflexivity.
Qed.

Lemma unscaled_estimate_by_stage_witness :
  (length [sample_at_noon 10] <= 3)%nat
  /\ remaining_days_estimate vegetative_plant [sample_at_noon 10] = 90%Z
  /\ (exists avg : Q,
        np_mean (truthy_rates (drop (length shrinking_history - 5) shrinking_history))
        = Some avg /\ avg <= 0)
  /\ remaining_days_estimate vegetative_plant shrinking_history = 90%Z.
Proof.
  assert (H1 : (length [sample_at_noon 10] <= 3)%nat) by (cbn; lia).
  assert (H2 : exists avg : Q,
             np_mean (truthy_rates (drop (length shrinking_history - 5) shrinking_history))
             = Some avg /\ avg <= 0).
  { eexists. split; [vm_compute; reflexivity|]. apply Qle_bool_iff. vm_compute. reflexivity. }
  split; [exact H1|]. split.
  - exact (unscaled_estimate_by_stage vegetative_plant [sample_at_noon 10] (or_introl H1)).
  - split; [exact H2|].
    exact (unscaled_estimate_by_stage vegetative_plant shrinking_history
             (or_intror (or_intror H2))).
Defined.


(** X12.  When the estimate is scaled (four prior samples or more, and a
    positive mean of the recent rates that count), growth at or above
    the expected rate of the stage never lengthens it and growth at or
    below the expected rate never shortens it, compared with the plain
    sum of the stage durations; it is never negative. *)
Theorem scaled_estimate_follows_the_rate (plant : Plant.t) (history : list GrowthMetrics.t)
        (avg : Q) :
  (4 <= length history)%nat ->
  np_mean (truthy_rates (drop (length history - 5) history)) = Some avg ->
  0 < avg ->
  let expected := stage_get stage_growth_rates (Plant.growth_stage plant) 1.0 in
  let unscaled := days_to_harvest_from (Plant.growth_stage plant) in
  (0 <= remaining_days_estimate plant history)%Z
  /\ (expected <= avg -> (remaining_days_estimate plant history <= unscaled)%Z)
  /\ (avg <= expected -> (unscaled <= remaining_days_estimate plant history)%Z).
Proof.
  intros Hlen Havg Hpos expected unscaled.
  rewrite (remaining_days_scaled plant history avg Hlen Havg Hpos).
  fold expected unscaled.
  pose proof (expected_rate_positive (Plant.growth_stage plant)) as Hexp.
  fold expected in Hexp.
  pose proof (days_to_harvest_from_nonneg (Plant.growth_stage plant)) as Hd.
  fold unscaled in Hd.
  assert (Hu : 0 <= inject_Z unscaled) by (unfold Qle; cbn; lia).
  assert (Hratio : 0 <= expected / avg)
    by (apply Qle_shift_div_l; [exact Hpos|lra]).
  split; [|split].
  - rewrite <- (Qfloor_Z 0). apply Qfloor_resp_le.
    change (inject_Z 0) with 0. apply Qmult_le_0_compat; assumption.
  - intros Hfast. rewrite <- (Qfloor_Z unscaled) at 2. apply Qfloor_resp_le.
    assert (H1 : expected / avg <= 1)
      by (apply Qle_shift_div_r; [exact Hpos|lra]).
    set (x := inject_Z unscaled) in *. set (r := expected / avg) in *. nra.
  - intros Hslow. rewrite <- (Qfloor_Z unscaled) at 1. apply Qfloor_resp_le.
    assert (H1 : 1 <= expected / avg)
      by (apply Qle_shift_div_l; [exact Hpos|lra]).
    set (x := inject_Z unscaled) in *. set (r := expected / avg) in *. nra.
Qed.


Lemma scaled_estimate_follows_the_rate_witness :
  (4 <= length fast_history)%nat
  /\ np_mean (truthy_rates (drop (length fast_history - 5) fast_history)) = Some (12 # 3)
  /\ 0 < 12 # 3
  /\ stage_get stage_growth_rates (Plant.growth_stage vegetative_plant) 1.0 <= 12 # 3
  /\ (0 <= remaining_days_estimate vegetative_plant fast_history)%Z
  /\ (remaining_days_estimate vegetative_plant fast_history
      <= days_to_harvest_from (Plant.growth_stage vegetative_plant))%Z.
Proof.
  assert (Hlen : (4 <= length fast_history)%nat) by (cbn; lia).
  assert (Havg : np_mean (truthy_rates (drop (length fast_history - 5) fast_history))
                 = Some (12 # 3)) by (vm_compute; reflexivity).
  assert (Hpos : 0 < 12 # 3) by (vm_compute; reflexivity).
  assert (Hfast : stage_get stage_growth_rates (Plant.growth_stage vegetative_plant) 1.0
                  <= 12 # 3) by (apply Qle_bool_iff; vm_compute; reflexivity).
  destruct (scaled_estimate_follows_the_rate vegetative_plant fast_history (12 # 3)
              Hlen Havg Hpos) as (H0 & Hle & _).
  exact (conj Hlen (conj Havg (conj Hpos (conj Hfast (conj H0 (Hle Hfast)))))).
Defined.








End GrowthMore.

(* ===================================================================== *)
(** ** Environmental monitoring, further: classification and windows *)
(* ===================================================================== *)

Module EnvMore.
Import PyTime Py Models Num Examples NumFacts EnvFacts.
Import Env.
Local Open Scope Q_scope.
#[local] Arguments isoformat : simpl never.


















End EnvMore.

(* ===================================================================== *)
(** ** The coordinator, further: what every call and every sequence of calls keeps *)
(* ===================================================================== *)

Module AppMore.
Import PyTime Json Py Models Num Examples NumFacts LedgerFacts GrowthFacts AppFacts LedgerMore.
Import Ledger Growth App.
Local Open Scope Q_scope.
#[local] Arguments calculate_hash : simpl never.
#[local] Arguments isoformat : simpl never.

(** *** What each call does, on a ledger with a last block *)

Lemma update_plant_stage_unknown (plant_id : string) (stage : GrowthStage) (c : Clock)
      (e : GrowPodEmpire) :
  plants e !! plant_id = None ->
  update_plant_stage plant_id stage (c, e)
  = (Raise (ValueError ("Plant " +:+ plant_id +:+ " not found")), (c, e)).
Proof.
  intros Hnone. unfold update_plant_stage, bind, get, raise. cbn [fst snd].
  rewrite Hnone. reflexivity.
Qed.

Lemma update_plant_stage_run (plant_id : string) (stage : GrowthStage) (c : Clock)
      (e : GrowPodEmpire) (plant : Plant.t) (prev : Block) :
  plants e !! plant_id = Some plant ->
  last (chain (blockchain e)) = Some prev ->
  update_plant_stage plant_id stage (c, e)
  = (Return (with_stage stage plant),
     (MkClock (wall c) (2 + ticks c),
      MkEmpire (<[plant_id := with_stage stage plant]> (plants e)) (pods e)
               (growth_tracker e) (environmental_monitor e)
               (MkChain (chain (blockchain e)
                         ++ [built_block (blockchain e) prev (wall c (S (ticks c)))
                               [ ("type", VStr "plant_data"); ("id", VStr plant_id);
                                 ("timestamp", VStr (isoformat (wall c (ticks c))));
                                 ("data",
                                  VDict [ ("action", VStr "stage_change");
                                          ("old_stage",
                                           VStr (GrowthStage_value (Plant.growth_stage plant)));
                                          ("new_stage", VStr (GrowthStage_value stage)) ]) ]])))).
Proof.
  intros Hplant Hlast.
  unfold update_plant_stage, bind, get, put, zoom, ret. cbn [fst snd]. rewrite Hplant.
  cbn [fst snd set_plants blockchain].
  rewrite (record_plant_data_explicit plant_id _ c (blockchain e) prev Hlast).
  reflexivity.
Qed.

Lemma record_environment_unknown (float_repr : Q -> string) (pod_id : string)
      (conditions : EnvironmentalCondition.t) (c : Clock) (e : GrowPodEmpire) :
  pods e !! pod_id = None ->
  record_environment float_repr pod_id conditions (c, e)
  = (Raise (ValueError ("Pod " +:+ pod_id +:+ " not found")), (c, e)).
Proof.
  intros Hnone. unfold record_environment, bind, get, raise. cbn [fst snd].
  rewrite Hnone. reflexivity.
Qed.

Lemma record_environment_run (float_repr : Q -> string) (pod_id : string)
      (conditions : EnvironmentalCondition.t) (c : Clock) (e : GrowPodEmpire)
      (pod : GrowPod.t) (prev : Block) :
  pods e !! pod_id = Some pod ->
  last (chain (blockchain e)) = Some prev ->
  record_environment float_repr pod_id conditions (c, e)
  = (fst (Env.record_conditions float_repr pod_id conditions (c, environmental_monitor e)),
     (MkClock (wall c) (2 + ticks c),
      MkEmpire (plants e) (<[pod_id := with_current_conditions conditions pod]> (pods e))
               (growth_tracker e)
               (snd (snd (Env.record_conditions float_repr pod_id conditions
                            (c, environmental_monitor e))))
               (MkChain (chain (blockchain e)
                         ++ [built_block (blockchain e) prev (wall c (S (ticks c)))
                               [ ("type", VStr "environmental_data"); ("id", VStr pod_id);
                                 ("timestamp", VStr (isoformat (wall c (ticks c))));
                                 ("data", VDict (model_dump float_repr conditions)) ]])))).
Proof.
  intros Hpod Hlast.
  unfold record_environment, bind, get, put, zoom, ret. cbn [fst snd]. rewrite Hpod.
  unfold Env.record_conditions, bind, get, put, ret.
  cbn [fst snd set_pods set_environmental_monitor blockchain pods].
  rewrite (record_environmental_data_explicit pod_id _ c (blockchain e) prev Hlast).
  reflexivity.
Qed.

Lemma record_harvest_unknown (float_repr : Q -> string) (plant_id : string)
      (yield_amount quality_score : Q) (c : Clock) (e : GrowPodEmpire) :
  plants e !! plant_id = None ->
  App.record_harvest float_repr plant_id yield_amount quality_score (c, e)
  = (Raise (ValueError ("Plant " +:+ plant_id +:+ " not found")), (c, e)).
Proof.
  intros Hnone. unfold App.record_harvest, bind, get, raise. cbn [fst snd].
  rewrite Hnone. reflexivity.
Qed.

(** The pods after a harvest of [plant_id], a plant of pod [pod_id]. *)
Lemma record_harvest_run (float_repr : Q -> string) (plant_id : string)
      (yield_amount quality_score : Q) (c : Clock) (e : GrowPodEmpire)
      (plant : Plant.t) (prev : Block) :
  plants e !! plant_id = Some plant ->
  last (chain (blockchain e)) = Some prev ->
  let harvest_data :=
    [ ("plant_id", VStr plant_id);
      ("strain", VStr (Plant.strain plant));
      ("harvest_date", VStr (isoformat (wall c (ticks c))));
      ("yield_amount", float_value float_repr yield_amount);
      ("quality_score", float_value float_repr quality_score);
      ("days_to_harvest", VInt (days (wall c (S (ticks c)) - Plant.planted_date plant)%Z)) ] in
  let nb :=
    built_block (blockchain e) prev (wall c (3 + ticks c))
      [ ("type", VStr "harvest"); ("id", VStr plant_id);
        ("timestamp", VStr (isoformat (wall c (2 + ticks c))));
        ("data", VDict harvest_data) ] in
  let pods' :=
    match pods e !! Plant.pod_id plant with
    | Some pod =>
        if bool_decide (plant_id ∈ GrowPod.current_plants pod)
        then <[Plant.pod_id plant :=
                 with_current_plants (remove_first plant_id (GrowPod.current_plants pod)) pod]>
               (pods e)
        else pods e
    | None => pods e
    end in
  App.record_harvest float_repr plant_id yield_amount quality_score (c, e)
  = (Return (MkHarvest plant_id (Plant.strain plant) (isoformat (wall c (ticks c)))
                       yield_amount quality_score
                       (days (wall c (S (ticks c)) - Plant.planted_date plant)%Z)
                       (BlockchainRecord.Make plant_id "harvest" (hash nb) (hash prev)
                          (wall c (3 + ticks c))
                          (Z.of_nat (length (chain (blockchain e)))))),
     (MkClock (wall c) (4 + ticks c),
      MkEmpire (<[plant_id := with_stage HARVEST plant]> (plants e)) pods'
               (growth_tracker e) (environmental_monitor e)
               (MkChain (chain (blockchain e) ++ [nb])))).
Proof.
  intros Hplant Hlast harvest_data nb pods'.
  unfold App.record_harvest, bind, get, put, zoom, ret, now_, now. cbn [fst snd]. rewrite Hplant.
  cbn [fst snd set_plants blockchain wall ticks].
  rewrite (record_harvest_explicit plant_id _ (MkClock (wall c) (S (S (ticks c))))
             (blockchain e) prev Hlast).
  cbn [fst snd set_blockchain set_plants pods plants wall ticks blockchain].
  subst pods'. destruct (pods e !! Plant.pod_id plant) as [pod|]; [|reflexivity].
  destruct (bool_decide (plant_id ∈ GrowPod.current_plants pod)); reflexivity.
Qed.

Lemma record_growth_unknown (float_repr : Q -> string) (plant_id : string) (height : Q)
      (leaf_count : option Z) (c : Clock) (e : GrowPodEmpire) :
  plants e !! plant_id = None ->
  record_growth float_repr plant_id height leaf_count (c, e)
  = (Raise (ValueError ("Plant " +:+ plant_id +:+ " not found")), (c, e)).
Proof.
  intros Hnone. unfold record_growth, bind, get, raise. cbn [fst snd].
  rewrite Hnone. reflexivity.
Qed.

Lemma record_growth_run (float_repr : Q -> string) (plant_id : string) (height : Q)
      (leaf_count : option Z) (c : Clock) (e : GrowPodEmpire) (plant : Plant.t) (prev : Block) :
  plants e !! plant_id = Some plant ->
  last (chain (blockchain e)) = Some prev ->
  exists (m : GrowthMetrics.t) (c' : Clock) (tracker' : GrowthTracker) (nb : Block),
    record_growth float_repr plant_id height leaf_count (c, e)
    = (Return m,
       (c', MkEmpire (<[plant_id :=
                          Plant.Make (Plant.id plant) (Plant.strain plant)
                                     (Plant.growth_stage plant) (Plant.planted_date plant)
                                     (Plant.pod_id plant) (Some height)
                                     (GrowthMetrics.health_score m) (Plant.notes plant)
                                     (Plant.metadata plant)]> (plants e))
                     (pods e) tracker'
                     (environmental_monitor e) (MkChain (chain (blockchain e) ++ [nb]))))
    /\ block_number nb = Z.of_nat (length (chain (blockchain e)))
    /\ hash nb = calculate_hash nb
    /\ previous_hash nb = hash prev
    /\ dict_get "type" (data nb) VNone = VStr "plant_data"
    /\ dict_get "id" (data nb) VNone = VStr plant_id.
Proof.
  intros Hplant Hlast.
  destruct (track_growth_returns plant height leaf_count c (growth_tracker e))
    as (m & [c1 t1] & Hrun & _).
  exists m. eexists _, _, _. split.
  - unfold record_growth, bind, get, put, zoom, ret. cbn [fst snd]. rewrite Hplant.
    cbn [fst snd]. rewrite Hrun. cbn [fst snd set_plants set_growth_tracker blockchain].
    rewrite (record_plant_data_explicit plant_id _ c1 (blockchain e) prev Hlast).
    reflexivity.
  - repeat split; reflexivity.
Qed.

Lemma add_plant_unknown (plant_id strain pod_id : string) (c : Clock) (e : GrowPodEmpire) :
  pods e !! pod_id = None ->
  add_plant plant_id strain pod_id (c, e)
  = (Raise (ValueError ("Pod " +:+ pod_id +:+ " not found")), (c, e)).
Proof.
  intros Hnone. unfold add_plant, bind, get, raise. cbn [fst snd].
  rewrite Hnone. reflexivity.
Qed.

Lemma add_plant_run (plant_id strain pod_id : string) (c : Clock) (e : GrowPodEmpire)
      (pod : GrowPod.t) (prev : Block) :
  pods e !! pod_id = Some pod ->
  (Z.of_nat (length (GrowPod.current_plants pod)) < GrowPod.capacity pod)%Z ->
  last (chain (blockchain e)) = Some prev ->
  add_plant plant_id strain pod_id (c, e)
  = (Return (Plant.Make plant_id strain SEED (wall c (ticks c)) pod_id None 100 None []),
     (MkClock (wall c) (3 + ticks c),
      MkEmpire
        (<[plant_id := Plant.Make plant_id strain SEED (wall c (ticks c)) pod_id
                         None 100 None []]> (plants e))
        (<[pod_id := with_current_plants (GrowPod.current_plants pod ++ [plant_id]) pod]>
           (pods e))
        (growth_tracker e) (environmental_monitor e)
        (MkChain (chain (blockchain e)
                  ++ [built_block (blockchain e) prev (wall c (2 + ticks c))
                        [ ("type", VStr "plant_data"); ("id", VStr plant_id);
                          ("timestamp", VStr (isoformat (wall c (S (ticks c)))));
                          ("data",
                           VDict [ ("action", VStr "planted"); ("strain", VStr strain);
                                   ("pod_id", VStr pod_id) ]) ]])))).
Proof.
  intros Hpod Hroom Hlast.
  unfold add_plant, bind, get, put, raise, ret, now_, now, zoom. cbn [fst snd]. rewrite Hpod.
  apply Z.leb_gt in Hroom. rewrite Hroom.
  cbn [fst snd set_plants set_pods blockchain plants pods].
  rewrite (record_plant_data_explicit plant_id _ (MkClock (wall c) (S (ticks c)))
             (blockchain e) prev Hlast).
  reflexivity.
Qed.

(** The cases of one call on a ledger whose last block is [prev]: the
    call is rewritten to its outcome and the state it leaves. *)
Ltac call_cases float_repr op c e prev Hlast :=
  let pod := fresh "pod" in
  let plant := fresh "plant" in
  let Hpod := fresh "Hpod" in
  let Hplant := fresh "Hplant" in
  let Hfull := fresh "Hfull" in
  let Hroom := fresh "Hroom" in
  destruct op as [pod_id name capacity | plant_id strain pod_id | plant_id stage
                 | plant_id height leaf_count | pod_id conditions
                 | plant_id yield_amount quality_score];
  unfold perform, rejection, bind;
  [ unfold create_pod, bind, get, put, ret; cbn [fst snd]
  | destruct (pods e !! pod_id) as [pod|] eqn:Hpod;
    [ destruct (Z.leb_spec (GrowPod.capacity pod)
                           (Z.of_nat (length (GrowPod.current_plants pod)))) as [Hfull|Hroom];
      [ rewrite (add_plant_full plant_id strain pod_id c e pod Hpod Hfull)
      | rewrite (add_plant_run plant_id strain pod_id c e pod prev Hpod Hroom Hlast) ]
    | rewrite (add_plant_unknown plant_id strain pod_id c e Hpod) ]
  | destruct (plants e !! plant_id) as [plant|] eqn:Hplant;
    [ rewrite (update_plant_stage_run plant_id stage c e plant prev Hplant Hlast)
    | rewrite (update_plant_stage_unknown plant_id stage c e Hplant) ]
  | destruct (plants e !! plant_id) as [plant|] eqn:Hplant;
    [ let m := fresh "m" in
      let c' := fresh "c'" in
      let tracker' := fresh "tracker'" in
      let nb := fresh "nb" in
      let Hrun := fresh "Hrun" in
      let Hnum := fresh "Hnum" in
      let Hhash := fresh "Hhash" in
      let Hprev := fresh "Hprev" in
      let Htype := fresh "Htype" in
      let Hrid := fresh "Hrid" in
      destruct (record_growth_run float_repr plant_id height leaf_count c e plant prev
                  Hplant Hlast)
        as (m & c' & tracker' & nb & Hrun & Hnum & Hhash & Hprev & Htype & Hrid);
      rewrite Hrun
    | rewrite (record_growth_unknown float_repr plant_id height leaf_count c e Hplant) ]
  | destruct (pods e !! pod_id) as [pod|] eqn:Hpod;
    [ rewrite (record_environment_run float_repr pod_id conditions c e pod prev Hpod Hlast)
    | rewrite (record_environment_unknown float_repr pod_id conditions c e Hpod) ]
  | destruct (plants e !! plant_id) as [plant|] eqn:Hplant;
    [ rewrite (record_harvest_run float_repr plant_id yield_amount quality_score c e plant prev
                 Hplant Hlast)
    | rewrite (record_harvest_unknown float_repr plant_id yield_amount quality_score c e Hplant) ]
  ].



Lemma history_after_append (l : list Block) (nb : Block) (record_id : string) :
  l <> [] ->
  dict_get "id" (data nb) VNone = VStr record_id ->
  get_records_by_id (MkChain (l ++ [nb])) record_id
  = get_records_by_id (MkChain l) record_id ++ [record_entry nb]
  /\ forall other : string,
       other <> record_id ->
       get_records_by_id (MkChain (l ++ [nb])) other = get_records_by_id (MkChain l) other.
Proof.
  intros Hne Hid. unfold get_records_by_id. cbn [chain].
  rewrite (drop_1_snoc _ _ Hne). split.
  - rewrite records_where_app. cbn [records_where]. rewrite Hid. cbn [equals_str].
    rewrite String.eqb_refl. reflexivity.
  - intros other Hother. rewrite records_where_app. cbn [records_where]. rewrite Hid.
    cbn [equals_str]. apply String.eqb_neq in Hother. rewrite String.eqb_sym, Hother.
    apply app_nil_r.
Qed.

(** What the ledger gains by one block [nb] filed by the call [op]. *)
Lemma filed_block (e e' : GrowPodEmpire) (op : call) (prev nb : Block) :
  last (chain (blockchain e)) = Some prev ->
  chain (blockchain e') = chain (blockchain e) ++ [nb] ->
  block_number nb = Z.of_nat (length (chain (blockchain e))) ->
  hash nb = calculate_hash nb ->
  previous_hash nb = hash prev ->
  dict_get "type" (data nb) VNone = VStr (ledger_type op) ->
  dict_get "id" (data nb) VNone = VStr (ledger_id op) ->
  exists nb : Block,
    chain (blockchain e') = chain (blockchain e) ++ [nb]
    /\ block_number nb = Z.of_nat (length (chain (blockchain e)))
    /\ hash nb = calculate_hash nb
    /\ previous_hash nb = hash prev
    /\ dict_get "type" (data nb) VNone = VStr (ledger_type op)
    /\ dict_get "id" (data nb) VNone = VStr (ledger_id op)
    /\ get_plant_history e' (ledger_id op)
       = get_plant_history e (ledger_id op) ++ [record_entry nb]
    /\ forall other : string,
         other <> ledger_id op -> get_plant_history e' other = get_plant_history e other.
Proof.
  intros Hlast Hchain Hnum Hhash Hprev Htype Hid.
  assert (Hne : chain (blockchain e) <> []).
  { intros Hnil. rewrite Hnil in Hlast. discriminate Hlast. }
  destruct (history_after_append _ nb (ledger_id op) Hne Hid) as [H1 H2].
  exists nb. unfold get_plant_history.
  destruct (blockchain e') as [l']. destruct (blockchain e) as [l]. cbn [chain] in *.
  subst l'. repeat split; assumption.
Qed.

(** X19.  On an application whose ledger has a last block, a call that
    returns files exactly one block, except create_pod, which leaves
    the ledger alone.  The block is appended at the end, carries the
    next block number, its own hash and the hash of the block before;
    its type is "environmental_data" for record_environment, "harvest"
    for record_harvest and "plant_data" for add_plant,
    update_plant_stage and record_growth; its id is the pod id or
    plant id of the call.  get_plant_history of that id gains the entry
    of the block at its end, whichever of the calls filed it, and
    get_plant_history of every other id is what it was. *)
Theorem returned_calls_file_one_block (float_repr : Q -> string) (op : call)
        (c : Clock) (e : GrowPodEmpire) (prev : Block) :
  last (chain (blockchain e)) = Some prev ->
  fst (perform float_repr op (c, e)) = Return tt ->
  let e' := snd (snd (perform float_repr op (c, e))) in
  match op with
  | CreatePod _ _ _ => blockchain e' = blockchain e
  | _ =>
      exists nb : Block,
        chain (blockchain e') = chain (blockchain e) ++ [nb]
        /\ block_number nb = Z.of_nat (length (chain (blockchain e)))
        /\ hash nb = calculate_hash nb
        /\ previous_hash nb = hash prev
        /\ dict_get "type" (data nb) VNone = VStr (ledger_type op)
        /\ dict_get "id" (data nb) VNone = VStr (ledger_id op)
        /\ get_plant_history e' (ledger_id op)
           = get_plant_history e (ledger_id op) ++ [record_entry nb]
        /\ forall other : string,
             other <> ledger_id op -> get_plant_history e' other = get_plant_history e other
  end.
Proof.
  intros Hlast Hret e'. revert Hret. subst e'.
  call_cases float_repr op c e prev Hlast; cbn [fst snd]; intros Hret;
    try discriminate Hret; try reflexivity;
    (eapply filed_block; [exact Hlast|cbn [blockchain chain]; reflexivity|..]);
    first [assumption | reflexivity].
Qed.

Lemma returned_calls_file_one_block_witness :
  last (chain (blockchain (snd empire_with_pod))) = Some example_genesis
  /\ fst (perform fraction_repr (AddPlant "plant-1" "OG Kush" "pod-1") empire_with_pod)
     = Return tt
  /\ exists nb : Block,
       chain (blockchain (snd (snd (perform fraction_repr
                                      (AddPlant "plant-1" "OG Kush" "pod-1")
                                      empire_with_pod))))
       = chain (blockchain (snd empire_with_pod)) ++ [nb]
       /\ dict_get "type" (data nb) VNone = VStr "plant_data"
       /\ dict_get "id" (data nb) VNone = VStr "plant-1".
Proof.
  assert (Hlast : last (chain (blockchain (snd empire_with_pod))) = Some example_genesis)
    by (vm_compute; reflexivity).
  assert (Hret : fst (perform fraction_repr (AddPlant "plant-1" "OG Kush" "pod-1")
                        (fst empire_with_pod, snd empire_with_pod)) = Return tt)
    by (vm_compute; reflexivity).
  destruct (returned_calls_file_one_block fraction_repr (AddPlant "plant-1" "OG Kush" "pod-1")
              (fst empire_with_pod) (snd empire_with_pod) example_genesis Hlast Hret)
    as (nb & H1 & _ & _ & _ & H2 & H3 & _).
  replace (fst empire_with_pod, snd empire_with_pod) with empire_with_pod in Hret, H1
    by (destruct empire_with_pod; reflexivity).
  split; [exact Hlast|]. split; [exact Hret|].
  exists nb. split; [exact H1|]. split; [exact H2|exact H3].
Defined.

(** *** What every sequence of calls keeps *)

Lemma perform_well_linked (float_repr : Q -> string) (op : call) (c : Clock)
      (e : GrowPodEmpire) :
  well_linked (blockchain e) ->
  well_linked (blockchain (snd (snd (perform float_repr op (c, e)))))
  /\ exists rest : list Block,
       chain (blockchain (snd (snd (perform float_repr op (c, e)))))
       = chain (blockchain e) ++ rest
       /\ (length rest <= 1)%nat.
Proof.
  intros Hwl. destruct (well_linked_last _ Hwl) as [prev Hlast].
  assert (Hstay : forall e' : GrowPodEmpire,
             blockchain e' = blockchain e ->
             well_linked (blockchain e')
             /\ exists rest : list Block,
                  chain (blockchain e') = chain (blockchain e) ++ rest /\ (length rest <= 1)%nat).
  { intros e' ->. split; [exact Hwl|]. exists []. rewrite app_nil_r. split; [reflexivity|cbn; lia]. }
  assert (Hgrow : forall (e' : GrowPodEmpire) (nb : Block),
             blockchain e' = MkChain (chain (blockchain e) ++ [nb]) ->
             hash nb = calculate_hash nb ->
             previous_hash nb = hash prev ->
             well_linked (blockchain e')
             /\ exists rest : list Block,
                  chain (blockchain e') = chain (blockchain e) ++ rest /\ (length rest <= 1)%nat).
  { intros e' nb -> Hh Hp. split; [exact (well_linked_snoc _ prev nb Hwl Hlast Hh Hp)|].
    exists [nb]. split; [reflexivity|cbn; lia]. }
  call_cases float_repr op c e prev Hlast; cbn [fst snd];
    first [ apply Hstay; reflexivity
          | eapply Hgrow; [reflexivity|first [assumption|reflexivity]..] ].
Qed.

Lemma perform_all_well_linked (float_repr : Q -> string) (ops : list call)
      (w : Clock * GrowPodEmpire) :
  well_linked (blockchain (snd w)) ->
  well_linked (blockchain (snd (perform_all float_repr ops w)))
  /\ exists rest : list Block,
       chain (blockchain (snd (perform_all float_repr ops w)))
       = chain (blockchain (snd w)) ++ rest
       /\ (length rest <= length ops)%nat.
Proof.
  revert w. induction ops as [|op ops IH]; intros [c e] Hwl; cbn [perform_all snd].
  - split; [exact Hwl|]. exists []. rewrite app_nil_r. split; [reflexivity|cbn; lia].
  - destruct (perform_well_linked float_repr op c e Hwl) as (Hwl1 & r1 & Hc1 & Hl1).
    cbn [snd] in Hwl.
    destruct (IH (snd (perform float_repr op (c, e))) Hwl1) as (Hwl2 & r2 & Hc2 & Hl2).
    split; [exact Hwl2|]. exists (r1 ++ r2). rewrite Hc2, Hc1, <- app_assoc.
    split; [reflexivity|]. rewrite length_app. cbn [length]. lia.
Qed.

Lemma init_well_linked (c : Clock) : well_linked (blockchain (fst (GrowPodEmpire_init c))).
Proof.
  unfold GrowPodEmpire_init.
  pose proof (fresh_well_linked c) as Hwl.
  destruct (CultivationBlockchain_init c) as [b c']. exact Hwl.
Qed.

(** X20.  Whatever calls of create_pod, add_plant, update_plant_stage,
    record_growth, record_environment and record_harvest are made on a
    new application, in any order and with any arguments, those that
    raise included: verify_data_integrity returns True afterwards,
    get_blockchain_info returns with is_valid True and the number of
    blocks, and the chain is the chain of the new application, genesis
    block first, followed by at most one block per call. *)
Theorem ledger_stays_valid_under_any_calls (float_repr : Q -> string) (c : Clock)
        (ops : list call) :
  let start := GrowPodEmpire_init c in
  let e := snd (perform_all float_repr ops (snd start, fst start)) in
  verify_data_integrity e = Return true
  /\ (exists info : chain_info,
        get_blockchain_info e = Return info
        /\ is_valid info = true
        /\ total_blocks info = length (chain (blockchain e)))
  /\ exists rest : list Block,
       chain (blockchain e) = chain (blockchain (fst start)) ++ rest
       /\ (length rest <= length ops)%nat.
Proof.
  intros start e.
  destruct (perform_all_well_linked float_repr ops (snd start, fst start)
              (init_well_linked c)) as (Hwl & Hrest).
  fold e in Hwl. unfold verify_data_integrity, get_blockchain_info, get_chain_info.
  rewrite (well_linked_verify _ Hwl).
  destruct (well_linked_last _ Hwl) as [latest Hlast]. rewrite Hlast.
  split; [reflexivity|]. split; [|exact Hrest].
  eexists. split; [reflexivity|]. split; reflexivity.
Qed.

Lemma remove_first_length (x : string) (l : list string) :
  (length (remove_first x l) <= length l)%nat.
Proof.
  induction l as [|y l IH]; cbn [remove_first length]; [lia|].
  destruct (String.eqb y x); cbn [length]; lia.
Qed.

Lemma remove_first_subset (x y : string) (l : list string) :
  y ∈ remove_first x l -> y ∈ l.
Proof.
  induction l as [|z l IH]; cbn [remove_first]; [auto|].
  destruct (String.eqb z x).
  - intros H. apply list_elem_of_further, H.
  - intros H. apply elem_of_cons in H. destruct H as [->|H].
    + apply list_elem_of_here.
    + apply list_elem_of_further, IH, H.
Qed.

Lemma pods_in_order_step (e e' : GrowPodEmpire) :
  pods_in_order e ->
  (forall k : string, is_Some (plants e !! k) -> is_Some (plants e' !! k)) ->
  (forall (k : string) (pod' : GrowPod.t),
      pods e' !! k = Some pod' ->
      (exists pod : GrowPod.t,
          pods e !! k = Some pod
          /\ GrowPod.id pod' = GrowPod.id pod
          /\ GrowPod.capacity pod' = GrowPod.capacity pod
          /\ (length (GrowPod.current_plants pod') <= length (GrowPod.current_plants pod))%nat
          /\ forall p : string,
               p ∈ GrowPod.current_plants pod' -> p ∈ GrowPod.current_plants pod)
      \/ (GrowPod.id pod' = k
          /\ (Z.of_nat (length (GrowPod.current_plants pod'))
              <= Z.max 0 (GrowPod.capacity pod'))%Z
          /\ forall p : string,
               p ∈ GrowPod.current_plants pod' -> is_Some (plants e' !! p))) ->
  pods_in_order e'.
Proof.
  intros Hin Hplants Hpods k pod' Hk.
  destruct (Hpods k pod' Hk) as [(pod & Hold & Hid & Hcap & Hlen & Hsub)|Hnew]; [|exact Hnew].
  destruct (Hin k pod Hold) as (H1 & H2 & H3).
  split; [congruence|]. split; [rewrite Hcap; lia|].
  intros p Hp. apply Hplants, H3, Hsub, Hp.
Qed.

Lemma plants_in_order_step (e e' : GrowPodEmpire) :
  plants_in_order e ->
  (forall k : string, is_Some (pods e !! k) -> is_Some (pods e' !! k)) ->
  (forall (k : string) (plant' : Plant.t),
      plants e' !! k = Some plant' ->
      (exists plant : Plant.t,
          plants e !! k = Some plant
          /\ Plant.id plant' = Plant.id plant
          /\ Plant.pod_id plant' = Plant.pod_id plant)
      \/ (Plant.id plant' = k /\ is_Some (pods e' !! Plant.pod_id plant'))) ->
  plants_in_order e'.
Proof.
  intros Hin Hpods Hplants k plant' Hk.
  destruct (Hplants k plant' Hk) as [(plant & Hold & Hid & Hpid)|Hnew]; [|exact Hnew].
  destruct (Hin k plant Hold) as (H1 & H2).
  split; [congruence|]. rewrite Hpid. apply Hpods, H2.
Qed.

Lemma kept_by_insert {A} (m : gmap string A) (i : string) (x : A) (k : string) :
  is_Some (m !! k) -> is_Some (<[i := x]> m !! k).
Proof.
  intros Hk. rewrite lookup_insert_is_Some. destruct (decide (i = k)); auto.
Qed.

(** A pod that is the old one but for its conditions or for a shorter
    list of plants, at a key that held the old one. *)
Lemma same_pod_at {e : GrowPodEmpire} (k : string) (pod pod' : GrowPod.t) :
  pods e !! k = Some pod ->
  GrowPod.id pod' = GrowPod.id pod ->
  GrowPod.capacity pod' = GrowPod.capacity pod ->
  (length (GrowPod.current_plants pod') <= length (GrowPod.current_plants pod))%nat ->
  (forall p : string, p ∈ GrowPod.current_plants pod' -> p ∈ GrowPod.current_plants pod) ->
  forall (j : string) (q : GrowPod.t),
    <[k := pod']> (pods e) !! j = Some q ->
    exists pod0 : GrowPod.t,
      pods e !! j = Some pod0
      /\ GrowPod.id q = GrowPod.id pod0
      /\ GrowPod.capacity q = GrowPod.capacity pod0
      /\ (length (GrowPod.current_plants q) <= length (GrowPod.current_plants pod0))%nat
      /\ forall p : string, p ∈ GrowPod.current_plants q -> p ∈ GrowPod.current_plants pod0.
Proof.
  intros Hk Hid Hcap Hlen Hsub j q Hj.
  apply lookup_insert_Some in Hj. destruct Hj as [[<- <-]|[Hne Hj]].
  - exists pod. auto.
  - exists q. repeat split; auto.
Qed.

Lemma same_plant_at {e : GrowPodEmpire} (k : string) (plant plant' : Plant.t) :
  plants e !! k = Some plant ->
  Plant.id plant' = Plant.id plant ->
  Plant.pod_id plant' = Plant.pod_id plant ->
  forall (j : string) (q : Plant.t),
    <[k := plant']> (plants e) !! j = Some q ->
    exists plant0 : Plant.t,
      plants e !! j = Some plant0
      /\ Plant.id q = Plant.id plant0
      /\ Plant.pod_id q = Plant.pod_id plant0.
Proof.
  intros Hk Hid Hpid j q Hj.
  apply lookup_insert_Some in Hj. destruct Hj as [[<- <-]|[Hne Hj]].
  - exists plant. auto.
  - exists q. auto.
Qed.

Lemma perform_in_order (float_repr : Q -> string) (op : call) (c : Clock)
      (e : GrowPodEmpire) :
  well_linked (blockchain e) ->
  pods_in_order e /\ plants_in_order e ->
  pods_in_order (snd (snd (perform float_repr op (c, e))))
  /\ plants_in_order (snd (snd (perform float_repr op (c, e)))).
Proof.
  intros Hwl [Hpods Hplants]. destruct (well_linked_last _ Hwl) as [prev Hlast].
  call_cases float_repr op c e prev Hlast; unfold ret; cbn [fst snd];
    try (split; assumption).
  - (* create_pod *)
    split.
    + apply (pods_in_order_step e); [exact Hpods|auto|]. cbn [pods plants set_pods].
      intros k pod' Hk. apply lookup_insert_Some in Hk. destruct Hk as [[<- <-]|[Hne Hk]].
      * right. cbn. split; [reflexivity|]. split; [lia|]. intros p Hp. inversion Hp.
      * left. exists pod'. repeat split; auto.
    + apply (plants_in_order_step e); [exact Hplants| |]; cbn [pods plants set_pods].
      * intros k. apply kept_by_insert.
      * intros k plant' Hk. left. exists plant'. auto.
  - (* add_plant *)
    split.
    + apply (pods_in_order_step e); [exact Hpods| |]; cbn [pods plants].
      * intros k. apply kept_by_insert.
      * intros k pod' Hk. apply lookup_insert_Some in Hk. destruct Hk as [[<- <-]|[Hne Hk]].
        -- right. destruct (Hpods _ _ Hpod) as (H1 & H2 & H3). cbn.
           split; [exact H1|]. split; [rewrite length_app; cbn [length]; lia|].
           intros p Hp. apply elem_of_app in Hp. destruct Hp as [Hp|Hp].
           ++ apply kept_by_insert, H3, Hp.
           ++ apply list_elem_of_singleton in Hp. subst p. rewrite lookup_insert_eq. eauto.
        -- left. exists pod'. repeat split; auto.
    + apply (plants_in_order_step e); [exact Hplants| |]; cbn [pods plants].
      * intros k. apply kept_by_insert.
      * intros k plant' Hk. apply lookup_insert_Some in Hk. destruct Hk as [[<- <-]|[Hne Hk]].
        -- right. cbn. split; [reflexivity|]. rewrite lookup_insert_eq. eauto.
        -- left. exists plant'. auto.
  - (* update_plant_stage *)
    split.
    + apply (pods_in_order_step e); [exact Hpods| |]; cbn [pods plants].
      * intros k. apply kept_by_insert.
      * intros k pod' Hk. left. exists pod'. repeat split; auto.
    + apply (plants_in_order_step e); [exact Hplants|auto|]; cbn [pods plants].
      intros k plant' Hk. left. eapply same_plant_at; [exact Hplant| | |exact Hk]; reflexivity.
  - (* record_growth *)
    split.
    + apply (pods_in_order_step e); [exact Hpods| |]; cbn [pods plants].
      * intros k. apply kept_by_insert.
      * intros k pod' Hk. left. exists pod'. repeat split; auto.
    + apply (plants_in_order_step e); [exact Hplants|auto|]; cbn [pods plants].
      intros k plant' Hk. left. eapply same_plant_at; [exact Hplant| | |exact Hk]; reflexivity.
  - (* record_environment *)
    split.
    + apply (pods_in_order_step e); [exact Hpods|auto|]; cbn [pods plants].
      intros k pod' Hk. left.
      eapply same_pod_at; [exact Hpod| | | | |exact Hk]; cbn; auto.
    + apply (plants_in_order_step e); [exact Hplants| |]; cbn [pods plants].
      * intros k. apply kept_by_insert.
      * intros k plant' Hk. left. exists plant'. auto.
  - (* record_harvest *)
    assert (Hpods' :
              forall (k : string) (pod' : GrowPod.t),
                match pods e !! Plant.pod_id plant with
                | Some pod =>
                    if bool_decide (plant_id ∈ GrowPod.current_plants pod)
                    then <[Plant.pod_id plant :=
                             with_current_plants
                               (remove_first plant_id (GrowPod.current_plants pod)) pod]>
                           (pods e)
                    else pods e
                | None => pods e
                end !! k = Some pod' ->
                exists pod0 : GrowPod.t,
                  pods e !! k = Some pod0
                  /\ GrowPod.id pod' = GrowPod.id pod0
                  /\ GrowPod.capacity pod' = GrowPod.capacity pod0
                  /\ (length (GrowPod.current_plants pod')
                      <= length (GrowPod.current_plants pod0))%nat
                  /\ forall p : string,
                       p ∈ GrowPod.current_plants pod' -> p ∈ GrowPod.current_plants pod0).
    { intros k pod' Hk.
      destruct (pods e !! Plant.pod_id plant) as [pod|] eqn:Hpod;
        [destruct (bool_decide (plant_id ∈ GrowPod.current_plants pod))|];
        try (exists pod'; repeat split; auto; fail).
      eapply same_pod_at; [exact Hpod| | | | |exact Hk]; cbn;
        [reflexivity|reflexivity|apply remove_first_length
        |intros p; apply remove_first_subset]. }
    split.
    + apply (pods_in_order_step e); [exact Hpods| |]; cbn [pods plants].
      * intros k. apply kept_by_insert.
      * intros k pod' Hk. left. exact (Hpods' k pod' Hk).
    + apply (plants_in_order_step e); [exact Hplants| |]; cbn [pods plants].
      * intros k [q Hq].
        destruct (pods e !! Plant.pod_id plant) as [pod|] eqn:Hpod;
          [destruct (bool_decide (plant_id ∈ GrowPod.current_plants pod))|];
          rewrite ?Hq; eauto.
        apply kept_by_insert. eauto.
      * intros k plant' Hk. left.
        eapply same_plant_at; [exact Hplant| | |exact Hk]; reflexivity.
Qed.

Lemma perform_all_in_order (float_repr : Q -> string) (ops : list call)
      (w : Clock * GrowPodEmpire) :
  well_linked (blockchain (snd w)) ->
  pods_in_order (snd w) /\ plants_in_order (snd w) ->
  pods_in_order (snd (perform_all float_repr ops w))
  /\ plants_in_order (snd (perform_all float_repr ops w)).
Proof.
  revert w. induction ops as [|op ops IH]; intros [c e] Hwl Hin; cbn [perform_all snd].
  - exact Hin.
  - cbn [snd] in Hwl, Hin. apply IH.
    + apply (perform_well_linked float_repr op c e Hwl).
    + apply (perform_in_order float_repr op c e Hwl Hin).
Qed.

(** X21.  Whatever calls are made on a new application, in any order
    and with any arguments: every pod is stored under its own id, lists
    at most max(0, capacity) plants, and every plant id it lists is a
    registered plant; every plant is stored under its own id and names
    a pod that exists. *)
Theorem pods_never_exceed_their_capacity (float_repr : Q -> string) (c : Clock)
        (ops : list call) :
  let start := GrowPodEmpire_init c in
  let e := snd (perform_all float_repr ops (snd start, fst start)) in
  (forall (pod_id : string) (pod : GrowPod.t),
      get_pod e pod_id = Some pod ->
      GrowPod.id pod = pod_id
      /\ (Z.of_nat (length (GrowPod.current_plants pod)) <= Z.max 0 (GrowPod.capacity pod))%Z
      /\ forall plant_id : string,
           plant_id ∈ GrowPod.current_plants pod ->
           exists plant : Plant.t, get_plant e plant_id = Some plant)
  /\ (forall (plant_id : string) (plant : Plant.t),
        get_plant e plant_id = Some plant ->
        Plant.id plant = plant_id
        /\ exists pod : GrowPod.t, get_pod e (Plant.pod_id plant) = Some pod).
Proof.
  intros start e.
  assert (Hstart : pods_in_order (fst start) /\ plants_in_order (fst start)).
  { unfold start, GrowPodEmpire_init. destruct (CultivationBlockchain_init c) as [b c'].
    split; intros k x Hk; cbn in Hk; rewrite lookup_empty in Hk; discriminate Hk. }
  destruct (perform_all_in_order float_repr ops (snd start, fst start)
              (init_well_linked c) Hstart) as [Hpods Hplants].
  fold e in Hpods, Hplants. split.
  - intros pod_id pod Hpod. destruct (Hpods pod_id pod Hpod) as (H1 & H2 & H3).
    split; [exact H1|]. split; [exact H2|]. intros plant_id Hin. exact (H3 plant_id Hin).
  - intros plant_id plant Hplant. exact (Hplants plant_id plant Hplant).
Qed.

End AppMore.

(* ===================================================================== *)
(** ** The coordinator, further: statistics, stages, harvest, environment *)
(* ===================================================================== *)

Module StatsFacts.
Import PyTime Json Py Models Num Examples NumFacts LedgerFacts GrowthFacts AppFacts LedgerMore.
Import AppMore.
Import Ledger Growth App.
Local Open Scope Q_scope.
#[local] Arguments calculate_hash : simpl never.
#[local] Arguments isoformat : simpl never.

(** *** Counting the values of a dictionary *)

Lemma length_filter_cons {A} (P : A -> Prop) `{forall x, Decision (P x)} (x : A) (l : list A) :
  length (filter P (x :: l)) = ((if decide (P x) then 1 else 0) + length (filter P l))%nat.
Proof. rewrite filter_cons. destruct (decide (P x)); reflexivity. Qed.

(** Assigning to the value under a key that is present changes a count
    of the values by what the old and the new value contribute. *)
Lemma count_after_replace {A} (P : A -> Prop) `{forall x, Decision (P x)}
      (m : gmap string A) (k : string) (v v' : A) :
  m !! k = Some v ->
  (length (filter P (map snd (map_to_list (<[k := v']> m)))) + (if decide (P v) then 1 else 0)
   = length (filter P (map snd (map_to_list m))) + (if decide (P v') then 1 else 0))%nat.
Proof.
  intros Hk.
  assert (H1 : map snd (map_to_list m) ≡ₚ v :: map snd (map_to_list (delete k m))).
  { rewrite <- (map_to_list_delete m k v Hk). reflexivity. }
  assert (H2 : map snd (map_to_list (<[k := v']> m))
               ≡ₚ v' :: map snd (map_to_list (delete k m))).
  { rewrite <- (insert_delete_eq m k v').
    rewrite (map_to_list_insert (delete k m) k v' (lookup_delete_eq m k)). reflexivity. }
  rewrite H1, H2, !length_filter_cons. lia.
Qed.

(** The six counts of [plants_by_stage] add up to the number of active
    plants, and the count for "harvest" is zero. *)
Lemma stage_counts_partition (l : list Plant.t) :
  let active := filter (fun p => Plant.growth_stage p <> HARVEST) l in
  let n (stage : GrowthStage) := length (filter (fun p => Plant.growth_stage p = stage) active) in
  (n SEED + (n GERMINATION + (n SEEDLING + (n VEGETATIVE + (n FLOWERING + (n HARVEST + 0)))))
   = length active)%nat
  /\ n HARVEST = 0%nat.
Proof.
  cbv zeta. induction l as [|a l [IH1 IH2]]; [split; reflexivity|].
  rewrite (filter_cons _ a l).
  destruct (decide (Plant.growth_stage a <> HARVEST)) as [Ha|Ha]; [|split; assumption].
  rewrite !length_filter_cons. cbn [length].
  destruct (Plant.growth_stage a) eqn:E; try congruence;
    repeat (destruct (decide _) as [?|?]; try congruence); split; lia.
Qed.

Lemma verify_chain_returns (self : CultivationBlockchain) :
  exists valid : bool, verify_chain self = Return valid.
Proof.
  destruct self as [[|g rest]]; [exists true; reflexivity|].
  rewrite verify_chain_links. eauto.
Qed.

(** What [get_system_stats] returns, field by field. *)
Lemma get_system_stats_fields (e : GrowPodEmpire) (s : system_stats) :
  get_system_stats e = Return s ->
  let plant_values := map snd (map_to_list (plants e)) in
  let pod_values := map snd (map_to_list (pods e)) in
  let active := filter (fun p => Plant.growth_stage p <> HARVEST) plant_values in
  chain (blockchain e) <> []
  /\ total_pods s = size (pods e)
  /\ active_pods s = length (filter (fun p => GrowPod.active p = true) pod_values)
  /\ total_plants s = size (plants e)
  /\ active_plants s = length active
  /\ plants_by_stage s
     = map (fun stage =>
              (GrowthStage_value stage,
               length (filter (fun p => Plant.growth_stage p = stage) active)))
           GrowthStage_members
  /\ get_blockchain_info e = Return (blockchain_info s)
  /\ verify_data_integrity e = Return (data_integrity s).
Proof.
  unfold get_system_stats, get_blockchain_info, verify_data_integrity, get_chain_info.
  destruct (verify_chain_returns (blockchain e)) as [valid Hv]. rewrite Hv.
  destruct (last (chain (blockchain e))) as [latest|] eqn:Hlast; [|discriminate].
  intros Hs. injection Hs as <-. cbv zeta. cbn.
  split; [intros Hnil; rewrite Hnil in Hlast; discriminate Hlast|].
  repeat split; reflexivity.
Qed.

Lemma get_system_stats_returns (e : GrowPodEmpire) :
  chain (blockchain e) <> [] -> exists s : system_stats, get_system_stats e = Return s.
Proof.
  intros Hne. unfold get_system_stats, verify_data_integrity, get_chain_info.
  destruct (verify_chain_returns (blockchain e)) as [valid Hv]. rewrite Hv.
  destruct (last_is_Some _ Hne) as [latest Hlast]. rewrite Hlast. eauto.
Qed.

Lemma bucket_of_stage (n : GrowthStage -> nat) (stage : GrowthStage) :
  bucket (GrowthStage_value stage)
         (map (fun st => (GrowthStage_value st, n st)) GrowthStage_members)
  = Some (n stage).
Proof. destruct stage; reflexivity. Qed.

(** X22.  get_system_stats raises, an IndexError, exactly when the
    ledger chain is empty.  In what it returns: plants_by_stage has one
    entry for each of the six stages, in the order of the enumeration;
    the entry for "harvest" is always 0, because harvested plants are
    not among the active ones; the six entries add up to
    active_plants; active_plants is at most total_plants and
    active_pods at most total_pods; data_integrity is the is_valid of
    the blockchain entry and what verify_data_integrity returns, and
    total_blocks is the length of the chain. *)
Theorem system_stats_are_consistent (e : GrowPodEmpire) :
  match get_system_stats e with
  | Return s =>
      chain (blockchain e) <> []
      /\ map fst (plants_by_stage s) = map GrowthStage_value GrowthStage_members
      /\ bucket "harvest" (plants_by_stage s) = Some 0%nat
      /\ sum_list (map snd (plants_by_stage s)) = active_plants s
      /\ (active_plants s <= total_plants s)%nat
      /\ (active_pods s <= total_pods s)%nat
      /\ total_plants s = size (plants e)
      /\ total_pods s = size (pods e)
      /\ data_integrity s = is_valid (blockchain_info s)
      /\ verify_data_integrity e = Return (data_integrity s)
      /\ total_blocks (blockchain_info s) = length (chain (blockchain e))
  | Raise err =>
      chain (blockchain e) = [] /\ err = IndexError "list index out of range"
  end.
Proof.
  destruct (get_system_stats e) as [s|err] eqn:Hs.
  - destruct (get_system_stats_fields e s Hs)
      as (Hne & Hp1 & Hp2 & Hq1 & Hq2 & Hby & Hinfo & Hver).
    destruct (stage_counts_partition (map snd (map_to_list (plants e)))) as [Hsum Hzero].
    cbv zeta in Hsum, Hzero.
    split; [exact Hne|]. rewrite Hby, Hq1, Hq2, Hp1, Hp2.
    split; [reflexivity|].
    split; [change "harvest"%string with (GrowthStage_value HARVEST);
            rewrite (bucket_of_stage _ HARVEST), Hzero; reflexivity|].
    split; [exact Hsum|].
    split; [rewrite <- length_map_to_list, <- (length_map snd (map_to_list (plants e)));
            apply length_filter|].
    split; [rewrite <- length_map_to_list, <- (length_map snd (map_to_list (pods e)));
            apply length_filter|].
    split; [reflexivity|]. split; [reflexivity|]. split; [|split; [exact Hver|]].
    + unfold get_blockchain_info, get_chain_info in Hinfo.
      unfold verify_data_integrity in Hver. rewrite Hver in Hinfo.
      destruct (last (chain (blockchain e))); [|discriminate Hinfo].
      injection Hinfo as <-. reflexivity.
    + unfold get_blockchain_info, get_chain_info in Hinfo.
      destruct (verify_chain (blockchain e)); [|discriminate Hinfo].
      destruct (last (chain (blockchain e))); [|discriminate Hinfo].
      injection Hinfo as <-. reflexivity.
  - destruct (chain (blockchain e)) as [|g rest] eqn:Hc.
    + split; [reflexivity|]. unfold get_system_stats, get_chain_info in Hs.
      destruct (blockchain e) as [l]. cbn in Hc. subst l. cbn in Hs. congruence.
    + destruct (get_system_stats_returns e) as [s Hs']; [rewrite Hc; discriminate|].
      congruence.
Qed.

(** The counts of [get_system_stats] after the stage of one plant was
    assigned. *)
Lemma counts_after_restage (e e' : GrowPodEmpire) (k : string) (plant : Plant.t)
      (stage : GrowthStage) (s s' : system_stats) :
  plants e !! k = Some plant ->
  plants e' = <[k := with_stage stage plant]> (plants e) ->
  get_system_stats e = Return s ->
  get_system_stats e' = Return s' ->
  total_plants s' = total_plants s
  /\ (active_plants s' + one_if (Plant.growth_stage plant <> HARVEST)
      = active_plants s + one_if (stage <> HARVEST))%nat
  /\ forall st : GrowthStage,
       exists n n' : nat,
         bucket (GrowthStage_value st) (plants_by_stage s) = Some n
         /\ bucket (GrowthStage_value st) (plants_by_stage s') = Some n'
         /\ (n' + one_if (Plant.growth_stage plant = st /\ st <> HARVEST)
             = n + one_if (stage = st /\ st <> HARVEST))%nat.
Proof.
  intros Hk Hplants Hs Hs'.
  destruct (get_system_stats_fields e s Hs) as (_ & _ & _ & Hq1 & Hq2 & Hby & _).
  destruct (get_system_stats_fields e' s' Hs') as (_ & _ & _ & Hq1' & Hq2' & Hby' & _).
  cbv zeta in *. rewrite Hplants in Hq1', Hq2', Hby'.
  split; [rewrite Hq1, Hq1'; apply map_size_insert_Some; eauto|]. split.
  - rewrite Hq2, Hq2'.
    pose proof (count_after_replace (fun p => Plant.growth_stage p <> HARVEST)
                  (plants e) k plant (with_stage stage plant) Hk) as Hc.
    cbn [with_stage Plant.growth_stage] in Hc. unfold one_if.
    repeat destruct (decide _); try tauto; lia.
  - intros st. rewrite Hby, Hby', !bucket_of_stage. eexists _, _.
    split; [reflexivity|]. split; [reflexivity|].
    rewrite !list_filter_filter.
    pose proof (count_after_replace
                  (fun p => Plant.growth_stage p = st /\ Plant.growth_stage p <> HARVEST)
                  (plants e) k plant (with_stage stage plant) Hk) as Hc.
    cbn [with_stage Plant.growth_stage] in Hc. unfold one_if.
    repeat destruct (decide _); try tauto; try congruence; try lia;
      exfalso; intuition congruence.
Qed.

(** X23.  update_plant_stage on a registered plant, with a ledger that
    is not empty, accepts every stage, earlier ones and the present one
    included.  It returns the plant with the stage assigned, which is
    also what get_plant returns afterwards; the other plants and the
    pods stay as they were; the new last block of the ledger carries
    the action "stage_change" with the stage before and the stage
    after.  In get_system_stats the number of plants is unchanged, and
    the plant is counted under its new stage instead of its old one,
    where a plant in stage harvest is counted under no stage and not
    among the active plants. *)
Theorem stage_update_is_recorded_and_counted (plant_id : string) (stage : GrowthStage)
        (c : Clock) (e : GrowPodEmpire) (plant : Plant.t) :
  get_plant e plant_id = Some plant ->
  chain (blockchain e) <> [] ->
  let result := update_plant_stage plant_id stage (c, e) in
  let e' := snd (snd result) in
  let old_stage := Plant.growth_stage plant in
  fst result = Return (with_stage stage plant)
  /\ get_plant e' plant_id = Some (with_stage stage plant)
  /\ (forall other : string, other <> plant_id -> get_plant e' other = get_plant e other)
  /\ pods e' = pods e
  /\ (exists nb : Block,
        last (chain (blockchain e')) = Some nb
        /\ dict_get "data" (data nb) VNone
           = VDict [ ("action", VStr "stage_change");
                     ("old_stage", VStr (GrowthStage_value old_stage));
                     ("new_stage", VStr (GrowthStage_value stage)) ])
  /\ exists s s' : system_stats,
       get_system_stats e = Return s
       /\ get_system_stats e' = Return s'
       /\ total_plants s' = total_plants s
       /\ (active_plants s' + one_if (old_stage <> HARVEST)
           = active_plants s + one_if (stage <> HARVEST))%nat
       /\ forall st : GrowthStage,
            exists n n' : nat,
              bucket (GrowthStage_value st) (plants_by_stage s) = Some n
              /\ bucket (GrowthStage_value st) (plants_by_stage s') = Some n'
              /\ (n' + one_if (old_stage = st /\ st <> HARVEST)
                  = n + one_if (stage = st /\ st <> HARVEST))%nat.
Proof.
  intros Hplant Hne result e' old_stage. unfold get_plant in Hplant.
  destruct (last_is_Some _ Hne) as [prev Hlast].
  subst e' result. rewrite (update_plant_stage_run plant_id stage c e plant prev Hplant Hlast).
  cbn [fst snd]. unfold get_plant. cbn [plants pods blockchain chain].
  split; [reflexivity|]. split; [apply lookup_insert_eq|].
  split; [intros other Hother; apply lookup_insert_ne; congruence|].
  split; [reflexivity|].
  split; [eexists; split; [apply last_snoc|reflexivity]|].
  destruct (get_system_stats_returns e Hne) as [s Hs].
  match goal with
  | |- exists _ _, _ /\ get_system_stats ?e1 = _ /\ _ =>
      destruct (get_system_stats_returns e1) as [s' Hs'];
      [cbn [blockchain chain]; intros Hnil; apply app_eq_nil in Hnil;
       destruct Hnil as [_ Hnil]; discriminate Hnil|];
      destruct (counts_after_restage e e1 plant_id plant stage s s' Hplant eq_refl Hs Hs')
        as (H1 & H2 & H3)
  end.
  exists s, s'. split; [exact Hs|]. split; [exact Hs'|]. split; [exact H1|].
  split; [exact H2|exact H3].
Qed.

Lemma stage_update_is_recorded_and_counted_witness :
  get_plant (snd empire_with_plant) "plant-1" = Some seed_plant
  /\ chain (blockchain (snd empire_with_plant)) <> []
  /\ fst (update_plant_stage "plant-1" FLOWERING empire_with_plant)
     = Return (with_stage FLOWERING seed_plant)
  /\ get_plant (snd (snd (update_plant_stage "plant-1" FLOWERING empire_with_plant))) "plant-1"
     = Some (with_stage FLOWERING seed_plant).
Proof.
  assert (Hplant : get_plant (snd empire_with_plant) "plant-1" = Some seed_plant)
    by (vm_compute; reflexivity).
  assert (Hne : chain (blockchain (snd empire_with_plant)) <> [])
    by (vm_compute; discriminate).
  destruct (stage_update_is_recorded_and_counted "plant-1" FLOWERING
              (fst empire_with_plant) (snd empire_with_plant) seed_plant Hplant Hne)
    as (H1 & H2 & _).
  replace (fst empire_with_plant, snd empire_with_plant) with empire_with_plant in H1, H2
    by (destruct empire_with_plant; reflexivity).
  split; [exact Hplant|]. split; [exact Hne|]. split; [exact H1|exact H2].
Defined.

Lemma remove_first_present (x : string) (l : list string) :
  x ∈ l -> S (length (remove_first x l)) = length l.
Proof.
  induction l as [|y l IH]; intros Hin; [inversion Hin|].
  cbn [remove_first]. destruct (String.eqb_spec y x) as [->|Hne]; [reflexivity|].
  cbn [length]. f_equal. apply IH.
  apply elem_of_cons in Hin. destruct Hin as [->|Hin]; [contradiction|exact Hin].
Qed.

Lemma remove_first_absent (x : string) (l : list string) :
  x ∉ l -> remove_first x l = l.
Proof.
  induction l as [|y l IH]; intros Hnot; [reflexivity|].
  cbn [remove_first]. destruct (String.eqb_spec y x) as [->|Hne].
  - exfalso. apply Hnot, list_elem_of_here.
  - f_equal. apply IH. intros Hin. apply Hnot, list_elem_of_further, Hin.
Qed.

(** X24.  record_harvest on a registered plant, with a ledger that is
    not empty, returns whatever the stage of the plant, harvested
    already or not.  The report names the plant and its strain, the
    harvest date is the text of the first clock reading, and
    days_to_harvest is the whole number of days, rounded down, from the
    planting date to the second clock reading; its ledger record has
    type "harvest" and the number of the block appended.  The plant
    stays registered, now in stage harvest, and the other plants are
    untouched.  The pod that the plant names loses the first occurrence
    of the plant id from its list, one entry less when it listed the
    plant, and the other pods are untouched.  In get_system_stats the
    number of plants is unchanged and the number of active plants is
    one less, unless the plant was in stage harvest before. *)
Theorem harvest_keeps_the_plant_and_frees_its_place (float_repr : Q -> string)
        (plant_id : string) (yield_amount quality_score : Q)
        (c : Clock) (e : GrowPodEmpire) (plant : Plant.t) :
  get_plant e plant_id = Some plant ->
  chain (blockchain e) <> [] ->
  let result := App.record_harvest float_repr plant_id yield_amount quality_score (c, e) in
  let e' := snd (snd result) in
  (exists report : harvest_report,
      fst result = Return report
      /\ harvest_plant_id report = plant_id
      /\ harvest_strain report = Plant.strain plant
      /\ harvest_date report = isoformat (wall c (ticks c))
      /\ App.yield_amount report = yield_amount
      /\ App.quality_score report = quality_score
      /\ days_to_harvest report
         = ((wall c (S (ticks c)) - Plant.planted_date plant) / us_per_day)%Z
      /\ BlockchainRecord.record_type (blockchain_record report) = "harvest"
      /\ BlockchainRecord.record_id (blockchain_record report) = plant_id
      /\ BlockchainRecord.block_number (blockchain_record report)
         = Z.of_nat (length (chain (blockchain e))))
  /\ length (chain (blockchain e')) = S (length (chain (blockchain e)))
  /\ get_plant e' plant_id = Some (with_stage HARVEST plant)
  /\ (forall other : string, other <> plant_id -> get_plant e' other = get_plant e other)
  /\ (forall pod : GrowPod.t,
        get_pod e (Plant.pod_id plant) = Some pod ->
        get_pod e' (Plant.pod_id plant)
        = Some (with_current_plants (remove_first plant_id (GrowPod.current_plants pod)) pod)
        /\ (plant_id ∈ GrowPod.current_plants pod ->
            S (length (remove_first plant_id (GrowPod.current_plants pod)))
            = length (GrowPod.current_plants pod)))
  /\ (forall other : string,
        other <> Plant.pod_id plant -> get_pod e' other = get_pod e other)
  /\ exists s s' : system_stats,
       get_system_stats e = Return s
       /\ get_system_stats e' = Return s'
       /\ total_plants s' = total_plants s
       /\ (active_plants s' + one_if (Plant.growth_stage plant <> HARVEST)
           = active_plants s)%nat.
Proof.
  intros Hplant Hne result e'. unfold get_plant in Hplant.
  destruct (last_is_Some _ Hne) as [prev Hlast].
  pose proof (record_harvest_run float_repr plant_id yield_amount quality_score c e plant prev
                Hplant Hlast) as Hrun.
  cbv zeta in Hrun. subst e' result. rewrite Hrun. clear Hrun.
  cbn [fst snd]. unfold get_plant, get_pod. cbn [plants pods blockchain chain].
  split.
  { eexists. split; [reflexivity|]. cbn. repeat split; reflexivity. }
  split; [rewrite length_app; cbn [length]; lia|].
  split; [apply lookup_insert_eq|].
  split; [intros other Hother; apply lookup_insert_ne; congruence|].
  split.
  { intros pod Hpod. rewrite Hpod. split; [|apply remove_first_present].
    destruct (bool_decide (plant_id ∈ GrowPod.current_plants pod)) eqn:Hin.
    - apply lookup_insert_eq.
    - apply bool_decide_eq_false in Hin. rewrite (remove_first_absent _ _ Hin), Hpod.
      destruct pod; reflexivity. }
  split.
  { intros other Hother.
    destruct (pods e !! Plant.pod_id plant) as [pod|]; [|reflexivity].
    destruct (bool_decide (plant_id ∈ GrowPod.current_plants pod)); [|reflexivity].
    apply lookup_insert_ne. congruence. }
  destruct (get_system_stats_returns e Hne) as [s Hs].
  match goal with
  | |- exists _ _, _ /\ get_system_stats ?e1 = _ /\ _ =>
      destruct (get_system_stats_returns e1) as [s' Hs'];
      [cbn [blockchain chain]; intros Hnil; apply app_eq_nil in Hnil;
       destruct Hnil as [_ Hnil]; discriminate Hnil|];
      destruct (counts_after_restage e e1 plant_id plant HARVEST s s' Hplant eq_refl Hs Hs')
        as (H1 & H2 & _)
  end.
  exists s, s'. split; [exact Hs|]. split; [exact Hs'|]. split; [exact H1|].
  revert H2. unfold one_if. repeat destruct (decide _); try tauto; lia.
Qed.

Lemma harvest_keeps_the_plant_and_frees_its_place_witness :
  get_plant (snd empire_with_plant) "plant-1" = Some seed_plant
  /\ chain (blockchain (snd empire_with_plant)) <> []
  /\ get_plant (snd (snd (App.record_harvest fraction_repr "plant-1" 120 9
                            empire_with_plant))) "plant-1"
     = Some (with_stage HARVEST seed_plant)
  /\ length (chain (blockchain (snd (snd (App.record_harvest fraction_repr "plant-1" 120 9
                                            empire_with_plant)))))
     = S (length (chain (blockchain (snd empire_with_plant)))).
Proof.
  assert (Hplant : get_plant (snd empire_with_plant) "plant-1" = Some seed_plant)
    by (vm_compute; reflexivity).
  assert (Hne : chain (blockchain (snd empire_with_plant)) <> [])
    by (vm_compute; discriminate).
  destruct (harvest_keeps_the_plant_and_frees_its_place fraction_repr "plant-1" 120 9
              (fst empire_with_plant) (snd empire_with_plant) seed_plant Hplant Hne)
    as (_ & H1 & H2 & _).
  replace (fst empire_with_plant, snd empire_with_plant) with empire_with_plant in H1, H2
    by (destruct empire_with_plant; reflexivity).
  split; [exact Hplant|]. split; [exact Hne|]. split; [exact H2|exact H1].
Defined.

(** X25.  record_environment on a known pod, with a ledger that is not
    empty, returns what the monitor's record_conditions returns for the
    sample: the flag True, the text of the sample's timestamp, its
    analysis and its alerts.  Afterwards the sample is the pod's
    current_conditions, with the pod's id, name, capacity, plants and
    active flag unchanged, the sample is the last of the pod's history
    in the monitor, the plants and the other pods are untouched, and
    the new last block of the ledger has type "environmental_data", the
    pod id as id, and the six fields of the sample as data, the
    timestamp among them, which the hash takes as its ISO text. *)
Theorem environment_record_reaches_pod_monitor_and_ledger (float_repr : Q -> string)
        (pod_id : string) (conditions : EnvironmentalCondition.t)
        (c : Clock) (e : GrowPodEmpire) (pod : GrowPod.t) :
  get_pod e pod_id = Some pod ->
  chain (blockchain e) <> [] ->
  let result := record_environment float_repr pod_id conditions (c, e) in
  let e' := snd (snd result) in
  fst result
  = Return (Env.MkRecorded true (isoformat (EnvironmentalCondition.timestamp conditions))
                           (Env._analyze_conditions conditions)
                           (Env._generate_alerts float_repr conditions))
  /\ get_pod e' pod_id = Some (with_current_conditions conditions pod)
  /\ (forall other : string, other <> pod_id -> get_pod e' other = get_pod e other)
  /\ plants e' = plants e
  /\ last (default [] (Env.condition_history (environmental_monitor e') !! pod_id))
     = Some conditions
  /\ exists nb : Block,
       chain (blockchain e') = chain (blockchain e) ++ [nb]
       /\ dict_get "type" (data nb) VNone = VStr "environmental_data"
       /\ dict_get "id" (data nb) VNone = VStr pod_id
       /\ dict_get "data" (data nb) VNone = VDict (model_dump float_repr conditions)
       /\ _make_serializable (VDict (model_dump float_repr conditions))
          = JDict [ ("timestamp",
                     JStr (isoformat (EnvironmentalCondition.timestamp conditions)));
                    ("temperature",
                     JFloat (float_repr (EnvironmentalCondition.temperature conditions)));
                    ("humidity",
                     JFloat (float_repr (EnvironmentalCondition.humidity conditions)));
                    ("co2_level",
                     JFloat (float_repr (EnvironmentalCondition.co2_level conditions)));
                    ("light_intensity",
                     JFloat (float_repr (EnvironmentalCondition.light_intensity conditions)));
                    ("ph_level",
                     JFloat (float_repr (EnvironmentalCondition.ph_level conditions))) ].
Proof.
  intros Hpod Hne result e'. unfold get_pod in Hpod.
  destruct (last_is_Some _ Hne) as [prev Hlast].
  subst e' result.
  rewrite (record_environment_run float_repr pod_id conditions c e pod prev Hpod Hlast).
  cbn [fst snd]. unfold get_pod. cbn [plants pods blockchain chain environmental_monitor].
  unfold Env.record_conditions, bind, get, put, ret. cbn [fst snd Env.condition_history].
  split; [reflexivity|]. split; [apply lookup_insert_eq|].
  split; [intros other Hother; apply lookup_insert_ne; congruence|].
  split; [reflexivity|].
  split; [rewrite lookup_insert_eq; cbn [default]; apply last_snoc|].
  eexists. split; [reflexivity|]. repeat split; reflexivity.
Qed.

Lemma environment_record_reaches_pod_monitor_and_ledger_witness :
  get_pod (snd empire_with_pod) "pod-1" = Some empty_pod
  /\ chain (blockchain (snd empire_with_pod)) <> []
  /\ get_pod (snd (snd (record_environment fraction_repr "pod-1" (sample_condition 24 50 800)
                          empire_with_pod))) "pod-1"
     = Some (with_current_conditions (sample_condition 24 50 800) empty_pod).
Proof.
  assert (Hpod : get_pod (snd empire_with_pod) "pod-1" = Some empty_pod)
    by (vm_compute; reflexivity).
  assert (Hne : chain (blockchain (snd empire_with_pod)) <> [])
    by (vm_compute; discriminate).
  destruct (environment_record_reaches_pod_monitor_and_ledger fraction_repr "pod-1"
              (sample_condition 24 50 800)
              (fst empire_with_pod) (snd empire_with_pod) empty_pod Hpod Hne)
    as (_ & H1 & _).
  replace (fst empire_with_pod, snd empire_with_pod) with empire_with_pod in H1
    by (destruct empire_with_pod; reflexivity).
  split; [exact Hpod|]. split; [exact Hne|exact H1].
Defined.

End StatsFacts.
